(** * Multi-stock ATR + Bollinger Bands trading bot

    A shallow embedding of [demo/multistock/multistock.go] (package [main] of
    the multistock demo of 0xnu/trading212) and the properties of its
    rolling price history, its indicator computations and its entry/exit
    rules.

    Conventions of the embedding:
    - Go [float64] is IEEE 754 binary64, modelled by the Standard Library's
      executable specification [spec_float] with [prec = 53], [emax = 1024]
      and round-to-nearest-even; operations are not fused.
    - Go [int] is a 64-bit two's complement integer, modelled as [Z] with the
      wrap-around of [+], [-] and unary [-] written out.
    - A slice is a [list]; indexing and re-slicing out of range panic, which
      is the [None] of the error monad.
    - [bot.stocks] is a [gmap] from tickers to records; the order in which a
      [range] loop visits it is chosen by the Go runtime and is a parameter.
    - The brokerage client and the clock are external: they are the methods
      of the [Runtime] class; submitted orders and log lines are recorded in
      a trace. *)

From Stdlib Require Import ZArith Lia Bool SpecFloat.
From Stdlib Require DecimalString.
From stdpp Require Import base option list gmap strings.

Open Scope Z_scope.

(** ** 64-bit integers *)

Module Int.
Definition min_int : Z := - 2 ^ 63.
Definition max_int : Z := 2 ^ 63 - 1.

Definition in_range (z : Z) : bool := (min_int <=? z) && (z <=? max_int).

(** Two's complement wrap-around of a mathematical integer. *)
Definition wrap (z : Z) : Z := (z + 2 ^ 63) mod 2 ^ 64 - 2 ^ 63.

Definition add (a b : Z) : Z := wrap (a + b).
Definition sub (a b : Z) : Z := wrap (a - b).
Definition neg (a : Z) : Z := wrap (- a).
End Int.

(** ** binary64 floating point *)

Module F64.
Definition float64 : Type := spec_float.

Definition prec : Z := 53.
Definition emax : Z := 1024.

Definition zero : float64 := S754_zero false.

Definition add : float64 → float64 → float64 := SFadd prec emax.
Definition sub : float64 → float64 → float64 := SFsub prec emax.
Definition mul : float64 → float64 → float64 := SFmul prec emax.
Definition div : float64 → float64 → float64 := SFdiv prec emax.

(** Go's comparison operators on [float64]: every comparison with a NaN
    is false, except [!=]. *)
Definition eqb (x y : float64) : bool := SFeqb x y.
Definition neqb (x y : float64) : bool := negb (SFeqb x y).
Definition ltb (x y : float64) : bool := SFltb x y.
Definition leb (x y : float64) : bool := SFleb x y.
Definition gtb (x y : float64) : bool := SFltb y x.
Definition geb (x y : float64) : bool := SFleb y x.

(** [float64(n)] for an [int] [n]: rounding to the nearest float. *)
Definition of_int (n : Z) : float64 := binary_normalize prec emax n 0 false.

(** A decimal constant [n/d] of the source text, such as [1.005]: the
    compiler rounds the exact rational to the nearest float, which is what
    the correctly rounded quotient of two exactly representable integers
    is. *)
Definition lit (n d : Z) : float64 := div (of_int n) (of_int d).

(** The integer part of a float, truncated toward zero; [None] for NaN
    and the infinities. *)
Definition trunc (x : float64) : option Z :=
  match x with
  | S754_zero _ => Some 0
  | S754_finite s m e =>
      Some (cond_Zopp s (if 0 <=? e then Z.pos m * 2 ^ e else Z.pos m / 2 ^ (- e)))
  | _ => None
  end.

(** [int(x)] for a [float64] [x]. When the truncated value does not fit in
    an [int] the Go specification leaves the result to the implementation;
    amd64 yields the most negative [int], which is what is modelled. *)
Definition to_int (x : float64) : Z :=
  match trunc x with
  | Some z => if Int.in_range z then z else Int.min_int
  | None => Int.min_int
  end.

Definition is_pos_inf (x : float64) : bool :=
  match x with S754_infinity false => true | _ => false end.
Definition is_nan (x : float64) : bool :=
  match x with S754_nan => true | _ => false end.
(** [math.Signbit]. A NaN of the model carries no sign bit, so the sign of
    a NaN is not known ([None]); [Max] asks for the sign of a zero only. *)
Definition signbit (x : float64) : option bool :=
  match x with
  | S754_zero s | S754_infinity s | S754_finite s _ _ => Some s
  | S754_nan => None
  end.

(** [math.Abs], [math.Sqrt] and [math.Max] of Go's standard library;
    [Max] with its special cases for infinities, NaN and signed zeros. *)
Definition Abs (x : float64) : float64 := SFabs x.
Definition Sqrt (x : float64) : float64 := SFsqrt prec emax x.
Definition Max (x y : float64) : float64 :=
  if is_pos_inf x || is_pos_inf y then S754_infinity false
  else if is_nan x || is_nan y then S754_nan
  else if eqb x zero && eqb x y
       then (match signbit x with Some true => y | _ => x end)
  else if gtb x y then x
  else y.
End F64.

Import F64.

(** ** Slices and loops *)

(** [len(s)]. *)
Definition len {A} (s : list A) : Z := Z.of_nat (length s).

(** [s[i]]; out of range is a panic. *)
Definition index {A} (s : list A) (i : Z) : option A :=
  if i <? 0 then None else s !! Z.to_nat i.

(** [s[lo:]]; out of range is a panic. *)
Definition slice_from {A} (s : list A) (lo : Z) : option (list A) :=
  if (lo <? 0) || (len s <? lo) then None else Some (drop (Z.to_nat lo) s).

(** [for i := lo; i < hi; i++ { body }] over a loop state [T], where the body
    changes neither [i] nor [hi]; the body may panic. *)
Fixpoint for_range {T} (n : nat) (i : Z) (body : Z → T → option T) (s : T)
  : option T :=
  match n with
  | O => Some s
  | S n' => s' ← body i s; for_range n' (i + 1) body s'
  end.

Definition for_loop {T} (lo hi : Z) (body : Z → T → option T) (s : T)
  : option T :=
  for_range (Z.to_nat (hi - lo)) lo body s.

(** ** Data model *)

Record PriceData := {
  Price : float64;
  High : float64;
  Low : float64;
  Close : float64
}.

Record TradingIndicators := {
  ATR : float64;
  UpperBand : float64;
  MiddleBand : float64;
  LowerBand : float64;
  StdDev : float64
}.

(** [time.Time], as an opaque instant. *)
Definition Time : Type := Z.

Record StockData := {
  Ticker : string;
  PriceHistory : list PriceData;
  Indicators : TradingIndicators;
  CurrentPrice : float64;
  LastUpdate : Time
}.

(** The part of package [trading212] (main.go) that the bot uses. *)
Module trading212.
Record Position := {
  Ticker : string;
  Quantity : float64;
  Value : float64
}.
End trading212.

(** [TradingBot] without its [client] (see [Runtime]) and its [mutex]. *)
Record TradingBot := {
  stocks : gmap string StockData;
  riskPercent : float64;
  atrPeriod : Z;
  bollingerPeriod : Z
}.

(** [TradingIndicators{}], the zero value. *)
Definition zeroIndicators : TradingIndicators :=
  {| ATR := zero; UpperBand := zero; MiddleBand := zero;
     LowerBand := zero; StdDev := zero |}.

(** ** Indicator computations *)

(** [int(math.Max(float64(bot.atrPeriod), float64(bot.bollingerPeriod)))],
    the expression that [updateAllPrices], [calculateAllIndicators],
    [executeTrading] and [calculateIndicators] each spell out. *)
Definition maxHistory (bot : TradingBot) : Z :=
  to_int (Max (of_int (atrPeriod bot)) (of_int (bollingerPeriod bot))).

Definition calculateATR (bot : TradingBot) (priceHistory : list PriceData)
  : option float64 :=
  if len priceHistory <? Int.add (atrPeriod bot) 1 then Some zero
  else
    trueRanges ← for_loop 1 (len priceHistory) (λ i trueRanges,
      current ← index priceHistory i;
      previous ← index priceHistory (i - 1);
      let tr1 := sub (High current) (Low current) in
      let tr2 := Abs (sub (High current) (Close previous)) in
      let tr3 := Abs (sub (Low current) (Close previous)) in
      let trueRange := Max tr1 (Max tr2 tr3) in
      Some (trueRanges ++ [trueRange])) [];
    if len trueRanges <? atrPeriod bot then Some zero
    else
      let start := Int.sub (len trueRanges) (atrPeriod bot) in
      sum ← for_loop start (len trueRanges) (λ i sum,
        tr ← index trueRanges i;
        Some (add sum tr)) zero;
      Some (div sum (of_int (atrPeriod bot))).

Definition calculateBollingerBands (bot : TradingBot)
    (priceHistory : list PriceData)
  : option (float64 * float64 * float64 * float64) :=
  if len priceHistory <? bollingerPeriod bot then Some (zero, zero, zero, zero)
  else
    let start := Int.sub (len priceHistory) (bollingerPeriod bot) in
    sum ← for_loop start (len priceHistory) (λ i sum,
      p ← index priceHistory i;
      Some (add sum (Close p))) zero;
    let sma := div sum (of_int (bollingerPeriod bot)) in
    variance ← for_loop start (len priceHistory) (λ i variance,
      p ← index priceHistory i;
      let diff := sub (Close p) sma in
      Some (add variance (mul diff diff))) zero;
    let variance := div variance (of_int (bollingerPeriod bot)) in
    let stdDev := Sqrt variance in
    let upperBand := add sma (mul (of_int 2) stdDev) in
    let lowerBand := sub sma (mul (of_int 2) stdDev) in
    Some (upperBand, sma, lowerBand, stdDev).

Definition calculateIndicators (bot : TradingBot)
    (priceHistory : list PriceData) : option TradingIndicators :=
  if len priceHistory <? maxHistory bot then Some zeroIndicators
  else
    atr ← calculateATR bot priceHistory;
    '(upperBand, middleBand, lowerBand, stdDev) ←
      calculateBollingerBands bot priceHistory;
    Some {| ATR := atr; UpperBand := upperBand; MiddleBand := middleBand;
            LowerBand := lowerBand; StdDev := stdDev |}.

(** ** The rolling price history *)

(** The sample that [updateAllPrices] builds from a price: the simplified
    OHLC approximation. *)
Definition samplePrice (currentPrice : float64) : PriceData :=
  {| Price := currentPrice;
     High := mul currentPrice (lit 1005 1000);
     Low := mul currentPrice (lit 995 1000);
     Close := currentPrice |}.

(** The append and the trimming of [updateAllPrices]:
    [append(history, priceData)], then [history[len(history)-maxHistory:]]
    when the history is longer than [maxHistory]. *)
Definition pushHistory (bot : TradingBot) (history : list PriceData)
    (priceData : PriceData) : option (list PriceData) :=
  let history := history ++ [priceData] in
  let maxHistory := maxHistory bot in
  if maxHistory <? len history
  then slice_from history (Int.sub (len history) maxHistory)
  else Some history.

(** Pushing a sequence of samples, one cycle after the other. *)
Fixpoint pushAll (bot : TradingBot) (history : list PriceData)
    (samples : list PriceData) : option (list PriceData) :=
  match samples with
  | [] => Some history
  | priceData :: rest =>
      history' ← pushHistory bot history priceData;
      pushAll bot history' rest
  end.

(** The bot after the record of [ticker] has been overwritten. *)
Definition withStock (bot : TradingBot) (ticker : string)
    (stockData : StockData) : TradingBot :=
  {| stocks := <[ticker := stockData]> (stocks bot);
     riskPercent := riskPercent bot;
     atrPeriod := atrPeriod bot;
     bollingerPeriod := bollingerPeriod bot |}.

(** ** The runtime: brokerage client, clock and log *)

(** The log lines of the bot, each with the arguments of its format. *)
Inductive LogEntry :=
  | LogPortfolioError (ticker : string)
  | LogNoPrice (ticker : string)
  | LogBuyError (ticker : string)
  | LogBought (ticker : string) (positionSize : Z)
      (currentPrice stopLoss atr : float64)
  | LogNoEntry (ticker : string) (currentPrice lowerBand upperBand atr : float64)
  | LogSellError (ticker : string)
  | LogSold (ticker : string) (quantity : Z) (currentPrice : float64)
      (sellReason : string) (pnl profitPercent : float64)
  | LogHolding (ticker : string)
      (entryPrice currentPrice profitPercent stopLoss : float64).

Inductive Event :=
  | EvPlaceMarket (ticker : string) (quantity : Z)
  | EvLog (entry : LogEntry).

(** What the bot calls outside itself, over an environment state [E]:
    [client.Portfolio()] ([None] for a non-nil error),
    [client.EquityOrderPlaceMarket(ticker, quantity)] ([true] for a nil
    error) and [time.Now()]. *)
Class Runtime (E : Type) := {
  client_Portfolio : E → option (list trading212.Position) * E;
  client_EquityOrderPlaceMarket : string → Z → E → bool * E;
  time_Now : E → Time * E
}.

Record World (E : Type) := mkWorld {
  w_env : E;
  w_bot : TradingBot;
  w_trace : list Event
}.
Arguments mkWorld {E}.
Arguments w_env {E}.
Arguments w_bot {E}.
Arguments w_trace {E}.

(** Orders submitted in a trace, oldest first. *)
Definition orders (tr : list Event) : list (string * Z) :=
  omap (λ ev, match ev with
              | EvPlaceMarket t q => Some (t, q)
              | EvLog _ => None
              end) tr.

Section Bot.
Context {E : Type} `{Runtime E}.

(** State and panic monad of the bot's methods. *)
Definition M (A : Type) : Type := World E → option (A * World E).

Definition ret {A} (a : A) : M A := λ w, Some (a, w).
Definition bind {A B} (m : M A) (k : A → M B) : M B :=
  λ w, match m w with
       | Some (a, w') => k a w'
       | None => None
       end.
Definition lift {A} (o : option A) : M A :=
  λ w, match o with Some a => Some (a, w) | None => None end.

Notation "x ←← m ; k" := (bind m (λ x, k))
  (at level 20, m at level 100, k at level 200, only parsing).
Notation "m ;;; k" := (bind m (λ _, k))
  (at level 100, k at level 200, right associativity, only parsing).

Definition getBot : M TradingBot := λ w, Some (w_bot w, w).

(** Writing through the pointer [bot.stocks[ticker]]. *)
Definition setStock (ticker : string) (stockData : StockData) : M unit :=
  λ w, Some (tt, mkWorld (w_env w) (withStock (w_bot w) ticker stockData)
                   (w_trace w)).

Definition Printf (entry : LogEntry) : M unit :=
  λ w, Some (tt, mkWorld (w_env w) (w_bot w) (w_trace w ++ [EvLog entry])).

Definition Portfolio : M (option (list trading212.Position)) :=
  λ w, let '(r, e) := client_Portfolio (w_env w) in
       Some (r, mkWorld e (w_bot w) (w_trace w)).

Definition EquityOrderPlaceMarket (ticker : string) (quantity : Z) : M bool :=
  λ w, let '(ok, e) := client_EquityOrderPlaceMarket ticker quantity (w_env w) in
       Some (ok, mkWorld e (w_bot w)
                   (w_trace w ++ [EvPlaceMarket ticker quantity])).

Definition Now : M Time :=
  λ w, let '(t, e) := time_Now (w_env w) in
       Some (t, mkWorld e (w_bot w) (w_trace w)).

(** [for ticker, stockData := range bot.stocks { body }], visiting the
    keys in the order [keys]; [stockData] is the pointer stored in the
    map, read when its turn comes. *)
Fixpoint rangeStocks (keys : list string)
    (body : string → StockData → M unit) : M unit :=
  match keys with
  | [] => ret tt
  | ticker :: rest =>
      b ←← getBot;
      match stocks b !! ticker with
      | Some stockData => body ticker stockData
      | None => ret tt
      end;;;
      rangeStocks rest body
  end.

(** The loop of [getCurrentPrice] over the positions. *)
Fixpoint priceIn (positions : list trading212.Position) (ticker : string)
  : float64 :=
  match positions with
  | [] => zero
  | pos :: rest =>
      if String.eqb (trading212.Ticker pos) ticker
      then div (trading212.Value pos) (trading212.Quantity pos)
      else priceIn rest ticker
  end.

Definition getCurrentPrice (ticker : string) : M float64 :=
  r ←← Portfolio;
  match r with
  | None => Printf (LogPortfolioError ticker);;; ret zero
  | Some positions => ret (priceIn positions ticker)
  end.

(** The body of the loop of [updateAllPrices]. *)
Definition updatePrice (ticker : string) (stockData : StockData) : M unit :=
  currentPrice ←← getCurrentPrice ticker;
  if eqb currentPrice zero then Printf (LogNoPrice ticker)
  else
    now ←← Now;
    let priceData := samplePrice currentPrice in
    bot ←← getBot;
    history ←← lift (pushHistory bot (PriceHistory stockData) priceData);
    setStock ticker
      {| Ticker := Ticker stockData;
         PriceHistory := history;
         Indicators := Indicators stockData;
         CurrentPrice := currentPrice;
         LastUpdate := now |}.

Definition updateAllPrices (keys : list string) : M unit :=
  rangeStocks keys updatePrice.

Definition calculateAllIndicators (keys : list string) : M unit :=
  rangeStocks keys (λ ticker stockData,
    bot ←← getBot;
    let maxHistory := maxHistory bot in
    if maxHistory <=? len (PriceHistory stockData) then
      indicators ←← lift (calculateIndicators bot (PriceHistory stockData));
      setStock ticker
        {| Ticker := Ticker stockData;
           PriceHistory := PriceHistory stockData;
           Indicators := indicators;
           CurrentPrice := CurrentPrice stockData;
           LastUpdate := LastUpdate stockData |}
    else ret tt).

Definition evaluateEntry (ticker : string) (currentPrice : float64)
    (indicators : TradingIndicators) (positionSize : Z) : M unit :=
  let touchesLowerBand := leb currentPrice (LowerBand indicators) in
  let lowVolatility := ltb (ATR indicators) (mul currentPrice (lit 25 1000)) in
  let belowMiddleBand := ltb currentPrice (MiddleBand indicators) in
  let bollingerWidth :=
    div (sub (UpperBand indicators) (LowerBand indicators))
        (MiddleBand indicators) in
  let normalVolatility :=
    gtb bollingerWidth (lit 2 100) && ltb bollingerWidth (lit 15 100) in
  if touchesLowerBand && lowVolatility && belowMiddleBand && normalVolatility
  then
    let stopLoss := sub currentPrice (mul (ATR indicators) (lit 15 10)) in
    ok ←← EquityOrderPlaceMarket ticker positionSize;
    if ok
    then Printf (LogBought ticker positionSize currentPrice stopLoss
                   (ATR indicators))
    else Printf (LogBuyError ticker)
  else
    Printf (LogNoEntry ticker currentPrice (LowerBand indicators)
              (UpperBand indicators) (ATR indicators)).

Definition entryPriceOf (position : trading212.Position) : float64 :=
  div (trading212.Value position) (trading212.Quantity position).

Definition profitPercentOf (currentPrice entryPrice : float64) : float64 :=
  mul (div (sub currentPrice entryPrice) entryPrice) (of_int 100).

(** The exit conditions of [evaluateExit]: the final values of its
    variables [shouldSell] and [sellReason]. *)
Definition exitDecision (currentPrice : float64)
    (indicators : TradingIndicators) (position : trading212.Position)
  : bool * string :=
  let entryPrice := entryPriceOf position in
  let stopLoss := sub entryPrice (mul (ATR indicators) (lit 15 10)) in
  let '(shouldSell, sellReason) := (false, EmptyString) in
  let '(shouldSell, sellReason) :=
    if geb currentPrice (UpperBand indicators)
    then (true, "Take Profit (Upper Band)"%string)
    else (shouldSell, sellReason) in
  let '(shouldSell, sellReason) :=
    if leb currentPrice stopLoss
    then (true, "Stop Loss (ATR)"%string)
    else (shouldSell, sellReason) in
  let profitPercent := profitPercentOf currentPrice entryPrice in
  let '(shouldSell, sellReason) :=
    if geb profitPercent (of_int 5) && ltb currentPrice (MiddleBand indicators)
    then (true, "Profit Protection"%string)
    else (shouldSell, sellReason) in
  let '(shouldSell, sellReason) :=
    if gtb (ATR indicators) (mul entryPrice (lit 4 100))
       && gtb profitPercent zero
    then (true, "High Volatility Exit"%string)
    else (shouldSell, sellReason) in
  let '(shouldSell, sellReason) :=
    if ltb profitPercent zero
       && ltb (ATR indicators) (mul entryPrice (lit 1 100))
    then (true, "Low Volatility Cut"%string)
    else (shouldSell, sellReason) in
  (shouldSell, sellReason).

Definition evaluateExit (ticker : string) (currentPrice : float64)
    (indicators : TradingIndicators) (position : trading212.Position)
  : M unit :=
  let entryPrice := entryPriceOf position in
  let stopLoss := sub entryPrice (mul (ATR indicators) (lit 15 10)) in
  let '(shouldSell, sellReason) :=
    exitDecision currentPrice indicators position in
  let profitPercent := profitPercentOf currentPrice entryPrice in
  if shouldSell then
    ok ←← EquityOrderPlaceMarket ticker
            (Int.neg (to_int (trading212.Quantity position)));
    if ok then
      let pnl := mul (sub currentPrice entryPrice)
                     (trading212.Quantity position) in
      Printf (LogSold ticker (to_int (trading212.Quantity position))
                currentPrice sellReason pnl profitPercent)
    else Printf (LogSellError ticker)
  else
    Printf (LogHolding ticker entryPrice currentPrice profitPercent stopLoss).

(** The position size of [executeTrading]. *)
Definition positionSizeOf (portfolioValue riskPercent currentPrice : float64)
  : Z :=
  let positionSize :=
    to_int (div (div (mul portfolioValue riskPercent) (of_int 100))
                currentPrice) in
  if positionSize <? 1 then 1 else positionSize.

(** The loop of [executeTrading] over the positions: the first position
    of the ticker, if there is one. *)
Fixpoint findPosition (positions : list trading212.Position)
    (ticker : string) : option trading212.Position :=
  match positions with
  | [] => None
  | pos :: rest =>
      if String.eqb (trading212.Ticker pos) ticker then Some pos
      else findPosition rest ticker
  end.

Definition executeTrading (ticker : string) (stockData : StockData)
    (positions : list trading212.Position) (portfolioValue : float64)
  : M unit :=
  bot ←← getBot;
  let indicators := Indicators stockData in
  let currentPrice := CurrentPrice stockData in
  let hasData := maxHistory bot <=? len (PriceHistory stockData) in
  if negb hasData || eqb currentPrice zero then ret tt
  else
    let positionSize :=
      positionSizeOf portfolioValue (riskPercent bot) currentPrice in
    match findPosition positions ticker with
    | None => evaluateEntry ticker currentPrice indicators positionSize
    | Some existingPosition =>
        evaluateExit ticker currentPrice indicators existingPosition
    end.
End Bot.

(** ** A scripted runtime

    A [Runtime] whose answers are written down in advance: the portfolio
    answers are consumed one per call (an exhausted script answers with an
    error), every order gets the same answer, and the clock ticks once per
    reading. *)

Record Script := mkScript {
  sc_portfolio : list (option (list trading212.Position));
  sc_accept : bool;
  sc_clock : Time
}.

#[export] Instance Script_Runtime : Runtime Script := {|
  client_Portfolio e :=
    match sc_portfolio e with
    | [] => (None, e)
    | r :: rest => (r, mkScript rest (sc_accept e) (sc_clock e))
    end;
  client_EquityOrderPlaceMarket _ _ e := (sc_accept e, e);
  time_Now e := (sc_clock e, mkScript (sc_portfolio e) (sc_accept e) (sc_clock e + 1))
|}.

(** ** Specification-side definitions

    The quantities of the specification, written over lists rather than
    index loops. All arithmetic is that of [float64]; a sum adds from [0]
    in the order of the list. *)

(** True Range of a sample against its predecessor. *)
Definition trueRange (current previous : PriceData) : float64 :=
  Max (sub (High current) (Low current))
      (Max (Abs (sub (High current) (Close previous)))
           (Abs (sub (Low current) (Close previous)))).

(** The True Ranges of the samples [t >= 1] of a series, oldest first. *)
Definition trueRangesOf (series : list PriceData) : list float64 :=
  zip_with trueRange (drop 1 series) series.

(** The most recent [n] elements. *)
Definition lastn {A} (n : Z) (l : list A) : list A :=
  drop (length l - Z.to_nat n) l.

Definition fsum (l : list float64) : float64 := fold_left add l zero.

(** Arithmetic mean of [l] taken over [n] values. *)
Definition mean (l : list float64) (n : Z) : float64 :=
  div (fsum l) (of_int n).

(** Population variance of [l] around [m], over [n] values. *)
Definition popVariance (l : list float64) (m : float64) (n : Z) : float64 :=
  div (fold_left (λ v c, add v (mul (sub c m) (sub c m))) l zero) (of_int n).

Definition closes (series : list PriceData) : list float64 :=
  Close <$> series.

(** The largest integer below or equal to a float; [None] for NaN and the
    infinities. *)
Definition floor (x : float64) : option Z :=
  match x with
  | S754_zero _ => Some 0
  | S754_finite s m e =>
      Some (if 0 <=? e then cond_Zopp s (Z.pos m * 2 ^ e)
            else cond_Zopp s (Z.pos m) / 2 ^ (- e))
  | _ => None
  end.


Definition isFinite (x : float64) : bool :=
  match x with
  | S754_zero _ | S754_finite _ _ _ => true
  | _ => false
  end.

(** A float below zero or a negative zero: [-0], a negative number or
    [-Inf]. A NaN is neither negative nor positive, whatever its sign bit. *)
Definition isNegative (x : float64) : bool :=
  match x with
  | S754_zero s | S754_infinity s | S754_finite s _ _ => s
  | S754_nan => false
  end.

(** The mantissa and the exponent of [float64(p)] for [0 < p < 2^53]. *)
Definition int_mantissa (p : positive) : positive :=
  match (53 - Z.pos (digits2_pos p))%Z with
  | Z.pos k => Pos.iter xO p k
  | _ => p
  end.
Definition int_exponent (p : positive) : Z := Z.pos (digits2_pos p) - 53.

(** The five exit conditions, in the order of the specification; each is a
    function of the current price, the indicators and the held position. *)
Definition takeProfit (currentPrice : float64)
    (indicators : TradingIndicators) (position : trading212.Position) : bool :=
  geb currentPrice (UpperBand indicators).

Definition stopLossHit (currentPrice : float64)
    (indicators : TradingIndicators) (position : trading212.Position) : bool :=
  leb currentPrice
      (sub (entryPriceOf position) (mul (ATR indicators) (lit 15 10))).

Definition profitProtection (currentPrice : float64)
    (indicators : TradingIndicators) (position : trading212.Position) : bool :=
  geb (profitPercentOf currentPrice (entryPriceOf position)) (of_int 5)
  && ltb currentPrice (MiddleBand indicators).

Definition highVolatilityExit (currentPrice : float64)
    (indicators : TradingIndicators) (position : trading212.Position) : bool :=
  gtb (ATR indicators) (mul (entryPriceOf position) (lit 4 100))
  && gtb (profitPercentOf currentPrice (entryPriceOf position)) zero.

Definition lowVolatilityCut (currentPrice : float64)
    (indicators : TradingIndicators) (position : trading212.Position) : bool :=
  ltb (profitPercentOf currentPrice (entryPriceOf position)) zero
  && ltb (ATR indicators) (mul (entryPriceOf position) (lit 1 100)).

Definition anyExit (currentPrice : float64)
    (indicators : TradingIndicators) (position : trading212.Position) : bool :=
  takeProfit currentPrice indicators position
  || stopLossHit currentPrice indicators position
  || profitProtection currentPrice indicators position
  || highVolatilityExit currentPrice indicators position
  || lowVolatilityCut currentPrice indicators position.

(** The reason of the first true condition in the listed order. *)
Definition firstReason (currentPrice : float64)
    (indicators : TradingIndicators) (position : trading212.Position)
  : string :=
  if takeProfit currentPrice indicators position
  then "Take Profit (Upper Band)"
  else if stopLossHit currentPrice indicators position
  then "Stop Loss (ATR)"
  else if profitProtection currentPrice indicators position
  then "Profit Protection"
  else if highVolatilityExit currentPrice indicators position
  then "High Volatility Exit"
  else if lowVolatilityCut currentPrice indicators position
  then "Low Volatility Cut"
  else EmptyString.

(** The reason of the last true condition in the listed order. *)
Definition lastReason (currentPrice : float64)
    (indicators : TradingIndicators) (position : trading212.Position)
  : string :=
  if lowVolatilityCut currentPrice indicators position
  then "Low Volatility Cut"
  else if highVolatilityExit currentPrice indicators position
  then "High Volatility Exit"
  else if profitProtection currentPrice indicators position
  then "Profit Protection"
  else if stopLossHit currentPrice indicators position
  then "Stop Loss (ATR)"
  else if takeProfit currentPrice indicators position
  then "Take Profit (Upper Band)"
  else EmptyString.

(** The four entry conditions of the specification, functions of the
    current price and the indicators. *)
Definition touchesLowerBand (currentPrice : float64)
    (indicators : TradingIndicators) : bool :=
  leb currentPrice (LowerBand indicators).

Definition calmVolatility (currentPrice : float64)
    (indicators : TradingIndicators) : bool :=
  ltb (ATR indicators) (mul currentPrice (lit 25 1000)).

Definition belowMiddleBand (currentPrice : float64)
    (indicators : TradingIndicators) : bool :=
  ltb currentPrice (MiddleBand indicators).

Definition bandWidthRatio (indicators : TradingIndicators) : float64 :=
  div (sub (UpperBand indicators) (LowerBand indicators))
      (MiddleBand indicators).

Definition normalBandWidth (currentPrice : float64)
    (indicators : TradingIndicators) : bool :=
  ltb (lit 2 100) (bandWidthRatio indicators)
  && ltb (bandWidthRatio indicators) (lit 15 100).

Definition allEntry (currentPrice : float64)
    (indicators : TradingIndicators) : bool :=
  touchesLowerBand currentPrice indicators
  && calmVolatility currentPrice indicators
  && belowMiddleBand currentPrice indicators
  && normalBandWidth currentPrice indicators.

(** ** Concrete data

    The scenarios of the specification and of [multistock_test.go]. *)

(** A sample given by its high, low and close, as the tests build them. *)
Definition sampleHLC (h l c : Z) : PriceData :=
  {| Price := zero; High := of_int h; Low := of_int l; Close := of_int c |}.

(** A sample of which only the close is given. *)
Definition sampleC (c : float64) : PriceData :=
  {| Price := zero; High := zero; Low := zero; Close := c |}.

Definition botWith (risk : float64) (atr boll : Z) : TradingBot :=
  {| stocks := ∅; riskPercent := risk; atrPeriod := atr;
     bollingerPeriod := boll |}.

(** The four samples of [TestCalculateATR]. *)
Definition atrSamples : list PriceData :=
  [sampleHLC 102 98 100; sampleHLC 104 99 103; sampleHLC 105 101 102;
   sampleHLC 103 99 101].


(** Three samples whose close is the decimal 0.1, and three whose close is
    100 (the stable prices of [TestBollingerBandsEdgeCases]). *)
Definition tenthSeries : list PriceData := replicate 3 (sampleC (lit 1 10)).
Definition hundredSeries : list PriceData := replicate 3 (sampleC (of_int 100)).


(** Twenty-five samples of the prices 100 to 124, as pushed by
    [TestPriceHistoryManagement]. *)
Definition risingSamples : list PriceData :=
  (λ i, samplePrice (of_int (100 + i))) <$> seqZ 0 25.


(** The bot of [main] (risk 0.4% per stock, periods 14 and 20) in a scripted
    world whose client accepts orders, with an empty trace. *)
Definition scenarioBot : TradingBot := botWith (lit 4 10) 14 20.

Definition scenarioWorld : World Script :=
  mkWorld (mkScript [] true 0) scenarioBot [].

(** A warmed-up NVDA record at a given price and indicators. *)
Definition scenarioStock (price : float64) (indicators : TradingIndicators)
  : StockData :=
  {| Ticker := "NVDA";
     PriceHistory := replicate 20 (samplePrice (of_int 100));
     Indicators := indicators;
     CurrentPrice := price;
     LastUpdate := 0 |}.

(** Bands 95 / 100 / 105 with a given ATR. *)
Definition bands (atr : Z) : TradingIndicators :=
  {| ATR := of_int atr; UpperBand := of_int 105; MiddleBand := of_int 100;
     LowerBand := of_int 95; StdDev := lit 5 2 |}.

(** Bands 100 / 105 / 110 with an ATR of 2: a price of 100 touches the
    lower band and meets the entry conditions. *)
Definition sizingBands : TradingIndicators :=
  {| ATR := of_int 2; UpperBand := of_int 110; MiddleBand := of_int 105;
     LowerBand := of_int 100; StdDev := lit 5 2 |}.

(** A held NVDA position. *)
Definition held (quantity value : float64) : trading212.Position :=
  {| trading212.Ticker := "NVDA"; trading212.Quantity := quantity;
     trading212.Value := value |}.


(** A cycle over two tickers in which the first portfolio query fails, so
    that NVDA gets no price, and the second one prices TSLA at 500 / 2. *)
Definition coldStock (ticker : string) : StockData :=
  {| Ticker := ticker; PriceHistory := []; Indicators := zeroIndicators;
     CurrentPrice := zero; LastUpdate := 0 |}.

Definition twoStockWorld : World Script :=
  mkWorld
    (mkScript [None;
               Some [{| trading212.Ticker := "TSLA";
                        trading212.Quantity := of_int 2;
                        trading212.Value := of_int 500 |}]]
       true 7)
    {| stocks := <["NVDA" := coldStock "NVDA"]>
                   (<["TSLA" := coldStock "TSLA"]> ∅);
       riskPercent := lit 4 10; atrPeriod := 14; bollingerPeriod := 20 |}
    [].


(** * The rest of the bot and of the client

    The portfolio fetch with its retries, the trading steps of one cycle of
    [main], the portfolio summary, and the error that the client makes of an
    HTTP response. *)

(** ** Errors of the client *)

(** [strings.Contains(s, substr)]. *)
Fixpoint Contains (s substr : string) : bool :=
  String.prefix substr s
  || match s with
     | EmptyString => false
     | String _ rest => Contains rest substr
     end.

(** [fmt]'s [%d] of an [int]. *)
Definition formatInt (n : Z) : string :=
  DecimalString.NilZero.string_of_int (Z.to_int n).

(** The end of [Client.processRequest] (main.go), once the response has been
    read: a status of 400 or more is the error
    [fmt.Errorf("API error %d: %s", resp.StatusCode, string(body))], whose
    message is the [inl]; any other status hands the body out. *)
Definition processResponse (statusCode : Z) (body : string) : string + string :=
  if 400 <=? statusCode
  then inl (String.append "API error "
              (String.append (formatInt statusCode)
                 (String.append ": " body)))
  else inr body.

(** ** Fetching the portfolio, with retries *)

(** [time.Duration] counts nanoseconds in an [int64]. *)
Definition Duration : Type := Z.
Definition Second : Duration := 1000000000.
Definition Minute : Duration := 60 * Second.

(** Multiplication of two [int64]. *)
Definition int_mul (a b : Z) : Z := Int.wrap (a * b).

(** [math.Pow(2, float64(i))] for an index [0 <= i]: the power of two, which
    is a float and which [Pow] returns exactly. *)
Definition Pow_2 (i : Z) : float64 := of_int (2 ^ i).

(** What [getPortfolioData] calls outside the bot, over an environment
    state [E]: [client.Portfolio()], whose error is given by its message
    ([inl]), and [time.Sleep]. *)
Class Broker (E : Type) := {
  broker_Portfolio : E → (string + list trading212.Position) * E;
  broker_Sleep : Duration → E → E
}.

(** What a fetch does, in order: the calls of [Portfolio], the sleeps and
    the two log lines. *)
Inductive FetchEvent :=
  | FePortfolio
  | FeSleep (delay : Duration)
  | FeLogRateLimited (attempt maxRetries : Z) (delay : Duration)
  | FeLogApiError (err : string).

Section Fetch.
Context {E : Type} `{Broker E}.

(** The retry loop of [getPortfolioData],
    [for i := ...; i < maxRetries; i++], from index [i] on with [fuel]
    iterations left; [last] holds the variables [positions] and [err]. *)
Fixpoint retryLoop (fuel : nat) (i maxRetries : Z) (baseDelay : Duration)
    (last : string + list trading212.Position) (env : E)
    (trace : list FetchEvent)
  : (string + list trading212.Position) * E * list FetchEvent :=
  match fuel with
  | O => (last, env, trace)
  | S fuel' =>
      let '(answer, env) := broker_Portfolio env in
      let trace := trace ++ [FePortfolio] in
      match answer with
      | inr positions => (answer, env, trace)
      | inl err =>
          if Contains err "TooManyRequests" then
            let delay := int_mul (to_int (Pow_2 i)) baseDelay in
            let trace :=
              trace ++ [FeLogRateLimited (Int.add i 1) maxRetries delay] in
            let env := broker_Sleep delay env in
            let trace := trace ++ [FeSleep delay] in
            retryLoop fuel' (Int.add i 1) maxRetries baseDelay answer env trace
          else (answer, env, trace ++ [FeLogApiError err])
      end
  end.

(** [getPortfolioData]: the positions and their total value, or the error
    ([inl]). *)
Definition getPortfolioData (env : E) (trace : list FetchEvent)
  : (string + list trading212.Position * float64) * E * list FetchEvent :=
  let maxRetries := 5 in
  let baseDelay := Second in
  let '(last, env, trace) :=
    retryLoop (Z.to_nat (maxRetries - 0)) 0 maxRetries baseDelay (inr [])
      env trace in
  match last with
  | inl err => (inl err, env, trace)
  | inr positions =>
      let portfolioValue :=
        fold_left (λ portfolioValue pos, add portfolioValue (trading212.Value pos))
          positions zero in
      (inr (positions, portfolioValue), env, trace)
  end.
End Fetch.

(** The sleeps of a fetch, in order, and the number of its calls. *)
Definition sleepsOf (trace : list FetchEvent) : list Duration :=
  omap (λ ev, match ev with FeSleep d => Some d | _ => None end) trace.

Definition callsOf (trace : list FetchEvent) : nat :=
  length (omap (λ ev, match ev with FePortfolio => Some tt | _ => None end)
            trace).

(** *** The fetch, told by the answers of the client *)

(** What [n] rate-limited attempts in a row leave in the trace, the first
    of them at index [i]: each is a call, the log line of the retry and a
    sleep of [2^i] seconds. *)
Fixpoint rateLimitEvents (n : nat) (i maxRetries : Z) : list FetchEvent :=
  match n with
  | O => []
  | S n' =>
      FePortfolio
      :: FeLogRateLimited (i + 1) maxRetries (2 ^ i * Second)
      :: FeSleep (2 ^ i * Second)
      :: rateLimitEvents n' (i + 1) maxRetries
  end.

(** The sum of the values of the positions, from [0.0] in their order. *)
Definition totalValue (positions : list trading212.Position) : float64 :=
  fold_left add (trading212.Value <$> positions) zero.

Section RateLimits.
Context {E : Type} `{Broker E}.

(** The client answers [n] calls in a row, the first at index [i], with an
    error that contains "TooManyRequests", and sleeps [2^i] seconds after
    each: the errors in their order and the environment after the last
    sleep; [None] if one of the [n] answers is anything else. *)
Fixpoint rateLimited (n : nat) (i : Z) (env : E) : option (list string * E) :=
  match n with
  | O => Some ([], env)
  | S n' =>
      match broker_Portfolio env with
      | (inl err, env1) =>
          if Contains err "TooManyRequests" then
            match rateLimited n' (i + 1) (broker_Sleep (2 ^ i * Second) env1)
            with
            | Some (errs, envn) => Some (err :: errs, envn)
            | None => None
            end
          else None
      | (inr _, _) => None
      end
  end.
End RateLimits.

(** ** One cycle of [main] *)

Section Cycle.
Context {E : Type} `{Runtime E}.

(** The trading steps of one cycle of [main], once the portfolio has been
    fetched: [bot.updateAllPrices()], [bot.calculateAllIndicators()] and the
    loop of [bot.executeTrading] over [bot.stocks]. Each of the three loops
    over the map visits the keys in an order of its own. *)
Definition tradingSteps (keys1 keys2 keys3 : list string)
    (positions : list trading212.Position) (portfolioValue : float64)
  : M unit :=
  bind (updateAllPrices keys1) (λ _,
  bind (calculateAllIndicators keys2) (λ _,
  rangeStocks keys3 (λ ticker stockData,
    executeTrading ticker stockData positions portfolioValue))).
End Cycle.

(** ** The portfolio summary *)

(** The log lines of [displayPortfolioSummary]. *)
Inductive SummaryLine :=
  | SlHeader
  | SlPosition (ticker : string) (shares : Z)
      (entryPrice currentPrice pnl pnlPercent : float64)
  | SlTotal (totalValue totalPnL : float64)
  | SlFooter.

(** One iteration of the loop of [displayPortfolioSummary] over the
    positions; the state is the lines logged so far and the variables
    [totalValue] and [totalPnL]. *)
Definition summaryStep (bot : TradingBot)
    (state : list SummaryLine * float64 * float64) (pos : trading212.Position)
  : list SummaryLine * float64 * float64 :=
  let '(lines, totalValue, totalPnL) := state in
  match stocks bot !! trading212.Ticker pos with
  | Some stockData =>
      let entryPrice := div (trading212.Value pos) (trading212.Quantity pos) in
      let currentPrice := CurrentPrice stockData in
      if gtb currentPrice zero then
        let pnl := mul (sub currentPrice entryPrice) (trading212.Quantity pos) in
        let pnlPercent :=
          mul (div (sub currentPrice entryPrice) entryPrice) (of_int 100) in
        (lines ++ [SlPosition (trading212.Ticker pos)
                     (to_int (trading212.Quantity pos))
                     entryPrice currentPrice pnl pnlPercent],
         add totalValue (trading212.Value pos),
         add totalPnL pnl)
      else state
  | None => state
  end.

Definition displayPortfolioSummary (bot : TradingBot)
    (positions : list trading212.Position) : list SummaryLine :=
  let '(lines, totalValue, totalPnL) :=
    fold_left (summaryStep bot) positions ([SlHeader], zero, zero) in
  lines ++ [SlTotal totalValue totalPnL; SlFooter].

(** A position that the summary counts: its ticker is tracked and the price
    recorded for it is above 0. *)
Definition counted (bot : TradingBot) (pos : trading212.Position) : bool :=
  match stocks bot !! trading212.Ticker pos with
  | Some stockData => gtb (CurrentPrice stockData) zero
  | None => false
  end.


(** A runtime for an account without positions: every portfolio query
    answers with the empty list, orders are accepted, the clock stands. *)
#[export] Instance Empty_Runtime : Runtime unit := {|
  client_Portfolio e := (Some [], e);
  client_EquityOrderPlaceMarket _ _ e := (true, e);
  time_Now e := (0, e)
|}.

(** NVDA warmed up at 100 and TSLA without history, before the indicators
    are computed. *)
Definition warmColdBot : TradingBot :=
  {| stocks := <["NVDA" := scenarioStock (of_int 100) zeroIndicators]>
                 (<["TSLA" := coldStock "TSLA"]> ∅);
     riskPercent := lit 4 10; atrPeriod := 14; bollingerPeriod := 20 |}.

Definition warmColdWorld : World Script :=
  mkWorld (mkScript [] true 0) warmColdBot [].

(** The same bot on an account without positions. *)
Definition emptyAccountWorld : World unit := mkWorld tt warmColdBot [].


(** A broker whose portfolio answers are written down in advance, consumed
    one per call (an exhausted script answers with no positions), and which
    adds up the time slept. *)
#[export] Instance Answers_Broker
  : Broker (list (string + list trading212.Position) * Duration) := {|
  broker_Portfolio e :=
    match fst e with
    | [] => (inr [], e)
    | answer :: rest => (answer, (rest, snd e))
    end;
  broker_Sleep delay e := (fst e, snd e + delay)
|}.

(** Two rate-limit errors, then a portfolio of NVDA (2 shares worth 190) and
    AAPL (1 share worth 50). *)
Definition rateLimitedTwice : list (string + list trading212.Position) :=
  [inl "API error 429: TooManyRequests"%string;
   inl "API error 429: TooManyRequests"%string;
   inr [held (of_int 2) (of_int 190);
        {| trading212.Ticker := "AAPL"; trading212.Quantity := of_int 1;
           trading212.Value := of_int 50 |}]].

(** A bot with negative periods. *)
Definition negativePeriodsBot : TradingBot := botWith zero (-1) (-2).

(** * Properties *)

(** ** Conversions between [int] and [float64] *)

Lemma digits2_pos_iter_xO p k :
  digits2_pos (Pos.iter xO p k) = (digits2_pos p + k)%positive.
Proof.
  induction k using Pos.peano_ind.
  - simpl. lia.
  - rewrite Pos.iter_succ. simpl. rewrite IHk. lia.
Qed.

Lemma pos_iter_xO_mul p k : Z.pos (Pos.iter xO p k) = Z.pos p * 2 ^ Z.pos k.
Proof.
  induction k using Pos.peano_ind.
  - simpl. lia.
  - rewrite Pos.iter_succ, Pos2Z.inj_xO, IHk, Pos2Z.inj_succ, Z.pow_succ_r by lia.
    lia.
Qed.

Lemma digits2_pos_bounds p :
  2 ^ (Z.pos (digits2_pos p) - 1) <= Z.pos p < 2 ^ Z.pos (digits2_pos p).
Proof.
  induction p; simpl digits2_pos; rewrite ?Pos2Z.inj_succ.
  - replace (Z.succ (Z.pos (digits2_pos p)) - 1)
      with (Z.succ (Z.pos (digits2_pos p) - 1)) by lia.
    rewrite !Z.pow_succ_r by lia. lia.
  - replace (Z.succ (Z.pos (digits2_pos p)) - 1)
      with (Z.succ (Z.pos (digits2_pos p) - 1)) by lia.
    rewrite !Z.pow_succ_r by lia. lia.
  - simpl. lia.
Qed.

Lemma digits2_pos_le53 p : Z.pos p < 2 ^ 53 → Z.pos (digits2_pos p) <= 53.
Proof.
  intros Hp. pose proof (digits2_pos_bounds p) as [Hlo _].
  destruct (Z_le_gt_dec (Z.pos (digits2_pos p)) 53) as [|Hgt]; [done|].
  assert (2 ^ 53 <= 2 ^ (Z.pos (digits2_pos p) - 1))
    by (apply Z.pow_le_mono_r; lia).
  lia.
Qed.

(** Rounding a mantissa that already has the exponent of its format is the
    identity. *)
Lemma binary_round_aux_exact sx m e :
  fexp prec emax (Z.pos (digits2_pos m) + e) = e →
  e <= emax - prec →
  binary_round_aux prec emax sx (Z.pos m) e loc_Exact = S754_finite sx m e.
Proof.
  intros Hf He. unfold binary_round_aux, shr_fexp.
  simpl Zdigits2. rewrite Hf, Z.sub_diag. simpl.
  rewrite Hf, Z.sub_diag. simpl.
  apply Z.leb_le in He. rewrite He. reflexivity.
Qed.

Lemma of_int_pos p :
  Z.pos p < 2 ^ 53 →
  of_int (Z.pos p) = S754_finite false (int_mantissa p) (int_exponent p).
Proof.
  intros Hp. pose proof (digits2_pos_le53 p Hp) as Hd.
  unfold of_int, binary_normalize, binary_round, int_mantissa, int_exponent.
  set (d := digits2_pos p) in *.
  assert (Hfexp : fexp prec emax (Z.pos d + 0) = Z.pos d - 53).
  { unfold fexp, emin, prec, emax. lia. }
  rewrite Hfexp. unfold shl_align.
  replace (Z.pos d - 53 - 0) with (- (53 - Z.pos d)) by lia.
  destruct (53 - Z.pos d) as [|k|k] eqn:Hk; try lia; simpl Z.opp; cbv iota beta.
  - replace (Z.pos d - 53) with 0 by lia.
    apply binary_round_aux_exact; fold d; unfold fexp, emin, prec, emax; lia.
  - apply binary_round_aux_exact; rewrite ?digits2_pos_iter_xO; fold d;
      unfold fexp, emin, prec, emax; lia.
Qed.

Lemma int_mantissa_value p :
  Z.pos p < 2 ^ 53 →
  Z.pos (int_mantissa p) = Z.pos p * 2 ^ (- int_exponent p).
Proof.
  intros Hp. pose proof (digits2_pos_le53 p Hp) as Hd.
  unfold int_mantissa, int_exponent.
  destruct (53 - Z.pos (digits2_pos p)) as [|k|k] eqn:Hk; try lia.
  - replace (- (Z.pos (digits2_pos p) - 53)) with 0 by lia. lia.
  - rewrite pos_iter_xO_mul.
    replace (- (Z.pos (digits2_pos p) - 53)) with (Z.pos k) by lia. lia.
Qed.

(** The order of floats converted from integers is the order of the
    integers. *)
Lemma SFcompare_of_int_pos p q :
  Z.pos p < 2 ^ 53 → Z.pos q < 2 ^ 53 →
  SFcompare (of_int (Z.pos p)) (of_int (Z.pos q)) = Some (Z.pos p ?= Z.pos q).
Proof.
  intros Hp Hq. rewrite !of_int_pos by done. simpl SFcompare. f_equal.
  pose proof (int_mantissa_value p Hp) as Hmp.
  pose proof (int_mantissa_value q Hq) as Hmq.
  pose proof (digits2_pos_bounds p) as [Hp1 Hp2].
  pose proof (digits2_pos_bounds q) as [Hq1 Hq2].
  pose proof (digits2_pos_le53 p Hp) as Hdp.
  pose proof (digits2_pos_le53 q Hq) as Hdq.
  unfold int_exponent in *.
  destruct (Z.compare_spec (Z.pos (digits2_pos p) - 53)
              (Z.pos (digits2_pos q) - 53)) as [He|He|He].
  - change (Pos.compare_cont Eq (int_mantissa p) (int_mantissa q))
      with (Z.pos (int_mantissa p) ?= Z.pos (int_mantissa q)).
    rewrite Hmp, Hmq, He.
    assert (0 < 2 ^ (- (Z.pos (digits2_pos q) - 53)))
      by (apply Z.pow_pos_nonneg; lia).
    destruct (Z.compare_spec (Z.pos p) (Z.pos q)) as [Hc|Hc|Hc].
    + rewrite Hc. apply Z.compare_refl.
    + apply Z.compare_lt_iff. nia.
    + apply Z.compare_gt_iff. nia.
  - symmetry. apply Z.compare_lt_iff.
    assert (2 ^ Z.pos (digits2_pos p) <= 2 ^ (Z.pos (digits2_pos q) - 1))
      by (apply Z.pow_le_mono_r; lia).
    lia.
  - symmetry. apply Z.compare_gt_iff.
    assert (2 ^ Z.pos (digits2_pos q) <= 2 ^ (Z.pos (digits2_pos p) - 1))
      by (apply Z.pow_le_mono_r; lia).
    lia.
Qed.

Lemma SFcompare_of_int a b :
  0 <= a < 2 ^ 53 → 0 <= b < 2 ^ 53 →
  SFcompare (of_int a) (of_int b) = Some (a ?= b).
Proof.
  intros Ha Hb. destruct a as [|p|p], b as [|q|q]; try lia.
  - reflexivity.
  - rewrite of_int_pos by lia. reflexivity.
  - rewrite of_int_pos by lia. reflexivity.
  - apply SFcompare_of_int_pos; lia.
Qed.

(** [int(float64(n)) = n] for a small non-negative [n]. *)
Lemma to_int_of_int n : 0 <= n < 2 ^ 53 → to_int (of_int n) = n.
Proof.
  intros Hn. destruct n as [|p|p]; try lia; [reflexivity|].
  rewrite of_int_pos by lia. unfold to_int, trunc.
  pose proof (int_mantissa_value p ltac:(lia)) as Hm.
  pose proof (digits2_pos_le53 p ltac:(lia)) as Hd.
  assert (Hv : (if 0 <=? int_exponent p
                then Z.pos (int_mantissa p) * 2 ^ int_exponent p
                else Z.pos (int_mantissa p) / 2 ^ (- int_exponent p)) = Z.pos p).
  { rewrite Hm. unfold int_exponent in *.
    destruct (Z.leb_spec 0 (Z.pos (digits2_pos p) - 53)) as [He|He].
    - replace (Z.pos (digits2_pos p) - 53) with 0 by lia. simpl. lia.
    - apply Z.div_mul. apply Z.pow_nonzero; lia. }
  rewrite Hv. simpl cond_Zopp.
  replace (Int.in_range (Z.pos p)) with true; [done|].
  symmetry. unfold Int.in_range, Int.min_int, Int.max_int.
  apply andb_true_iff. split; apply Z.leb_le; lia.
Qed.

(** [math.Max] of two converted integers is the converted maximum. *)
Lemma Max_of_int a b :
  0 <= a < 2 ^ 53 → 0 <= b < 2 ^ 53 →
  Max (of_int a) (of_int b) = of_int (Z.max a b).
Proof.
  intros Ha Hb. unfold Max, gtb, eqb, SFeqb, SFltb.
  rewrite (SFcompare_of_int b a) by done.
  rewrite (SFcompare_of_int a b) by done.
  change zero with (of_int 0). rewrite (SFcompare_of_int a 0) by lia.
  assert (Hcls : ∀ n, 0 <= n < 2 ^ 53 →
            is_pos_inf (of_int n) = false ∧ is_nan (of_int n) = false
            ∧ signbit (of_int n) = Some false).
  { intros [|p|p] Hn; try lia; [done|]. rewrite of_int_pos by lia. done. }
  destruct (Hcls a Ha) as (-> & -> & ->). destruct (Hcls b Hb) as (-> & -> & _).
  simpl.
  destruct (Z.compare_spec a 0), (Z.compare_spec a b), (Z.compare_spec b a);
    simpl; try lia; f_equal; lia.
Qed.

(** Within the exactly representable range, the history bound of the code
    is the maximum of the two periods. *)
Lemma maxHistory_max bot :
  0 <= atrPeriod bot < 2 ^ 53 → 0 <= bollingerPeriod bot < 2 ^ 53 →
  maxHistory bot = Z.max (atrPeriod bot) (bollingerPeriod bot).
Proof.
  intros Ha Hb. unfold maxHistory.
  rewrite Max_of_int by done. apply to_int_of_int. lia.
Qed.

(** ** Index loops as folds *)

Lemma for_range_ext {T} (body1 body2 : Z → T → option T) n i s :
  (∀ j acc, i <= j < i + Z.of_nat n → body1 j acc = body2 j acc) →
  for_range n i body1 s = for_range n i body2 s.
Proof.
  revert i s. induction n as [|n IH]; intros i s Hext; [done|].
  simpl. rewrite Hext by lia. destruct (body2 i s) as [s'|]; [|done].
  simpl. apply IH. intros j acc Hj. apply Hext. lia.
Qed.

Lemma for_range_shift {T} (body : Z → T → option T) k n i s :
  for_range n i body s = for_range n (i + k) (λ j, body (j - k)) s.
Proof.
  revert i s. induction n as [|n IH]; intros i s; [done|].
  simpl. replace (i + k - k) with i by lia.
  destruct (body i s) as [s'|]; [|done]. simpl.
  rewrite IH. f_equal. lia.
Qed.

Lemma index_lookup {A} (l : list A) (i : Z) :
  0 <= i → index l i = l !! Z.to_nat i.
Proof. intros Hi. unfold index. destruct (Z.ltb_spec i 0); [lia|done]. Qed.

Lemma index_is_Some {A} (l : list A) (i : Z) :
  0 <= i < len l → is_Some (index l i).
Proof.
  intros Hi. rewrite index_lookup by lia.
  apply lookup_lt_is_Some. unfold len in Hi. lia.
Qed.

(** A loop that reads [l[j]] for [j] from [i] on folds over the elements
    from position [i]; it never leaves the slice. *)
Lemma for_range_index_fold {A T} (f : T → A → T) (l : list A) n i s :
  0 <= i → i + Z.of_nat n <= len l →
  for_range n i (λ j acc, x ← index l j; Some (f acc x)) s
  = Some (fold_left f (take n (drop (Z.to_nat i) l)) s).
Proof.
  revert i s. induction n as [|n IH]; intros i s Hi Hn; [done|].
  destruct (index_is_Some l i) as [x Hx]; [lia|].
  cbn [for_range]. rewrite Hx. cbn [mbind option_bind].
  rewrite index_lookup in Hx by lia.
  rewrite (drop_S _ _ _ Hx). cbn [take fold_left].
  rewrite IH by lia. replace (Z.to_nat (i + 1)) with (S (Z.to_nat i)) by lia.
  done.
Qed.

Lemma for_loop_index_fold {A T} (f : T → A → T) (l : list A) lo s :
  0 <= lo <= len l →
  for_loop lo (len l) (λ j acc, x ← index l j; Some (f acc x)) s
  = Some (fold_left f (drop (Z.to_nat lo) l) s).
Proof.
  intros Hlo. unfold for_loop.
  rewrite for_range_index_fold by lia.
  rewrite take_ge; [done|]. rewrite length_drop. unfold len. lia.
Qed.

Lemma fold_left_snoc {A} (l acc : list A) :
  fold_left (λ a x, a ++ [x]) l acc = acc ++ l.
Proof.
  revert acc. induction l as [|x l IH]; intros acc; simpl.
  - by rewrite app_nil_r.
  - rewrite IH. by rewrite <- app_assoc.
Qed.

Lemma fold_left_fmap {A B T} (f : T → B → T) (g : A → B) (l : list A) s :
  fold_left f (g <$> l) s = fold_left (λ a x, f a (g x)) l s.
Proof. revert s. induction l as [|x l IH]; intros s; simpl; [done|apply IH]. Qed.

Lemma length_trueRangesOf h : length (trueRangesOf h) = (length h - 1)%nat.
Proof. unfold trueRangesOf. rewrite length_zip_with, length_drop. lia. Qed.

Lemma lookup_trueRangesOf h k current previous :
  h !! S k = Some current → h !! k = Some previous →
  trueRangesOf h !! k = Some (trueRange current previous).
Proof.
  intros Hc Hp. unfold trueRangesOf. rewrite lookup_zip_with, lookup_drop.
  simpl. rewrite Hc. simpl. rewrite Hp. done.
Qed.

(** The first loop of [calculateATR] collects the True Ranges of the
    series. *)
Lemma calculateATR_trueRanges h :
  for_loop 1 (len h) (λ i trueRanges,
      current ← index h i;
      previous ← index h (i - 1);
      let tr1 := sub (High current) (Low current) in
      let tr2 := Abs (sub (High current) (Close previous)) in
      let tr3 := Abs (sub (Low current) (Close previous)) in
      let trueRange := Max tr1 (Max tr2 tr3) in
      Some (trueRanges ++ [trueRange])) []
  = Some (trueRangesOf h).
Proof.
  unfold for_loop.
  rewrite (for_range_shift _ (-1)). simpl Z.add.
  erewrite for_range_ext.
  - rewrite (for_range_index_fold (λ a x, a ++ [x]) (trueRangesOf h));
      [| lia | unfold len; rewrite length_trueRangesOf; lia].
    rewrite fold_left_snoc. change (Z.to_nat (1 + -1)) with 0%nat.
    rewrite drop_0, app_nil_l, take_ge; [done|].
    rewrite length_trueRangesOf. unfold len. lia.
  - intros j acc Hj. cbv beta.
    replace (j - -1 - 1) with j by lia.
    destruct (index_is_Some h (j - -1)) as [c Hc]; [unfold len in *; lia|].
    destruct (index_is_Some h j) as [p Hp]; [unfold len in *; lia|].
    rewrite Hc, Hp. cbn [mbind option_bind].
    rewrite index_lookup in Hc by lia. rewrite index_lookup in Hp by lia.
    rewrite index_lookup by lia.
    replace (Z.to_nat (j - -1)) with (S (Z.to_nat j)) in Hc by lia.
    rewrite (lookup_trueRangesOf _ _ _ _ Hc Hp). done.
Qed.

(** ** Average True Range *)

Lemma wrap_id z : Int.min_int <= z <= Int.max_int → Int.wrap z = z.
Proof.
  unfold Int.min_int, Int.max_int, Int.wrap. intros Hz.
  rewrite Z.mod_small by lia. lia.
Qed.

(** Makes the bounds of [int] known to [lia]. *)
Ltac int_bounds :=
  assert (Int.max_int = 2 ^ 63 - 1) by reflexivity;
  assert (Int.min_int = - 2 ^ 63) by reflexivity.

(** [calculateATR] past its guard: the first loop collects the True Ranges,
    the second sums the most recent [atrPeriod] of them, in range of the
    slice. *)
Lemma calculateATR_loops bot h :
  0 <= atrPeriod bot →
  atrPeriod bot + 1 <= len h →
  len h <= Int.max_int →
  calculateATR bot h
  = Some (mean (lastn (atrPeriod bot) (trueRangesOf h)) (atrPeriod bot)).
Proof.
  intros Hp Hlen Hmax. unfold calculateATR.
  int_bounds.
  unfold Int.add. rewrite wrap_id by lia.
  destruct (Z.ltb_spec (len h) (atrPeriod bot + 1)) as [|_]; [lia|].
  rewrite calculateATR_trueRanges. cbn [mbind option_bind].
  assert (Htr : len (trueRangesOf h) = len h - 1).
  { unfold len in *. rewrite length_trueRangesOf. lia. }
  destruct (Z.ltb_spec (len (trueRangesOf h)) (atrPeriod bot)) as [|_]; [lia|].
  unfold Int.sub. rewrite wrap_id by lia.
  rewrite (for_loop_index_fold add) by lia. cbn [mbind option_bind].
  unfold mean, fsum, lastn. do 4 f_equal. unfold len. lia.
Qed.

(** ** Warm-up *)

(** C3. A series shorter than [max(atrPeriod, bollingerPeriod)] yields the
    all-zero indicators, and the computation does not panic. *)
Theorem calculateIndicators_short_series_sentinel bot h :
  0 <= atrPeriod bot < 2 ^ 53 →
  0 <= bollingerPeriod bot < 2 ^ 53 →
  len h < Z.max (atrPeriod bot) (bollingerPeriod bot) →
  calculateIndicators bot h
  = Some {| ATR := zero; UpperBand := zero; MiddleBand := zero;
            LowerBand := zero; StdDev := zero |}.
Proof.
  intros Ha Hb Hlen. unfold calculateIndicators.
  rewrite maxHistory_max by done.
  destruct (Z.ltb_spec (len h) (Z.max (atrPeriod bot) (bollingerPeriod bot)));
    [reflexivity | lia].
Qed.

(** With the periods 14 and 20 of [main], a series of 19 samples is not
    warmed up. *)
Lemma calculateIndicators_short_series_sentinel_witness :
  (0 <= atrPeriod (botWith zero 14 20) < 2 ^ 53
   ∧ 0 <= bollingerPeriod (botWith zero 14 20) < 2 ^ 53
   ∧ len (replicate 19 (sampleHLC 101 99 100))
     < Z.max (atrPeriod (botWith zero 14 20))
             (bollingerPeriod (botWith zero 14 20)))
  ∧ calculateIndicators (botWith zero 14 20)
      (replicate 19 (sampleHLC 101 99 100))
    = Some {| ATR := zero; UpperBand := zero; MiddleBand := zero;
              LowerBand := zero; StdDev := zero |}.
Proof.
  split.
  - vm_compute. repeat split; discriminate.
  - apply (calculateIndicators_short_series_sentinel (botWith zero 14 20)
             (replicate 19 (sampleHLC 101 99 100)));
      vm_compute; repeat split; discriminate.
Defined.

(** ** Bollinger Bands *)

(** [calculateBollingerBands] on a series that covers the window: the middle
    band is the mean of the most recent [bollingerPeriod] closes, the
    deviation is the square root of their population variance, and the outer
    bands lie two deviations from the middle. *)
Lemma calculateBollingerBands_spec bot h :
  0 <= bollingerPeriod bot <= len h →
  len h <= Int.max_int →
  let n := bollingerPeriod bot in
  let window := lastn n (closes h) in
  let sma := mean window n in
  let stdDev := Sqrt (popVariance window sma n) in
  calculateBollingerBands bot h
  = Some (add sma (mul (of_int 2) stdDev), sma,
          sub sma (mul (of_int 2) stdDev), stdDev).
Proof.
  intros Hn Hmax. cbv zeta. unfold calculateBollingerBands.
  int_bounds.
  destruct (Z.ltb_spec (len h) (bollingerPeriod bot)) as [|_]; [lia|].
  unfold Int.sub. rewrite wrap_id by lia.
  rewrite (for_loop_index_fold (λ sum p, add sum (Close p))) by lia.
  cbn [mbind option_bind].
  rewrite (for_loop_index_fold
             (λ variance p, add variance (mul (sub (Close p) _) (sub (Close p) _))))
    by lia.
  cbn [mbind option_bind].
  assert (Hw : lastn (bollingerPeriod bot) (closes h)
               = Close <$> drop (Z.to_nat (len h - bollingerPeriod bot)) h).
  { unfold lastn, closes. rewrite fmap_drop, length_fmap.
    f_equal. unfold len. lia. }
  unfold mean, popVariance, fsum. rewrite Hw, !fold_left_fmap. reflexivity.
Qed.

(** ** Indicators of a warmed-up series *)

(** Once the series covers both windows, [calculateIndicators] reports the
    mean of the True Ranges as its ATR and the mean of the closes as its
    middle band. *)
Lemma calculateIndicators_warm bot h :
  0 <= atrPeriod bot < 2 ^ 53 →
  0 <= bollingerPeriod bot < 2 ^ 53 →
  Z.max (atrPeriod bot + 1) (bollingerPeriod bot) <= len h →
  len h <= Int.max_int →
  ∃ indicators,
    calculateIndicators bot h = Some indicators
    ∧ ATR indicators
      = mean (lastn (atrPeriod bot) (trueRangesOf h)) (atrPeriod bot)
    ∧ MiddleBand indicators
      = mean (lastn (bollingerPeriod bot) (closes h)) (bollingerPeriod bot).
Proof.
  intros Ha Hb Hlen Hmax. unfold calculateIndicators.
  rewrite maxHistory_max by assumption.
  destruct (Z.ltb_spec (len h) (Z.max (atrPeriod bot) (bollingerPeriod bot)));
    [lia|].
  rewrite calculateATR_loops by lia.
  cbn [mbind option_bind].
  rewrite calculateBollingerBands_spec by lia. cbn [mbind option_bind].
  eexists. repeat split.
Qed.

(** C5. For a series of at least [atrPeriod + 1] samples, the computed ATR
    is the arithmetic mean (the sum divided by [atrPeriod], with no
    smoothing) of the most recent [atrPeriod] True Ranges, the True Range of
    sample [t >= 1] being the largest of [high_t - low_t],
    [|high_t - close_{t-1}|] and [|low_t - close_{t-1}|]. This is the result
    of [calculateATR], and the ATR that [calculateIndicators] reports once
    the series also covers the Bollinger window. *)
Theorem calculateATR_mean_of_true_ranges bot h :
  0 <= atrPeriod bot →
  atrPeriod bot + 1 <= len h →
  len h <= Int.max_int →
  calculateATR bot h
  = Some (mean (lastn (atrPeriod bot) (trueRangesOf h)) (atrPeriod bot))
  ∧ (atrPeriod bot < 2 ^ 53 →
     0 <= bollingerPeriod bot < 2 ^ 53 →
     bollingerPeriod bot <= len h →
     ATR <$> calculateIndicators bot h
     = Some (mean (lastn (atrPeriod bot) (trueRangesOf h)) (atrPeriod bot))).
Proof.
  intros Hp Hlen Hmax. split; [by apply calculateATR_loops|].
  intros Ha Hb Hboll.
  destruct (calculateIndicators_warm bot h) as (indicators & -> & Hatr & _);
    [lia .. |]. cbn. by rewrite Hatr.
Qed.

(** The scenario of C5: with [atrPeriod = 3] (and no Bollinger period, as in
    [TestCalculateATR]) and the four samples of the specification, the True
    Ranges of samples 2 to 4 are 5, 4 and 4 and the ATR is their mean, the
    float nearest to 13/3. *)
Lemma calculateATR_mean_of_true_ranges_witness :
  (0 <= atrPeriod (botWith zero 3 0)
   ∧ atrPeriod (botWith zero 3 0) + 1 <= len atrSamples
   ∧ len atrSamples <= Int.max_int)
  ∧ calculateATR (botWith zero 3 0) atrSamples
    = Some (mean (lastn 3 (trueRangesOf atrSamples)) 3)
  ∧ lastn 3 (trueRangesOf atrSamples) = [of_int 5; of_int 4; of_int 4]
  ∧ mean (lastn 3 (trueRangesOf atrSamples)) 3 = lit 13 3.
Proof.
  assert (H1 : 0 <= atrPeriod (botWith zero 3 0)) by (vm_compute; discriminate).
  assert (H2 : atrPeriod (botWith zero 3 0) + 1 <= len atrSamples)
    by (vm_compute; discriminate).
  assert (H3 : len atrSamples <= Int.max_int) by (vm_compute; discriminate).
  split; [repeat split; assumption|]. split; [|split].
  - exact (proj1 (calculateATR_mean_of_true_ranges (botWith zero 3 0)
                    atrSamples H1 H2 H3)).
  - vm_compute. reflexivity.
  - vm_compute. reflexivity.
Defined.

(** ** A window of identical closes *)

Lemma SFeqb_finite_inv m s mc ec :
  SFeqb m (S754_finite s mc ec) = true → m = S754_finite s mc ec.
Proof.
  unfold SFeqb. destruct m as [s'|s'| |s' m' e']; simpl.
  - destruct s; discriminate.
  - destruct s'; discriminate.
  - discriminate.
  - change (Pos.compare_cont Eq m' mc) with (m' ?= mc)%positive.
    destruct s', s; try discriminate;
      destruct (Z.compare_spec e' ec) as [->|_|_]; try discriminate;
      destruct (Pos.compare_spec m' mc) as [->|_|_];
      simpl; try discriminate; reflexivity.
Qed.

Lemma SFeqb_zero_inv m s :
  SFeqb m (S754_zero s) = true → ∃ s', m = S754_zero s'.
Proof.
  unfold SFeqb. destruct m as [s'|s'| |s' m' e']; simpl.
  - eauto.
  - destruct s'; discriminate.
  - discriminate.
  - destruct s'; discriminate.
Qed.

Lemma sub_self_finite s m e :
  sub (S754_finite s m e) (S754_finite s m e) = zero.
Proof.
  unfold sub, SFsub. cbv zeta. rewrite Z.sub_diag. reflexivity.
Qed.

(** A close that equals the middle band deviates from it by a zero. *)
Lemma sub_eqb_is_zero c m :
  isFinite c = true → eqb m c = true → ∃ s, sub c m = S754_zero s.
Proof.
  unfold eqb. destruct c as [s| | |s mc ec]; try discriminate; intros _ Heq.
  - apply SFeqb_zero_inv in Heq as [s' ->]. simpl.
    destruct s, s'; eauto.
  - apply SFeqb_finite_inv in Heq as ->. rewrite sub_self_finite. by exists false.
Qed.

Lemma eqb_refl_finite x : isFinite x = true → eqb x x = true.
Proof.
  unfold eqb, SFeqb. destruct x as [s| | |s m e]; try discriminate; intros _.
  - reflexivity.
  - simpl. rewrite Z.compare_refl.
    change (Pos.compare_cont Eq m m) with (m ?= m)%positive.
    rewrite Pos.compare_refl. by destruct s.
Qed.

Lemma add_zero_eqb x : isFinite x = true → eqb (add x zero) x = true.
Proof.
  destruct x as [s| | |s m e]; try discriminate; intros _.
  - by destruct s.
  - apply (eqb_refl_finite (S754_finite s m e)). reflexivity.
Qed.

Lemma sub_zero_eqb x : isFinite x = true → eqb (sub x zero) x = true.
Proof.
  destruct x as [s| | |s m e]; try discriminate; intros _.
  - by destruct s.
  - apply (eqb_refl_finite (S754_finite s m e)). reflexivity.
Qed.

Lemma eqb_isFinite m c : isFinite c = true → eqb m c = true → isFinite m = true.
Proof.
  unfold eqb. destruct c as [s| | |s mc ec]; try discriminate; intros _ Heq.
  - by apply SFeqb_zero_inv in Heq as [s' ->].
  - by apply SFeqb_finite_inv in Heq as ->.
Qed.

(** The squared deviations of closes that all equal the middle band sum to
    zero. *)
Lemma fold_sq_dev_zero (window : list float64) c m :
  isFinite c = true → eqb m c = true →
  Forall (λ x, x = c) window →
  fold_left (λ v x, add v (mul (sub x m) (sub x m))) window zero = zero.
Proof.
  intros Hc Hm Hall. induction Hall as [|x window -> _ IH]; [done|].
  cbn [fold_left].
  destruct (sub_eqb_is_zero c m Hc Hm) as [s ->].
  replace (add zero (mul (S754_zero s) (S754_zero s))) with zero
    by (by destruct s).
  apply IH.
Qed.

Lemma div_zero_of_int n : 0 < n < 2 ^ 53 → div zero (of_int n) = zero.
Proof.
  intros Hn. destruct n as [|p|p]; try lia.
  rewrite of_int_pos by lia. reflexivity.
Qed.

(** C7, as amended. For a series that covers the Bollinger window, the
    middle band is the arithmetic mean of the most recent [bollingerPeriod]
    closes, the deviation is their population standard deviation (the sum of
    squares divided by [bollingerPeriod]), and the upper and lower bands are
    the middle band plus and minus twice the deviation. When all closes of
    the window are one finite value and the mean of the window is that value,
    the deviation is exactly [0] and the three bands are equal. *)
Theorem calculateBollingerBands_population_deviation bot h :
  0 < bollingerPeriod bot < 2 ^ 53 →
  bollingerPeriod bot <= len h →
  len h <= Int.max_int →
  let n := bollingerPeriod bot in
  let window := lastn n (closes h) in
  let sma := mean window n in
  let stdDev := Sqrt (popVariance window sma n) in
  let upperBand := add sma (mul (of_int 2) stdDev) in
  let lowerBand := sub sma (mul (of_int 2) stdDev) in
  calculateBollingerBands bot h = Some (upperBand, sma, lowerBand, stdDev)
  ∧ ∀ c, isFinite c = true →
         Forall (λ x, x = c) window →
         eqb sma c = true →
         stdDev = zero
         ∧ eqb upperBand sma = true
         ∧ eqb lowerBand sma = true
         ∧ eqb sma c = true.
Proof.
  intros Hn Hlen Hmax. cbv zeta. split.
  - apply calculateBollingerBands_spec; lia.
  - intros c Hc Hall Hm.
    assert (Hsd : Sqrt (popVariance (lastn (bollingerPeriod bot) (closes h))
                          (mean (lastn (bollingerPeriod bot) (closes h))
                             (bollingerPeriod bot))
                          (bollingerPeriod bot)) = zero).
    { unfold popVariance. rewrite (fold_sq_dev_zero _ c) by assumption.
      rewrite div_zero_of_int by assumption. reflexivity. }
    rewrite Hsd. change (mul (of_int 2) zero) with zero.
    pose proof (eqb_isFinite _ _ Hc Hm) as Hfin.
    split; [|split; [|split]];
      [reflexivity | by apply add_zero_eqb | by apply sub_zero_eqb | assumption].
Qed.

(** Three closes of 100 with a period of 3, as in
    [TestBollingerBandsEdgeCases]: the mean is 100, the deviation is [0] and
    the bands coincide. *)
Lemma calculateBollingerBands_population_deviation_witness :
  (0 < bollingerPeriod (botWith zero 14 3) < 2 ^ 53
   ∧ bollingerPeriod (botWith zero 14 3) <= len hundredSeries
   ∧ len hundredSeries <= Int.max_int)
  ∧ calculateBollingerBands (botWith zero 14 3) hundredSeries
    = Some (of_int 100, of_int 100, of_int 100, zero)
  ∧ Sqrt (popVariance (lastn 3 (closes hundredSeries))
            (mean (lastn 3 (closes hundredSeries)) 3) 3) = zero.
Proof.
  assert (H1 : 0 < bollingerPeriod (botWith zero 14 3) < 2 ^ 53)
    by (vm_compute; split; reflexivity).
  assert (H2 : bollingerPeriod (botWith zero 14 3) <= len hundredSeries)
    by (vm_compute; discriminate).
  assert (H3 : len hundredSeries <= Int.max_int) by (vm_compute; discriminate).
  destruct (calculateBollingerBands_population_deviation
              (botWith zero 14 3) hundredSeries H1 H2 H3) as [Hbands Hsame].
  destruct (Hsame (of_int 100)) as (Hsd & _).
  - reflexivity.
  - vm_compute. repeat constructor.
  - vm_compute. reflexivity.
  - split; [repeat split; assumption|]. split; [|exact Hsd].
    rewrite Hbands. vm_compute. reflexivity.
Defined.

(** C7 as stated fails in [float64]: three closes of 0.1 sum to
    0.30000000000000004, their mean is 0.10000000000000002 and not 0.1, so
    the deviation is not [0] and the bands differ from each other and from
    the common close. *)
Lemma identical_closes_deviation_not_zero :
  Forall (λ x, x = lit 1 10) (lastn 3 (closes tenthSeries))
  ∧ ∃ upperBand middleBand lowerBand stdDev,
      calculateBollingerBands (botWith zero 14 3) tenthSeries
      = Some (upperBand, middleBand, lowerBand, stdDev)
      ∧ eqb stdDev zero = false
      ∧ eqb upperBand middleBand = false
      ∧ eqb lowerBand middleBand = false
      ∧ eqb middleBand (lit 1 10) = false.
Proof.
  split.
  - vm_compute. repeat constructor.
  - eexists _, _, _, _. split; [vm_compute; reflexivity|].
    vm_compute. repeat split; reflexivity.
Qed.

(** ** The ATR guard inside the warm-up check *)

(** C8, as amended. When the outer warm-up check passes and the series
    still has fewer than [atrPeriod + 1] samples, the ATR is [0]; this
    happens only when [bollingerPeriod <= atrPeriod] and the series has
    exactly [atrPeriod] samples. *)
Theorem calculateATR_zero_past_warm_up bot h :
  0 <= atrPeriod bot < 2 ^ 53 →
  0 <= bollingerPeriod bot < 2 ^ 53 →
  Z.max (atrPeriod bot) (bollingerPeriod bot) <= len h →
  len h < atrPeriod bot + 1 →
  calculateATR bot h = Some zero
  ∧ (∃ indicators,
        calculateIndicators bot h = Some indicators ∧ ATR indicators = zero)
  ∧ bollingerPeriod bot <= atrPeriod bot
  ∧ len h = atrPeriod bot.
Proof.
  intros Ha Hb Hwarm Hshort.
  int_bounds.
  assert (Hatr : calculateATR bot h = Some zero).
  { unfold calculateATR, Int.add. rewrite wrap_id by lia.
    destruct (Z.ltb_spec (len h) (atrPeriod bot + 1)); [reflexivity | lia]. }
  split; [exact Hatr|]. split; [|lia].
  unfold calculateIndicators. rewrite maxHistory_max by assumption.
  destruct (Z.ltb_spec (len h) (Z.max (atrPeriod bot) (bollingerPeriod bot)));
    [lia|].
  rewrite Hatr. cbn [mbind option_bind].
  rewrite calculateBollingerBands_spec by lia. cbn [mbind option_bind].
  eexists. split; reflexivity.
Qed.

(** Periods 3 and 2 and a series of three samples: the warm-up check passes,
    the ATR guard does not, and the ATR is [0]. *)
Lemma calculateATR_zero_past_warm_up_witness :
  (0 <= atrPeriod (botWith zero 3 2) < 2 ^ 53
   ∧ 0 <= bollingerPeriod (botWith zero 3 2) < 2 ^ 53
   ∧ Z.max (atrPeriod (botWith zero 3 2)) (bollingerPeriod (botWith zero 3 2))
     <= len (take 3 atrSamples)
   ∧ len (take 3 atrSamples) < atrPeriod (botWith zero 3 2) + 1)
  ∧ calculateATR (botWith zero 3 2) (take 3 atrSamples) = Some zero
  ∧ (∃ indicators,
        calculateIndicators (botWith zero 3 2) (take 3 atrSamples)
        = Some indicators ∧ ATR indicators = zero)
  ∧ bollingerPeriod (botWith zero 3 2) <= atrPeriod (botWith zero 3 2)
  ∧ len (take 3 atrSamples) = atrPeriod (botWith zero 3 2).
Proof.
  split.
  - vm_compute. repeat split; discriminate.
  - apply (calculateATR_zero_past_warm_up (botWith zero 3 2) (take 3 atrSamples));
      vm_compute; repeat split; discriminate.
Defined.

(** C8 as stated fails: the situation arises with a Bollinger period that is
    not larger than the ATR period (here 2 against 3). *)
Lemma atr_guard_reached_without_longer_bollinger :
  Z.max (atrPeriod (botWith zero 3 2)) (bollingerPeriod (botWith zero 3 2))
  <= len (take 3 atrSamples)
  ∧ len (take 3 atrSamples) < atrPeriod (botWith zero 3 2) + 1
  ∧ (ATR <$> calculateIndicators (botWith zero 3 2) (take 3 atrSamples))
    = Some zero
  ∧ ¬ (bollingerPeriod (botWith zero 3 2) > atrPeriod (botWith zero 3 2)).
Proof.
  split; [vm_compute; discriminate|].
  split; [vm_compute; reflexivity|].
  split; [vm_compute; reflexivity|].
  vm_compute. discriminate.
Qed.

(** ** The rolling price history *)

Lemma length_lastn {A} (n : Z) (l : list A) :
  0 <= n → len (lastn n l) = Z.min n (len l).
Proof. intros Hn. unfold len, lastn. rewrite length_drop. lia. Qed.

Lemma lastn_all {A} (n : Z) (l : list A) : len l <= n → lastn n l = l.
Proof.
  intros Hn. unfold lastn, len in *.
  replace (length l - Z.to_nat n)%nat with 0%nat by lia. apply drop_0.
Qed.

(** Trimming before an append loses nothing that a trim after it keeps. *)
Lemma lastn_app_lastn {A} (n : Z) (l k : list A) :
  lastn n (lastn n l ++ k) = lastn n (l ++ k).
Proof.
  unfold lastn. rewrite !length_app, length_drop.
  destruct (decide (length l ≤ Z.to_nat n)%nat) as [Hle|Hgt].
  - replace (length l - Z.to_nat n)%nat with 0%nat by lia.
    rewrite Nat.sub_0_r. reflexivity.
  - replace (length l - (length l - Z.to_nat n) + length k - Z.to_nat n)%nat
      with (length k) by lia.
    replace (length l + length k - Z.to_nat n)%nat
      with ((length l - Z.to_nat n) + length k)%nat by lia.
    rewrite <- drop_drop, (drop_app_le l) by lia. reflexivity.
Qed.

Lemma lastn_app_ge {A} (n : Z) (l k : list A) :
  n <= len k → lastn n (l ++ k) = lastn n k.
Proof.
  intros Hn. unfold lastn, len in *. rewrite length_app.
  replace (length l + length k - Z.to_nat n)%nat
    with (length l + (length k - Z.to_nat n))%nat by lia.
  rewrite drop_app_add'; [reflexivity | lia].
Qed.

(** One push: the sample is appended and the series keeps its most recent
    [maxHistory] samples; the re-slicing stays in range. *)
Lemma pushHistory_lastn bot history priceData :
  0 <= maxHistory bot →
  len history < Int.max_int →
  pushHistory bot history priceData
  = Some (lastn (maxHistory bot) (history ++ [priceData])).
Proof.
  intros HW Hlen. unfold pushHistory. cbv zeta.
  int_bounds.
  assert (Hl : len (history ++ [priceData]) = len history + 1).
  { unfold len. rewrite length_app. simpl. lia. }
  destruct (Z.ltb_spec (maxHistory bot) (len (history ++ [priceData])))
    as [Hover|Hfits].
  - unfold Int.sub. rewrite wrap_id by lia. unfold slice_from.
    destruct (Z.ltb_spec (len (history ++ [priceData]) - maxHistory bot) 0);
      [lia|].
    destruct (Z.ltb_spec (len (history ++ [priceData]))
                (len (history ++ [priceData]) - maxHistory bot)); [lia|].
    cbn [orb]. unfold lastn. do 2 f_equal. unfold len. lia.
  - rewrite lastn_all by lia. reflexivity.
Qed.

Lemma pushAll_lastn bot history samples :
  0 <= maxHistory bot < 2 ^ 53 →
  len history <= maxHistory bot →
  pushAll bot history samples
  = Some (lastn (maxHistory bot) (history ++ samples)).
Proof.
  intros HW. revert history.
  induction samples as [|priceData rest IH]; intros history Hlen.
  - cbn [pushAll]. rewrite app_nil_r, lastn_all by lia. reflexivity.
  - cbn [pushAll].
    rewrite pushHistory_lastn by (unfold Int.max_int; lia).
    cbn [mbind option_bind]. rewrite IH.
    + rewrite lastn_app_lastn, <- app_assoc. reflexivity.
    + rewrite length_lastn by lia. lia.
Qed.

(** C4. Pushing any sequence of samples into a series of capacity
    [W = max(atrPeriod, bollingerPeriod)] never panics and leaves at most [W]
    samples: the most recent [W] of everything pushed so far, in push order.
    Once [W] or more samples have been pushed these are exactly the last [W]
    pushed samples. *)
Theorem pushAll_bounded_fifo bot history samples :
  0 <= atrPeriod bot < 2 ^ 53 →
  0 <= bollingerPeriod bot < 2 ^ 53 →
  len history <= Z.max (atrPeriod bot) (bollingerPeriod bot) →
  ∃ series,
    pushAll bot history samples = Some series
    ∧ len series <= Z.max (atrPeriod bot) (bollingerPeriod bot)
    ∧ series
      = lastn (Z.max (atrPeriod bot) (bollingerPeriod bot)) (history ++ samples)
    ∧ (Z.max (atrPeriod bot) (bollingerPeriod bot) <= len samples →
       series = lastn (Z.max (atrPeriod bot) (bollingerPeriod bot)) samples
       ∧ len series = Z.max (atrPeriod bot) (bollingerPeriod bot)).
Proof.
  intros Ha Hb Hlen.
  pose proof (maxHistory_max bot Ha Hb) as HW.
  eexists. split; [|split; [|split]].
  - rewrite pushAll_lastn by (rewrite HW; lia). rewrite HW. reflexivity.
  - rewrite length_lastn by lia. lia.
  - reflexivity.
  - intros Hfull. rewrite lastn_app_ge by assumption.
    split; [reflexivity|]. rewrite length_lastn by lia. lia.
Qed.

(** Periods 14 and 20 and the 25 pushes of [TestPriceHistoryManagement]
    into an empty series: 20 samples remain, the prices 105 to 124. *)
Lemma pushAll_bounded_fifo_witness :
  (0 <= atrPeriod (botWith zero 14 20) < 2 ^ 53
   ∧ 0 <= bollingerPeriod (botWith zero 14 20) < 2 ^ 53
   ∧ len (@nil PriceData)
     <= Z.max (atrPeriod (botWith zero 14 20))
              (bollingerPeriod (botWith zero 14 20)))
  ∧ ∃ series,
      pushAll (botWith zero 14 20) [] risingSamples = Some series
      ∧ len series <= 20
      ∧ series = lastn 20 ([] ++ risingSamples)
      ∧ (20 <= len risingSamples →
         series = lastn 20 risingSamples ∧ len series = 20).
Proof.
  split.
  - vm_compute. repeat split; discriminate.
  - apply (pushAll_bounded_fifo (botWith zero 14 20) [] risingSamples);
      vm_compute; repeat split; discriminate.
Defined.

(** ** Position sizing *)

Lemma in_range_bounds z :
  Int.in_range z = true ↔ Int.min_int <= z <= Int.max_int.
Proof. unfold Int.in_range. rewrite andb_true_iff, !Z.leb_le. tauto. Qed.

(** Truncating toward zero and rounding down agree once the result is
    clamped to at least 1. *)
Lemma positionSizeOf_floor portfolioValue risk currentPrice z :
  floor (div (div (mul portfolioValue risk) (of_int 100)) currentPrice) = Some z →
  z <= Int.max_int →
  positionSizeOf portfolioValue risk currentPrice = Z.max 1 z.
Proof.
  unfold positionSizeOf. cbv zeta.
  generalize (div (div (mul portfolioValue risk) (of_int 100)) currentPrice).
  intros q Hfloor Hmax. unfold to_int.
  assert (Hmin : Int.min_int < 1) by reflexivity.
  destruct q as [s|s| |s m e]; try discriminate; simpl in Hfloor.
  - injection Hfloor as <-. reflexivity.
  - injection Hfloor as <-. cbn [trunc].
    assert (Hpow : 0 < 2 ^ (- e) ∨ 0 <= e).
    { destruct (Z.le_gt_cases 0 e); [by right|left].
      apply Z.pow_pos_nonneg; lia. }
    destruct (Z.leb_spec 0 e) as [He|He].
    + destruct (Int.in_range (cond_Zopp s (Z.pos m * 2 ^ e))) eqn:Hr.
      * destruct (Z.ltb_spec (cond_Zopp s (Z.pos m * 2 ^ e)) 1); lia.
      * assert (¬ (Int.min_int <= cond_Zopp s (Z.pos m * 2 ^ e) <= Int.max_int))
          by (rewrite <- in_range_bounds, Hr; discriminate).
        destruct (Z.ltb_spec Int.min_int 1); lia.
    + destruct Hpow as [Hpow|]; [|lia].
      destruct s; cbn [cond_Zopp] in *.
      * (* a negative value: both roundings are below 1 *)
        assert (0 <= Z.pos m / 2 ^ (- e)) by (apply Z.div_pos; lia).
        assert (Z.neg m / 2 ^ (- e) < 0) by (apply Z.div_lt_upper_bound; lia).
        change (- Z.pos m) with (Z.neg m).
        destruct (Int.in_range (- (Z.pos m / 2 ^ (- e))));
          [destruct (Z.ltb_spec (- (Z.pos m / 2 ^ (- e))) 1) |
           destruct (Z.ltb_spec Int.min_int 1)]; lia.
      * destruct (Int.in_range (Z.pos m / 2 ^ (- e))) eqn:Hr.
        -- destruct (Z.ltb_spec (Z.pos m / 2 ^ (- e)) 1); lia.
        -- assert (¬ (Int.min_int <= Z.pos m / 2 ^ (- e) <= Int.max_int))
             by (rewrite <- in_range_bounds, Hr; discriminate).
           destruct (Z.ltb_spec Int.min_int 1); lia.
Qed.

(** ** Entry and exit decisions *)

Section Decisions.
Context {E : Type} `{Runtime E}.

Lemma orders_app tr1 tr2 : orders (tr1 ++ tr2) = orders tr1 ++ orders tr2.
Proof. unfold orders. apply omap_app. Qed.

(** [evaluateEntry] places one order when the four conditions hold and only
    logs otherwise. *)
Lemma evaluateEntry_run ticker currentPrice indicators positionSize
    (w : World E) :
  ∃ w', evaluateEntry ticker currentPrice indicators positionSize w
        = Some (tt, w')
    ∧ w_bot w' = w_bot w
    ∧ (allEntry currentPrice indicators = true →
       orders (w_trace w') = orders (w_trace w) ++ [(ticker, positionSize)])
    ∧ (allEntry currentPrice indicators = false →
       orders (w_trace w') = orders (w_trace w) ∧ w_env w' = w_env w).
Proof.
  unfold evaluateEntry. cbv zeta.
  change (leb currentPrice (LowerBand indicators)
          && ltb (ATR indicators) (mul currentPrice (lit 25 1000))
          && ltb currentPrice (MiddleBand indicators)
          && (gtb (div (sub (UpperBand indicators) (LowerBand indicators))
                     (MiddleBand indicators)) (lit 2 100)
              && ltb (div (sub (UpperBand indicators) (LowerBand indicators))
                        (MiddleBand indicators)) (lit 15 100)))
    with (allEntry currentPrice indicators).
  destruct (allEntry currentPrice indicators).
  - unfold bind, EquityOrderPlaceMarket, Printf.
    destruct (client_EquityOrderPlaceMarket ticker positionSize (w_env w))
      as [[|] e]; eexists; (split; [reflexivity|]); cbn [w_bot w_trace w_env];
      (split; [reflexivity|]);
      (split; [intros _; rewrite <- app_assoc, orders_app; reflexivity
              | discriminate]).
  - unfold Printf. eexists. split; [reflexivity|]. cbn [w_bot w_trace w_env].
    split; [reflexivity|]. split; [discriminate|].
    intros _. rewrite orders_app. cbn. rewrite app_nil_r. done.
Qed.

Lemma ltb_zero_neq x : ltb zero x = true → eqb x zero = false.
Proof. destruct x as [s|s| |s m e]; try discriminate; by destruct s. Qed.

(** C2. For a ticker without a position, with a warmed-up history and a
    positive current price, [executeTrading] submits a buy order exactly
    when the four entry conditions hold together: the price is at or below
    the lower band, the ATR is below 2.5% of the price, the price is below
    the middle band, and the band width ratio lies strictly between 0.02 and
    0.15. Otherwise no order is submitted and neither the bot nor the client
    changes. *)
Theorem executeTrading_flat_buys_iff_all_entry (w : World E) ticker stockData
    positions portfolioValue :
  findPosition positions ticker = None →
  maxHistory (w_bot w) <= len (PriceHistory stockData) →
  ltb zero (CurrentPrice stockData) = true →
  ∃ w',
    executeTrading ticker stockData positions portfolioValue w = Some (tt, w')
    ∧ w_bot w' = w_bot w
    ∧ (touchesLowerBand (CurrentPrice stockData) (Indicators stockData)
       && calmVolatility (CurrentPrice stockData) (Indicators stockData)
       && belowMiddleBand (CurrentPrice stockData) (Indicators stockData)
       && normalBandWidth (CurrentPrice stockData) (Indicators stockData)
       = true →
       orders (w_trace w')
       = orders (w_trace w)
         ++ [(ticker, positionSizeOf portfolioValue (riskPercent (w_bot w))
                        (CurrentPrice stockData))])
    ∧ (touchesLowerBand (CurrentPrice stockData) (Indicators stockData)
       && calmVolatility (CurrentPrice stockData) (Indicators stockData)
       && belowMiddleBand (CurrentPrice stockData) (Indicators stockData)
       && normalBandWidth (CurrentPrice stockData) (Indicators stockData)
       = false →
       orders (w_trace w') = orders (w_trace w) ∧ w_env w' = w_env w).
Proof.
  intros Hflat Hdata Hprice.
  unfold executeTrading, bind, getBot. cbv zeta.
  destruct (Z.leb_spec (maxHistory (w_bot w)) (len (PriceHistory stockData)));
    [|lia].
  rewrite (ltb_zero_neq _ Hprice), Hflat. cbn [negb orb].
  apply evaluateEntry_run.
Qed.
(** The variables [shouldSell] and [sellReason] end as the disjunction of
    the five conditions and the reason of the last one that holds. *)
Lemma exitDecision_last_match currentPrice indicators position :
  exitDecision currentPrice indicators position
  = (anyExit currentPrice indicators position,
     lastReason currentPrice indicators position).
Proof.
  unfold exitDecision, anyExit, lastReason, takeProfit, stopLossHit,
    profitProtection, highVolatilityExit, lowVolatilityCut.
  cbv zeta.
  destruct (geb currentPrice (UpperBand indicators));
    destruct (leb currentPrice _);
    destruct (geb (profitPercentOf _ _) _);
    destruct (ltb currentPrice (MiddleBand indicators));
    destruct (gtb (ATR indicators) _);
    destruct (gtb (profitPercentOf _ _) zero);
    destruct (ltb (profitPercentOf _ _) zero);
    destruct (ltb (ATR indicators) _); reflexivity.
Qed.

(** [evaluateExit] places one sell order for the truncated held quantity
    when some exit condition holds, and logs the reason of the last
    condition that holds once the order is accepted; otherwise it only
    logs. *)
Lemma evaluateExit_run ticker currentPrice indicators position (w : World E) :
  ∃ w', evaluateExit ticker currentPrice indicators position w = Some (tt, w')
    ∧ w_bot w' = w_bot w
    ∧ (anyExit currentPrice indicators position = true →
       ∃ entry,
         w_trace w'
         = w_trace w
           ++ [EvPlaceMarket ticker
                 (Int.neg (to_int (trading212.Quantity position)));
               EvLog entry]
         ∧ (fst (client_EquityOrderPlaceMarket ticker
                   (Int.neg (to_int (trading212.Quantity position)))
                   (w_env w)) = true →
            ∃ pnl profitPercent,
              entry = LogSold ticker (to_int (trading212.Quantity position))
                        currentPrice
                        (lastReason currentPrice indicators position)
                        pnl profitPercent))
    ∧ (anyExit currentPrice indicators position = false →
       orders (w_trace w') = orders (w_trace w) ∧ w_env w' = w_env w).
Proof.
  unfold evaluateExit. cbv zeta. rewrite exitDecision_last_match.
  destruct (anyExit currentPrice indicators position).
  - unfold bind, EquityOrderPlaceMarket, Printf.
    destruct (client_EquityOrderPlaceMarket ticker
                (Int.neg (to_int (trading212.Quantity position))) (w_env w))
      as [[|] e]; eexists; (split; [reflexivity|]); cbn [w_bot w_trace w_env];
      (split; [reflexivity|]); (split; [|discriminate]); intros _;
      eexists; (split; [rewrite <- app_assoc; reflexivity|]); cbn [fst].
    + intros _. eexists _, _. reflexivity.
    + discriminate.
  - unfold Printf. eexists. split; [reflexivity|]. cbn [w_bot w_trace w_env].
    split; [reflexivity|]. split; [discriminate|].
    intros _. rewrite orders_app. cbn. rewrite app_nil_r. done.
Qed.

(** [executeTrading] on a ticker that has a position, a warmed-up history
    and a non-zero price is [evaluateExit] on the first position of the
    ticker. *)
Lemma executeTrading_long (w : World E) ticker stockData positions
    portfolioValue position :
  findPosition positions ticker = Some position →
  maxHistory (w_bot w) <= len (PriceHistory stockData) →
  eqb (CurrentPrice stockData) zero = false →
  executeTrading ticker stockData positions portfolioValue w
  = evaluateExit ticker (CurrentPrice stockData) (Indicators stockData)
      position w.
Proof.
  intros Hlong Hdata Hprice.
  unfold executeTrading, bind, getBot. cbv zeta.
  destruct (Z.leb_spec (maxHistory (w_bot w)) (len (PriceHistory stockData)));
    [|lia].
  rewrite Hprice, Hlong. reflexivity.
Qed.
End Decisions.

Section Trading.
Context {E : Type} `{Runtime E}.

(** C1, as amended. For a ticker with a position, a warmed-up history and a
    non-zero price, [executeTrading] submits a sell order exactly when at
    least one of the five exit conditions holds, and the reason logged with
    an accepted order is that of the LAST condition that holds in the order
    take profit, stop loss, profit protection, high volatility exit, low
    volatility cut; it is "take profit" when take profit is the only
    condition that holds. *)
Theorem executeTrading_long_sells_iff_any_exit (w : World E) ticker stockData
    positions portfolioValue position :
  findPosition positions ticker = Some position →
  maxHistory (w_bot w) <= len (PriceHistory stockData) →
  eqb (CurrentPrice stockData) zero = false →
  ∃ w',
    executeTrading ticker stockData positions portfolioValue w = Some (tt, w')
    ∧ (anyExit (CurrentPrice stockData) (Indicators stockData) position = true →
       orders (w_trace w')
       = orders (w_trace w)
         ++ [(ticker, Int.neg (to_int (trading212.Quantity position)))]
       ∧ (fst (client_EquityOrderPlaceMarket ticker
                 (Int.neg (to_int (trading212.Quantity position)))
                 (w_env w)) = true →
          ∃ pnl profitPercent,
            last (w_trace w')
            = Some (EvLog
                      (LogSold ticker (to_int (trading212.Quantity position))
                         (CurrentPrice stockData)
                         (lastReason (CurrentPrice stockData)
                            (Indicators stockData) position)
                         pnl profitPercent))))
    ∧ (anyExit (CurrentPrice stockData) (Indicators stockData) position = false →
       orders (w_trace w') = orders (w_trace w))
    ∧ (takeProfit (CurrentPrice stockData) (Indicators stockData) position
       = true →
       stopLossHit (CurrentPrice stockData) (Indicators stockData) position
       || profitProtection (CurrentPrice stockData) (Indicators stockData)
            position
       || highVolatilityExit (CurrentPrice stockData) (Indicators stockData)
            position
       || lowVolatilityCut (CurrentPrice stockData) (Indicators stockData)
            position = false →
       lastReason (CurrentPrice stockData) (Indicators stockData) position
       = "Take Profit (Upper Band)"%string).
Proof.
  intros Hlong Hdata Hprice.
  rewrite (executeTrading_long _ _ _ _ _ _ Hlong Hdata Hprice).
  destruct (evaluateExit_run ticker (CurrentPrice stockData)
              (Indicators stockData) position w)
    as (w' & Hrun & _ & Hsell & Hhold).
  exists w'. split; [exact Hrun|]. split; [|split].
  - intros Hany. destruct (Hsell Hany) as (entry & Htrace & Hlog).
    rewrite Htrace. split.
    + rewrite orders_app. reflexivity.
    + intros Hok. destruct (Hlog Hok) as (pnl & pp & ->).
      exists pnl, pp.
      change [EvPlaceMarket ticker
                (Int.neg (to_int (trading212.Quantity position)));
              EvLog (LogSold ticker (to_int (trading212.Quantity position))
                       (CurrentPrice stockData)
                       (lastReason (CurrentPrice stockData)
                          (Indicators stockData) position) pnl pp)]
        with ([EvPlaceMarket ticker
                 (Int.neg (to_int (trading212.Quantity position)))]
              ++ [EvLog (LogSold ticker
                           (to_int (trading212.Quantity position))
                           (CurrentPrice stockData)
                           (lastReason (CurrentPrice stockData)
                              (Indicators stockData) position) pnl pp)]).
      rewrite app_assoc. apply last_snoc.
  - intros Hnone. apply (Hhold Hnone).
  - intros Htp Hrest. unfold lastReason. rewrite Htp.
    apply orb_false_iff in Hrest as [Hrest ->].
    apply orb_false_iff in Hrest as [Hrest ->].
    apply orb_false_iff in Hrest as [-> ->]. reflexivity.
Qed.


(** C6. When [executeTrading] buys (no position held, a warmed-up history,
    a price above 0 and the four entry conditions), the order it submits is
    for [max(1, floor((portfolioValue * riskPercent / 100) / currentPrice))]
    shares, computed in [float64] from the portfolio value, the bot's risk
    percentage and this ticker's own price alone: neither the other records
    of the bot nor the positions held in other tickers enter it. *)
Theorem buy_quantity_is_clamped_floor (w : World E) ticker stockData positions
    portfolioValue z :
  findPosition positions ticker = None →
  maxHistory (w_bot w) <= len (PriceHistory stockData) →
  ltb zero (CurrentPrice stockData) = true →
  allEntry (CurrentPrice stockData) (Indicators stockData) = true →
  floor (div (div (mul portfolioValue (riskPercent (w_bot w))) (of_int 100))
             (CurrentPrice stockData)) = Some z →
  z <= Int.max_int →
  positionSizeOf portfolioValue (riskPercent (w_bot w))
    (CurrentPrice stockData) = Z.max 1 z
  ∧ ∃ w',
      executeTrading ticker stockData positions portfolioValue w
      = Some (tt, w')
      ∧ orders (w_trace w') = orders (w_trace w) ++ [(ticker, Z.max 1 z)]
      ∧ ∃ entry,
          w_trace w'
          = w_trace w ++ [EvPlaceMarket ticker (Z.max 1 z); EvLog entry].
Proof.
  intros Hflat Hdata Hprice Hentry Hfloor Hmax.
  pose proof (positionSizeOf_floor _ _ _ _ Hfloor Hmax) as Hsize.
  split; [exact Hsize|].
  unfold executeTrading, bind, getBot. cbv zeta.
  destruct (Z.leb_spec (maxHistory (w_bot w)) (len (PriceHistory stockData)));
    [|lia].
  rewrite (ltb_zero_neq _ Hprice), Hflat, Hsize. cbn [negb orb].
  unfold evaluateEntry. cbv zeta.
  change (leb (CurrentPrice stockData) (LowerBand (Indicators stockData))
          && ltb (ATR (Indicators stockData))
                 (mul (CurrentPrice stockData) (lit 25 1000))
          && ltb (CurrentPrice stockData) (MiddleBand (Indicators stockData))
          && (gtb (div (sub (UpperBand (Indicators stockData))
                          (LowerBand (Indicators stockData)))
                     (MiddleBand (Indicators stockData))) (lit 2 100)
              && ltb (div (sub (UpperBand (Indicators stockData))
                             (LowerBand (Indicators stockData)))
                        (MiddleBand (Indicators stockData))) (lit 15 100)))
    with (allEntry (CurrentPrice stockData) (Indicators stockData)).
  rewrite Hentry. unfold bind, EquityOrderPlaceMarket, Printf.
  destruct (client_EquityOrderPlaceMarket ticker (Z.max 1 z) (w_env w))
    as [[|] e]; eexists; (split; [reflexivity|]); cbn [w_trace];
    rewrite <- app_assoc; cbn [app];
    (split; [rewrite orders_app; reflexivity | eexists; reflexivity]).
Qed.
End Trading.

(** *** The scenarios of the specification *)

(** The entry scenario: price 95 on the lower band 95, middle band 100,
    upper band 105 and ATR 2, no position held. One share is bought. *)
Lemma executeTrading_flat_buys_iff_all_entry_witness :
  (findPosition [] "NVDA" = None
   ∧ maxHistory (w_bot scenarioWorld)
     <= len (PriceHistory (scenarioStock (of_int 95) (bands 2)))
   ∧ ltb zero (CurrentPrice (scenarioStock (of_int 95) (bands 2))) = true)
  ∧ allEntry (of_int 95) (bands 2) = true
  ∧ ∃ w',
      executeTrading "NVDA" (scenarioStock (of_int 95) (bands 2)) []
        (of_int 10000) scenarioWorld = Some (tt, w')
      ∧ orders (w_trace w') = [("NVDA"%string, 1)].
Proof.
  assert (H1 : findPosition [] "NVDA" = None) by reflexivity.
  assert (H2 : maxHistory (w_bot scenarioWorld)
               <= len (PriceHistory (scenarioStock (of_int 95) (bands 2))))
    by (vm_compute; discriminate).
  assert (H3 : ltb zero (CurrentPrice (scenarioStock (of_int 95) (bands 2)))
               = true) by (vm_compute; reflexivity).
  split; [repeat split; assumption|]. split; [vm_compute; reflexivity|].
  destruct (executeTrading_flat_buys_iff_all_entry scenarioWorld "NVDA"
              (scenarioStock (of_int 95) (bands 2)) [] (of_int 10000)
              H1 H2 H3) as (w' & Hrun & _ & Hbuy & _).
  exists w'. split; [exact Hrun|].
  rewrite Hbuy by (vm_compute; reflexivity). vm_compute. reflexivity.
Defined.

(** The exit scenario: entry price 95, price 106 above the upper band 105,
    ATR 2. Take profit is the only condition that holds; the share is sold
    and the reason logged is take profit. *)
Lemma executeTrading_long_sells_iff_any_exit_witness :
  (findPosition [held (of_int 1) (of_int 95)] "NVDA"
   = Some (held (of_int 1) (of_int 95))
   ∧ maxHistory (w_bot scenarioWorld)
     <= len (PriceHistory (scenarioStock (of_int 106) (bands 2)))
   ∧ eqb (CurrentPrice (scenarioStock (of_int 106) (bands 2))) zero = false)
  ∧ ∃ w' pnl profitPercent,
      executeTrading "NVDA" (scenarioStock (of_int 106) (bands 2))
        [held (of_int 1) (of_int 95)] (of_int 10000) scenarioWorld
      = Some (tt, w')
      ∧ orders (w_trace w') = [("NVDA"%string, -1)]
      ∧ last (w_trace w')
        = Some (EvLog (LogSold "NVDA" 1 (of_int 106)
                         "Take Profit (Upper Band)" pnl profitPercent)).
Proof.
  assert (H1 : findPosition [held (of_int 1) (of_int 95)] "NVDA"
               = Some (held (of_int 1) (of_int 95))) by reflexivity.
  assert (H2 : maxHistory (w_bot scenarioWorld)
               <= len (PriceHistory (scenarioStock (of_int 106) (bands 2))))
    by (vm_compute; discriminate).
  assert (H3 : eqb (CurrentPrice (scenarioStock (of_int 106) (bands 2))) zero
               = false) by (vm_compute; reflexivity).
  split; [repeat split; assumption|].
  destruct (executeTrading_long_sells_iff_any_exit scenarioWorld "NVDA"
              (scenarioStock (of_int 106) (bands 2))
              [held (of_int 1) (of_int 95)] (of_int 10000)
              (held (of_int 1) (of_int 95)) H1 H2 H3)
    as (w' & Hrun & Hsell & _ & Honly).
  destruct Hsell as [Horders Hlog]; [vm_compute; reflexivity|].
  destruct Hlog as (pnl & pp & Hlast); [vm_compute; reflexivity|].
  exists w', pnl, pp. split; [exact Hrun|]. split.
  - rewrite Horders. vm_compute. reflexivity.
  - rewrite Hlast, Honly by (vm_compute; reflexivity).
    vm_compute to_int. reflexivity.
Defined.

(** C1 as stated fails: with entry price 95, price 106, upper band 105 and
    an ATR of 4 (above 4% of the entry price), take profit is the first
    condition that holds, yet the reason logged is that of the high
    volatility exit, which is checked later and overwrites it. *)
Lemma exit_reason_is_last_match_not_first :
  takeProfit (of_int 106) (bands 4) (held (of_int 1) (of_int 95)) = true
  ∧ firstReason (of_int 106) (bands 4) (held (of_int 1) (of_int 95))
    = "Take Profit (Upper Band)"%string
  ∧ exitDecision (of_int 106) (bands 4) (held (of_int 1) (of_int 95))
    = (true, "High Volatility Exit"%string)
  ∧ ∃ w' pnl profitPercent,
      executeTrading "NVDA" (scenarioStock (of_int 106) (bands 4))
        [held (of_int 1) (of_int 95)] (of_int 10000) scenarioWorld
      = Some (tt, w')
      ∧ w_trace w'
        = [EvPlaceMarket "NVDA" (-1);
           EvLog (LogSold "NVDA" 1 (of_int 106) "High Volatility Exit"
                    pnl profitPercent)].
Proof.
  split; [vm_compute; reflexivity|].
  split; [vm_compute; reflexivity|].
  split; [vm_compute; reflexivity|].
  eexists _, _, _. split; vm_compute; reflexivity.
Qed.



(** The sizing scenario: portfolio value 10000, risk 0.4%, price 100, on
    bands 100 / 105 / 110 with an ATR of 2, where the entry conditions hold.
    The budget of 40 buys [floor(0.4) = 0] shares, clamped up to 1: the
    order submitted is for one share. *)
Lemma buy_quantity_is_clamped_floor_witness :
  (findPosition [] "NVDA" = None
   ∧ maxHistory (w_bot scenarioWorld)
     <= len (PriceHistory (scenarioStock (of_int 100) sizingBands))
   ∧ ltb zero (CurrentPrice (scenarioStock (of_int 100) sizingBands)) = true
   ∧ allEntry (CurrentPrice (scenarioStock (of_int 100) sizingBands))
       (Indicators (scenarioStock (of_int 100) sizingBands)) = true
   ∧ floor (div (div (mul (of_int 10000) (riskPercent (w_bot scenarioWorld)))
                     (of_int 100))
                (CurrentPrice (scenarioStock (of_int 100) sizingBands)))
     = Some 0
   ∧ 0 <= Int.max_int)
  ∧ riskPercent (w_bot scenarioWorld) = lit 4 10
  ∧ ∃ w',
      executeTrading "NVDA" (scenarioStock (of_int 100) sizingBands) []
        (of_int 10000) scenarioWorld
      = Some (tt, w')
      ∧ orders (w_trace w') = [("NVDA"%string, 1)].
Proof.
  assert (H1 : findPosition [] "NVDA" = None) by reflexivity.
  assert (H2 : maxHistory (w_bot scenarioWorld)
               <= len (PriceHistory (scenarioStock (of_int 100) sizingBands)))
    by (vm_compute; discriminate).
  assert (H3 : ltb zero (CurrentPrice (scenarioStock (of_int 100) sizingBands))
               = true) by (vm_compute; reflexivity).
  assert (H4 : allEntry (CurrentPrice (scenarioStock (of_int 100) sizingBands))
                 (Indicators (scenarioStock (of_int 100) sizingBands)) = true)
    by (vm_compute; reflexivity).
  assert (H5 : floor (div (div (mul (of_int 10000)
                                  (riskPercent (w_bot scenarioWorld)))
                             (of_int 100))
                        (CurrentPrice (scenarioStock (of_int 100) sizingBands)))
               = Some 0) by (vm_compute; reflexivity).
  assert (H6 : 0 <= Int.max_int) by (vm_compute; discriminate).
  split; [split; [exact H1 | split; [exact H2 | split; [exact H3 |
            split; [exact H4 | split; [exact H5 | exact H6]]]]]|].
  split; [reflexivity|].
  destruct (buy_quantity_is_clamped_floor scenarioWorld "NVDA"
              (scenarioStock (of_int 100) sizingBands) [] (of_int 10000) 0
              H1 H2 H3 H4 H5 H6) as (_ & w' & Hrun & Horders & _).
  exists w'. split; [exact Hrun | exact Horders].
Defined.

(** ** The price refresh *)

Section Refresh.
Context {E : Type} `{Runtime E}.

Lemma maxHistory_withStock bot ticker stockData :
  maxHistory (withStock bot ticker stockData) = maxHistory bot.
Proof. reflexivity. Qed.

Lemma rangeStocks_app keys1 keys2 body (w : World E) :
  rangeStocks (keys1 ++ keys2) body w
  = match rangeStocks keys1 body w with
    | Some (_, w1) => rangeStocks keys2 body w1
    | None => None
    end.
Proof.
  revert w. induction keys1 as [|ticker keys1 IH]; intros w; [reflexivity|].
  cbn [app rangeStocks]. unfold bind, getBot.
  destruct (match stocks (w_bot w) !! ticker with
            | Some stockData => body ticker stockData
            | None => ret ()
            end w) as [[[] w1]|]; [apply IH | reflexivity].
Qed.

(** The price fetch never panics and leaves the bot alone. *)
Lemma getCurrentPrice_run ticker (w : World E) :
  ∃ price w2, getCurrentPrice ticker w = Some (price, w2)
              ∧ w_bot w2 = w_bot w.
Proof.
  unfold getCurrentPrice, bind, Portfolio, Printf, ret.
  destruct (client_Portfolio (w_env w)) as [[positions|] e];
    eexists _, _; split; reflexivity.
Qed.

(** One iteration of the loop of [updateAllPrices]: a zero price leaves the
    bot as it is; any other price overwrites the record of the ticker with
    the price, the time and the pushed history. *)
Lemma updatePrice_run ticker stockData (w : World E) price w2 :
  0 <= maxHistory (w_bot w) →
  len (PriceHistory stockData) < Int.max_int →
  getCurrentPrice ticker w = Some (price, w2) →
  ∃ w', updatePrice ticker stockData w = Some (tt, w')
    ∧ w_bot w'
      = if eqb price zero then w_bot w
        else withStock (w_bot w) ticker
               {| Ticker := Ticker stockData;
                  PriceHistory :=
                    lastn (maxHistory (w_bot w))
                      (PriceHistory stockData ++ [samplePrice price]);
                  Indicators := Indicators stockData;
                  CurrentPrice := price;
                  LastUpdate := fst (time_Now (w_env w2)) |}.
Proof.
  intros HW Hlen Hprice.
  destruct (getCurrentPrice_run ticker w) as (p & w2' & Hrun & Hbot).
  rewrite Hprice in Hrun. injection Hrun as <- <-.
  unfold updatePrice, bind. rewrite Hprice.
  destruct (eqb price zero).
  - unfold Printf. eexists. split; [reflexivity|]. exact Hbot.
  - unfold Now, getBot, lift, setStock.
    destruct (time_Now (w_env w2)) as [now e] eqn:Hnow.
    cbn [w_bot w_env w_trace fst].
    rewrite Hbot, pushHistory_lastn by assumption.
    eexists. split; reflexivity.
Qed.

(** The whole loop: it does not panic, keeps the configuration of the bot
    and touches no ticker outside the visited keys. *)
Lemma updateAllPrices_run keys (w : World E) :
  0 <= maxHistory (w_bot w) →
  (∀ ticker stockData,
     ticker ∈ keys →
     stocks (w_bot w) !! ticker = Some stockData →
     len (PriceHistory stockData) < Int.max_int) →
  NoDup keys →
  ∃ wf, updateAllPrices keys w = Some (tt, wf)
    ∧ maxHistory (w_bot wf) = maxHistory (w_bot w)
    ∧ (∀ ticker, ticker ∉ keys →
         stocks (w_bot wf) !! ticker = stocks (w_bot w) !! ticker).
Proof.
  unfold updateAllPrices. intros HW Hbound Hnodup. revert w HW Hbound.
  induction Hnodup as [|ticker keys Hfresh Hnodup IH]; intros w HW Hbound.
  - exists w. cbn [rangeStocks]. unfold ret. repeat split.
  - cbn [rangeStocks]. unfold bind, getBot.
    destruct (stocks (w_bot w) !! ticker) as [stockData|] eqn:Hlook.
    + destruct (getCurrentPrice_run ticker w) as (price & w2 & Hprice & _).
      destruct (updatePrice_run ticker stockData w price w2 HW
                  (Hbound _ _ ltac:(left) Hlook) Hprice) as (w' & -> & Hbot).
      assert (Hstocks : ∀ t, t ≠ ticker →
                stocks (w_bot w') !! t = stocks (w_bot w) !! t).
      { intros t Ht. rewrite Hbot. destruct (eqb price zero); [reflexivity|].
        cbn [withStock stocks]. by rewrite lookup_insert_ne. }
      assert (HW' : maxHistory (w_bot w') = maxHistory (w_bot w)).
      { rewrite Hbot. by destruct (eqb price zero). }
      destruct (IH w') as (wf & Hrun & HWf & Hframe).
      * rewrite HW'. exact HW.
      * intros t sd Hin Ht. rewrite Hstocks in Ht by (intros ->; done).
        apply (Hbound t sd); [by right | exact Ht].
      * exists wf. split; [exact Hrun|]. split; [congruence|].
        intros t Ht. rewrite Hframe by set_solver.
        apply Hstocks. set_solver.
    + unfold ret. destruct (IH w HW) as (wf & Hrun & HWf & Hframe).
      * intros t sd Hin. apply Hbound. by right.
      * exists wf. split; [exact Hrun|]. split; [exact HWf|].
        intros t Ht. apply Hframe. set_solver.
Qed.
(** C9. In a cycle of [updateAllPrices] that visits the tickers in any
    order, a ticker whose price fetch returns [0] keeps its record as it was:
    current price, last update and price history are untouched and no sample
    is pushed. A ticker whose fetch returns another price, in the same cycle,
    gets that price, the time of the update and the pushed sample. The cycle
    does not panic. *)
Theorem updateAllPrices_zero_price_frame (w : World E) before ticker after
    stockData :
  NoDup (before ++ ticker :: after) →
  0 <= maxHistory (w_bot w) →
  (∀ t sd,
     t ∈ before ++ ticker :: after →
     stocks (w_bot w) !! t = Some sd →
     len (PriceHistory sd) < Int.max_int) →
  stocks (w_bot w) !! ticker = Some stockData →
  ∃ w1 price w2 wf,
    updateAllPrices before w = Some (tt, w1)
    ∧ getCurrentPrice ticker w1 = Some (price, w2)
    ∧ updateAllPrices (before ++ ticker :: after) w = Some (tt, wf)
    ∧ (eqb price zero = true →
       stocks (w_bot wf) !! ticker = Some stockData)
    ∧ (eqb price zero = false →
       stocks (w_bot wf) !! ticker
       = Some {| Ticker := Ticker stockData;
                 PriceHistory :=
                   lastn (maxHistory (w_bot w))
                     (PriceHistory stockData ++ [samplePrice price]);
                 Indicators := Indicators stockData;
                 CurrentPrice := price;
                 LastUpdate := fst (time_Now (w_env w2)) |}).
Proof.
  intros Hnodup HW Hbound Hlook.
  apply NoDup_app in Hnodup as (Hnd1 & Hdisj & Hnd2).
  apply NoDup_cons in Hnd2 as [Hfresh Hnd2].
  assert (Hnotin : ticker ∉ before).
  { intros Hin. apply (Hdisj _ Hin). by left. }
  destruct (updateAllPrices_run before w HW) as (w1 & Hrun1 & HW1 & Hframe1);
    [intros t sd Hin; apply Hbound; set_solver | exact Hnd1 |].
  destruct (getCurrentPrice_run ticker w1) as (price & w2 & Hprice & _).
  assert (Hlook1 : stocks (w_bot w1) !! ticker = Some stockData)
    by (rewrite Hframe1 by exact Hnotin; exact Hlook).
  destruct (updatePrice_run ticker stockData w1 price w2) as (w' & Hstep & Hbot);
    [lia | apply (Hbound ticker); [set_solver | exact Hlook] | exact Hprice |].
  assert (HW' : maxHistory (w_bot w') = maxHistory (w_bot w)).
  { rewrite Hbot. destruct (eqb price zero); exact HW1. }
  destruct (updateAllPrices_run after w') as (wf & Hrun2 & _ & Hframe2);
    [lia | | exact Hnd2 |].
  { intros t sd Hin Ht. apply (Hbound t sd); [set_solver|].
    assert (t ≠ ticker) by (intros ->; done).
    assert (t ∉ before) by (intros Hb; apply (Hdisj _ Hb); by right).
    rewrite <- Hframe1 by assumption. revert Ht. rewrite Hbot.
    destruct (eqb price zero); [done|].
    cbn [withStock stocks]. by rewrite lookup_insert_ne. }
  exists w1, price, w2, wf. split; [exact Hrun1|]. split; [exact Hprice|].
  split.
  - unfold updateAllPrices in *. rewrite rangeStocks_app, Hrun1.
    cbn [rangeStocks]. unfold bind, getBot. rewrite Hlook1, Hstep. exact Hrun2.
  - rewrite (Hframe2 ticker Hfresh), Hbot. split; intros ->.
    + exact Hlook1.
    + cbn [withStock stocks]. rewrite lookup_insert_eq, HW1. reflexivity.
Qed.
End Refresh.

(** A cycle over NVDA and then TSLA in which the fetch for NVDA fails: the
    record of NVDA is as before, and TSLA has its price of 250, the time 7
    of the clock and one sample. *)
Lemma updateAllPrices_zero_price_frame_witness :
  (NoDup ([] ++ "NVDA"%string :: ["TSLA"%string])
   ∧ 0 <= maxHistory (w_bot twoStockWorld)
   ∧ stocks (w_bot twoStockWorld) !! "NVDA"%string = Some (coldStock "NVDA"))
  ∧ ∃ wf,
      updateAllPrices ["NVDA"%string; "TSLA"%string] twoStockWorld
      = Some (tt, wf)
      ∧ stocks (w_bot wf) !! "NVDA"%string = Some (coldStock "NVDA")
      ∧ stocks (w_bot wf) !! "TSLA"%string
        = Some {| Ticker := "TSLA";
                  PriceHistory := [samplePrice (of_int 250)];
                  Indicators := zeroIndicators;
                  CurrentPrice := of_int 250;
                  LastUpdate := 7 |}.
Proof.
  assert (H1 : NoDup ([] ++ "NVDA"%string :: ["TSLA"%string])).
  { cbn [app]. apply NoDup_cons. split; [|apply NoDup_singleton].
    intros Hin. apply list_elem_of_singleton in Hin. discriminate. }
  assert (H2 : 0 <= maxHistory (w_bot twoStockWorld))
    by (vm_compute; discriminate).
  assert (H3 : stocks (w_bot twoStockWorld) !! "NVDA"%string
               = Some (coldStock "NVDA")) by (vm_compute; reflexivity).
  split; [repeat split; assumption|].
  destruct (updateAllPrices_zero_price_frame twoStockWorld [] "NVDA"
              ["TSLA"%string] (coldStock "NVDA") H1 H2) as
    (w1 & price & w2 & wf & Hrun1 & Hprice & Hrun & Hzero & _).
  - intros t sd Hin Hsd.
    assert (Hcold : PriceHistory sd = []).
    { cbn [app] in Hin. apply elem_of_cons in Hin as [->|Hin].
      - vm_compute in Hsd. by injection Hsd as <-.
      - apply list_elem_of_singleton in Hin as ->.
        vm_compute in Hsd. by injection Hsd as <-. }
    rewrite Hcold. vm_compute. reflexivity.
  - exact H3.
  - exists wf. split; [exact Hrun|]. split.
    + apply Hzero. injection Hrun1 as <-. vm_compute in Hprice.
      by injection Hprice as <- _.
    + cbn [app] in Hrun. vm_compute in Hrun. injection Hrun as <-.
      vm_compute. reflexivity.
Defined.

(** * Further properties *)

(** ** Signs of computed floats *)

Lemma iter_pos_preserves {A} (P : A → Prop) (f : A → A) n x :
  (∀ y, P y → P (f y)) → P x → P (SpecFloat.iter_pos f n x).
Proof.
  intros Hf. revert x. induction n as [n IH|n IH|]; intros x Hx; simpl; auto.
Qed.

Lemma shr_1_nonneg mrs : 0 <= shr_m mrs → 0 <= shr_m (shr_1 mrs).
Proof.
  destruct mrs as [m r s]. destruct m as [|p|p]; simpl; try lia;
    destruct p; simpl; lia.
Qed.

Lemma shr_fexp_nonneg m e l :
  0 <= m → 0 <= shr_m (fst (shr_fexp prec emax m e l)).
Proof.
  intros Hm. unfold shr_fexp, shr.
  assert (Hrec : 0 <= shr_m (shr_record_of_loc m l))
    by (destruct l as [|[]]; exact Hm).
  destruct (fexp prec emax (Zdigits2 m + e) - e); simpl; try exact Hrec.
  by apply (iter_pos_preserves (λ mrs, 0 <= shr_m mrs)), Hrec; apply shr_1_nonneg.
Qed.

Lemma round_nearest_even_nonneg m l : 0 <= m → 0 <= round_nearest_even m l.
Proof.
  intros Hm. unfold round_nearest_even.
  destruct l as [|[]]; try lia. destruct (Z.even m); lia.
Qed.

(** Rounding a non-negative mantissa gives a zero, a finite float or an
    infinity of the sign asked for, never a NaN. *)
Lemma binary_round_aux_sign sx mx ex lx :
  0 <= mx →
  is_nan (binary_round_aux prec emax sx mx ex lx) = false
  ∧ isNegative (binary_round_aux prec emax sx mx ex lx) = sx.
Proof.
  intros Hm. unfold binary_round_aux.
  pose proof (shr_fexp_nonneg mx ex lx Hm) as H1.
  destruct (shr_fexp prec emax mx ex lx) as [mrs' e']. simpl in H1.
  pose proof (shr_fexp_nonneg
                (round_nearest_even (shr_m mrs') (loc_of_shr_record mrs'))
                e' loc_Exact (round_nearest_even_nonneg _ _ H1)) as H2.
  destruct (shr_fexp prec emax _ e' loc_Exact) as [mrs'' e'']. simpl in H2.
  destruct (shr_m mrs'') as [|p|p]; [done| |lia].
  by destruct (e'' <=? emax - prec).
Qed.

Lemma binary_round_sign sx m e :
  is_nan (binary_round prec emax sx m e) = false
  ∧ isNegative (binary_round prec emax sx m e) = sx.
Proof.
  unfold binary_round. destruct (shl_align _ _ _) as [mz ez].
  apply binary_round_aux_sign. lia.
Qed.

Lemma of_int_nonneg n : 0 <= n → isNegative (of_int n) = false.
Proof.
  intros Hn. destruct n as [|p|p]; [done| |lia].
  apply binary_round_sign.
Qed.

Lemma add_nonneg x y :
  isNegative x = false → isNegative y = false → isNegative (add x y) = false.
Proof.
  destruct x as [sx|sx| |sx mx ex], y as [sy|sy| |sy my ey];
    simpl; intros Hx Hy; subst; try done.
  unfold add, SFadd. cbv zeta. cbn [cond_Zopp].
  apply binary_round_sign.
Qed.

Lemma mul_self_nonneg x : isNegative (mul x x) = false.
Proof.
  destruct x as [s|s| |s m e]; [by destruct s | by destruct s | done |].
  unfold mul, SFmul. replace (xorb s s) with false by (by destruct s).
  apply binary_round_aux_sign. lia.
Qed.

Lemma div_nonneg x y :
  isNegative x = false → isNegative y = false → isNegative (div x y) = false.
Proof.
  destruct x as [sx|sx| |sx mx ex], y as [sy|sy| |sy my ey];
    simpl; intros Hx Hy; subst; try done.
  unfold div, SFdiv, SFdiv_core_binary. cbv zeta.
  set (m' := match _ - _ - _ with
             | 0 => Z.pos mx
             | Z.pos _ => Z.shiftl (Z.pos mx) _
             | Z.neg _ => 0
             end).
  assert (Hm' : 0 <= m').
  { subst m'. destruct (_ - _ - _); [lia| |lia].
    apply Z.shiftl_nonneg. lia. }
  destruct (Z.div_eucl m' (Z.pos my)) as [q r] eqn:Hqr.
  apply binary_round_aux_sign.
  assert (q = m' / Z.pos my) as -> by (unfold Z.div; by rewrite Hqr).
  apply Z.div_pos; lia.
Qed.

Lemma Sqrt_nonneg x : isNegative x = false → isNegative (Sqrt x) = false.
Proof.
  destruct x as [s|s| |s m e]; simpl; intros Hx; subst; try done.
  unfold Sqrt, SFsqrt, SFsqrt_core_binary. cbv zeta.
  set (m' := match e - _ with
             | 0 => Z.pos m
             | Z.pos _ => Z.shiftl (Z.pos m) _
             | Z.neg _ => 0
             end).
  assert (Hm' : 0 <= m').
  { subst m'. destruct (e - _); [lia| |lia]. apply Z.shiftl_nonneg. lia. }
  pose proof (Z.sqrtrem_spec m' Hm') as Hspec.
  destruct (Z.sqrtrem m') as [q r].
  apply binary_round_aux_sign. lia.
Qed.

Lemma Abs_nonneg x : isNegative (Abs x) = false.
Proof. by destruct x. Qed.

(** A float above a float that is not negative is not negative either. *)
Lemma SFltb_nonneg x y :
  isNegative y = false → SFltb y x = true → isNegative x = false.
Proof.
  unfold SFltb.
  destruct y as [sy|sy| |sy my ey], x as [sx|sx| |sx mx ex];
    simpl; intros Hy Hlt; subst; try done; by destruct sx.
Qed.

Lemma Max_nonneg x y : isNegative y = false → isNegative (Max x y) = false.
Proof.
  intros Hy. unfold Max.
  destruct (is_pos_inf x || is_pos_inf y); [done|].
  destruct (is_nan x || is_nan y); [done|].
  destruct (eqb x zero && eqb x y) eqn:Hzero.
  - destruct x as [[]|[]| |[] mx ex]; done.
  - unfold gtb. destruct (SFltb y x) eqn:Hlt; [|exact Hy].
    by apply (SFltb_nonneg x y).
Qed.

Lemma isNegative_not_below_zero x : isNegative x = false → ltb x zero = false.
Proof. by destruct x as [s|s| |s m e]; simpl; intros Hx; subst. Qed.

Lemma trueRange_nonneg current previous :
  isNegative (trueRange current previous) = false.
Proof.
  unfold trueRange. apply Max_nonneg, Max_nonneg, Abs_nonneg.
Qed.

Lemma fold_add_nonneg {A} (f : A → float64) (l : list A) s :
  Forall (λ x, isNegative (f x) = false) l → isNegative s = false →
  isNegative (fold_left (λ acc x, add acc (f x)) l s) = false.
Proof.
  intros Hl. revert s. induction Hl as [|x l Hx _ IH]; intros s Hs; [exact Hs|].
  cbn [fold_left]. apply IH, add_nonneg; [exact Hs | exact Hx].
Qed.

Lemma trueRangesOf_nonneg h :
  Forall (λ x, isNegative x = false) (trueRangesOf h).
Proof.
  apply Forall_lookup. intros i x. unfold trueRangesOf.
  rewrite lookup_zip_with. intros Hx.
  destruct (drop 1 h !! i) as [c|]; [|done]. simpl in Hx.
  destruct (h !! i) as [p|]; [|done]. injection Hx as <-.
  apply trueRange_nonneg.
Qed.

(** ** The indicator computations stay in range *)

(** [calculateATR] either stops at one of its guards or computes the mean
    of the True Ranges; it never indexes out of range. *)
Lemma calculateATR_cases bot h :
  0 <= atrPeriod bot < 2 ^ 53 →
  len h <= Int.max_int →
  calculateATR bot h = Some zero
  ∨ (atrPeriod bot + 1 <= len h
     ∧ calculateATR bot h
       = Some (mean (lastn (atrPeriod bot) (trueRangesOf h)) (atrPeriod bot))).
Proof.
  intros Hp Hlen. int_bounds.
  destruct (Z.lt_ge_cases (len h) (atrPeriod bot + 1)) as [Hshort|Hlong].
  - left. unfold calculateATR, Int.add. rewrite wrap_id by lia.
    destruct (Z.ltb_spec (len h) (atrPeriod bot + 1)); [reflexivity | lia].
  - right. split; [lia|]. apply calculateATR_loops; lia.
Qed.

Lemma calculateBollingerBands_cases bot h :
  0 <= bollingerPeriod bot →
  len h <= Int.max_int →
  calculateBollingerBands bot h = Some (zero, zero, zero, zero)
  ∨ (bollingerPeriod bot <= len h
     ∧ calculateBollingerBands bot h
       = Some (add (mean (lastn (bollingerPeriod bot) (closes h))
                      (bollingerPeriod bot))
                 (mul (of_int 2)
                    (Sqrt (popVariance (lastn (bollingerPeriod bot) (closes h))
                             (mean (lastn (bollingerPeriod bot) (closes h))
                                (bollingerPeriod bot))
                             (bollingerPeriod bot)))),
               mean (lastn (bollingerPeriod bot) (closes h))
                 (bollingerPeriod bot),
               sub (mean (lastn (bollingerPeriod bot) (closes h))
                      (bollingerPeriod bot))
                 (mul (of_int 2)
                    (Sqrt (popVariance (lastn (bollingerPeriod bot) (closes h))
                             (mean (lastn (bollingerPeriod bot) (closes h))
                                (bollingerPeriod bot))
                             (bollingerPeriod bot)))),
               Sqrt (popVariance (lastn (bollingerPeriod bot) (closes h))
                       (mean (lastn (bollingerPeriod bot) (closes h))
                          (bollingerPeriod bot))
                       (bollingerPeriod bot)))).
Proof.
  intros Hp Hlen.
  destruct (Z.lt_ge_cases (len h) (bollingerPeriod bot)) as [Hshort|Hlong].
  - left. unfold calculateBollingerBands.
    destruct (Z.ltb_spec (len h) (bollingerPeriod bot)); [reflexivity | lia].
  - right. split; [lia|]. apply calculateBollingerBands_spec; lia.
Qed.

Lemma calculateIndicators_total bot h :
  0 <= atrPeriod bot < 2 ^ 53 →
  0 <= bollingerPeriod bot →
  len h <= Int.max_int →
  is_Some (calculateIndicators bot h).
Proof.
  intros Ha Hb Hlen. unfold calculateIndicators.
  destruct (len h <? maxHistory bot); [by eexists|].
  destruct (calculateATR_cases bot h Ha Hlen) as [->|[_ ->]];
    destruct (calculateBollingerBands_cases bot h Hb Hlen) as [->|[_ ->]];
    by eexists.
Qed.

(** X1. [calculateATR] never panics, and the ATR it returns is never below
    zero and never [-0]: it is [+0], a positive number, [+Inf] or a NaN
    (which a period of 0 gives), on which every comparison is false. *)
Theorem calculateATR_never_negative bot h :
  0 <= atrPeriod bot < 2 ^ 53 →
  len h <= Int.max_int →
  ∃ atr, calculateATR bot h = Some atr
         ∧ isNegative atr = false
         ∧ ltb atr zero = false.
Proof.
  intros Hp Hlen.
  assert (∃ atr, calculateATR bot h = Some atr ∧ isNegative atr = false)
    as (atr & Hrun & Hsign).
  { destruct (calculateATR_cases bot h Hp Hlen) as [->|[_ ->]];
      eexists; (split; [reflexivity|]); [reflexivity|].
    unfold mean, fsum. apply div_nonneg; [|apply of_int_nonneg; lia].
    apply (fold_add_nonneg (λ x, x)); [|reflexivity].
    unfold lastn. apply Forall_drop, trueRangesOf_nonneg. }
  exists atr. split; [exact Hrun|]. split; [exact Hsign|].
  by apply isNegative_not_below_zero.
Qed.

(** The samples of [TestCalculateATR] with a period of 3. *)
Lemma calculateATR_never_negative_witness :
  (0 <= atrPeriod (botWith zero 3 0) < 2 ^ 53
   ∧ len atrSamples <= Int.max_int)
  ∧ ∃ atr, calculateATR (botWith zero 3 0) atrSamples = Some atr
           ∧ isNegative atr = false
           ∧ ltb atr zero = false.
Proof.
  assert (H1 : 0 <= atrPeriod (botWith zero 3 0) < 2 ^ 53)
    by (vm_compute; split; [discriminate | reflexivity]).
  assert (H2 : len atrSamples <= Int.max_int) by (vm_compute; discriminate).
  split; [split; assumption|].
  exact (calculateATR_never_negative (botWith zero 3 0) atrSamples H1 H2).
Defined.

(** X2. [calculateBollingerBands] never panics, and the standard deviation
    it returns is never below zero and never [-0]: it is [+0], a positive
    number, [+Inf] or a NaN (which a period of 0 gives). The upper and lower
    bands are the middle band plus and minus twice the deviation. *)
Theorem calculateBollingerBands_deviation_never_negative bot h :
  0 <= bollingerPeriod bot →
  len h <= Int.max_int →
  ∃ upperBand middleBand lowerBand stdDev,
    calculateBollingerBands bot h
    = Some (upperBand, middleBand, lowerBand, stdDev)
    ∧ isNegative stdDev = false
    ∧ ltb stdDev zero = false
    ∧ upperBand = add middleBand (mul (of_int 2) stdDev)
    ∧ lowerBand = sub middleBand (mul (of_int 2) stdDev).
Proof.
  intros Hp Hlen.
  destruct (calculateBollingerBands_cases bot h Hp Hlen) as [->|[_ ->]];
    eexists _, _, _, _; (split; [reflexivity|]).
  - repeat split.
  - assert (Hsd : isNegative
                    (Sqrt (popVariance (lastn (bollingerPeriod bot) (closes h))
                             (mean (lastn (bollingerPeriod bot) (closes h))
                                (bollingerPeriod bot))
                             (bollingerPeriod bot))) = false).
    { apply Sqrt_nonneg. unfold popVariance.
      apply div_nonneg; [|apply of_int_nonneg; lia].
      apply (fold_add_nonneg (λ c, mul (sub c _) (sub c _))); [|reflexivity].
      apply Forall_forall. intros c _. apply mul_self_nonneg. }
    split; [exact Hsd|]. split; [by apply isNegative_not_below_zero|].
    split; reflexivity.
Qed.

(** The closes 100, 102, 98 of [TestCalculateBollingerBands], period 3. *)
Lemma calculateBollingerBands_deviation_never_negative_witness :
  (0 <= bollingerPeriod (botWith zero 14 3)
   ∧ len [sampleC (of_int 100); sampleC (of_int 102); sampleC (of_int 98)]
     <= Int.max_int)
  ∧ ∃ upperBand middleBand lowerBand stdDev,
      calculateBollingerBands (botWith zero 14 3)
        [sampleC (of_int 100); sampleC (of_int 102); sampleC (of_int 98)]
      = Some (upperBand, middleBand, lowerBand, stdDev)
      ∧ isNegative stdDev = false
      ∧ ltb stdDev zero = false
      ∧ upperBand = add middleBand (mul (of_int 2) stdDev)
      ∧ lowerBand = sub middleBand (mul (of_int 2) stdDev).
Proof.
  assert (H1 : 0 <= bollingerPeriod (botWith zero 14 3))
    by (vm_compute; discriminate).
  assert (H2 : len [sampleC (of_int 100); sampleC (of_int 102);
                    sampleC (of_int 98)] <= Int.max_int)
    by (vm_compute; discriminate).
  split; [split; assumption|].
  exact (calculateBollingerBands_deviation_never_negative
           (botWith zero 14 3) _ H1 H2).
Defined.

(** X3. The history bound
    [int(math.Max(float64(atrPeriod), float64(bollingerPeriod)))] loses
    nothing in its trip through [float64] for periods below [2^53]: each
    period converts to a float and back unchanged, and the bound is the
    larger of the two periods. *)
Theorem maxHistory_round_trip bot :
  0 <= atrPeriod bot < 2 ^ 53 →
  0 <= bollingerPeriod bot < 2 ^ 53 →
  to_int (of_int (atrPeriod bot)) = atrPeriod bot
  ∧ to_int (of_int (bollingerPeriod bot)) = bollingerPeriod bot
  ∧ maxHistory bot = Z.max (atrPeriod bot) (bollingerPeriod bot)
  ∧ 0 <= maxHistory bot < 2 ^ 53.
Proof.
  intros Ha Hb. rewrite !to_int_of_int, maxHistory_max by assumption.
  repeat split; lia.
Qed.

(** The periods 14 and 20 of [main] give a bound of 20 samples. *)
Lemma maxHistory_round_trip_witness :
  (0 <= atrPeriod scenarioBot < 2 ^ 53
   ∧ 0 <= bollingerPeriod scenarioBot < 2 ^ 53)
  ∧ maxHistory scenarioBot = 20.
Proof.
  assert (H1 : 0 <= atrPeriod scenarioBot < 2 ^ 53)
    by (vm_compute; split; [discriminate | reflexivity]).
  assert (H2 : 0 <= bollingerPeriod scenarioBot < 2 ^ 53)
    by (vm_compute; split; [discriminate | reflexivity]).
  split; [split; assumption|].
  destruct (maxHistory_round_trip scenarioBot H1 H2) as (_ & _ & -> & _).
  reflexivity.
Defined.

(** ** Recomputing the indicators *)

Section Indicators.
Context {E : Type} `{Runtime E}.

Lemma calculateIndicators_config bot1 bot2 h :
  atrPeriod bot1 = atrPeriod bot2 →
  bollingerPeriod bot1 = bollingerPeriod bot2 →
  calculateIndicators bot1 h = calculateIndicators bot2 h.
Proof.
  unfold calculateIndicators, maxHistory, calculateATR, calculateBollingerBands.
  intros -> ->. reflexivity.
Qed.

Lemma maxHistory_config bot1 bot2 :
  atrPeriod bot1 = atrPeriod bot2 →
  bollingerPeriod bot1 = bollingerPeriod bot2 →
  maxHistory bot1 = maxHistory bot2.
Proof. unfold maxHistory. intros -> ->. reflexivity. Qed.

(** The visit of one ticker: a warmed-up record gets the indicators of its
    history, a cold one is left alone; nothing else changes. *)
Lemma calculateAllIndicators_one ticker stockData (w : World E) :
  stocks (w_bot w) !! ticker = Some stockData →
  0 <= atrPeriod (w_bot w) < 2 ^ 53 →
  0 <= bollingerPeriod (w_bot w) →
  len (PriceHistory stockData) <= Int.max_int →
  ∃ indicators,
    calculateAllIndicators [ticker] w
    = Some (tt, mkWorld (w_env w)
                  (if maxHistory (w_bot w) <=? len (PriceHistory stockData)
                   then withStock (w_bot w) ticker
                          {| Ticker := Ticker stockData;
                             PriceHistory := PriceHistory stockData;
                             Indicators := indicators;
                             CurrentPrice := CurrentPrice stockData;
                             LastUpdate := LastUpdate stockData |}
                   else w_bot w)
                  (w_trace w))
    ∧ if maxHistory (w_bot w) <=? len (PriceHistory stockData)
      then calculateIndicators (w_bot w) (PriceHistory stockData)
           = Some indicators
      else indicators = Indicators stockData.
Proof.
  intros Hlook Ha Hb Hlen.
  unfold calculateAllIndicators. cbn [rangeStocks]. unfold bind, getBot.
  rewrite Hlook.
  destruct (maxHistory (w_bot w) <=? len (PriceHistory stockData)).
  - destruct (calculateIndicators_total (w_bot w) (PriceHistory stockData)
                Ha Hb Hlen) as [indicators Hind].
    exists indicators. rewrite Hind. split; reflexivity.
  - exists (Indicators stockData). split; [|reflexivity].
    unfold ret. by destruct w.
Qed.

(** The whole loop, for any order of the keys: it does not panic, calls
    nothing outside the bot, and changes the indicators of the visited
    warmed-up records only. *)
Lemma calculateAllIndicators_run keys (w : World E) :
  NoDup keys →
  0 <= atrPeriod (w_bot w) < 2 ^ 53 →
  0 <= bollingerPeriod (w_bot w) →
  (∀ t sd, t ∈ keys → stocks (w_bot w) !! t = Some sd →
           len (PriceHistory sd) <= Int.max_int) →
  ∃ wf,
    calculateAllIndicators keys w = Some (tt, wf)
    ∧ w_env wf = w_env w
    ∧ w_trace wf = w_trace w
    ∧ (atrPeriod (w_bot wf) = atrPeriod (w_bot w)
       ∧ bollingerPeriod (w_bot wf) = bollingerPeriod (w_bot w)
       ∧ riskPercent (w_bot wf) = riskPercent (w_bot w))
    ∧ (∀ t, t ∉ keys → stocks (w_bot wf) !! t = stocks (w_bot w) !! t)
    ∧ (∀ t sd, t ∈ keys → stocks (w_bot w) !! t = Some sd →
         ∃ indicators,
           stocks (w_bot wf) !! t
           = Some {| Ticker := Ticker sd;
                     PriceHistory := PriceHistory sd;
                     Indicators := indicators;
                     CurrentPrice := CurrentPrice sd;
                     LastUpdate := LastUpdate sd |}
           ∧ if maxHistory (w_bot w) <=? len (PriceHistory sd)
             then calculateIndicators (w_bot w) (PriceHistory sd)
                  = Some indicators
             else indicators = Indicators sd)
    ∧ (∀ t, stocks (w_bot w) !! t = None → stocks (w_bot wf) !! t = None).
Proof.
  intros Hnodup. revert w.
  induction Hnodup as [|ticker keys Hfresh Hnodup IH]; intros w Ha Hb Hbound.
  - exists w. unfold calculateAllIndicators. cbn [rangeStocks]. unfold ret.
    repeat split; try done. intros t sd Hin. by apply elem_of_nil in Hin.
  - assert (Hstep : ∃ w',
              calculateAllIndicators [ticker] w = Some (tt, w')
              ∧ w_env w' = w_env w ∧ w_trace w' = w_trace w
              ∧ (atrPeriod (w_bot w') = atrPeriod (w_bot w)
                 ∧ bollingerPeriod (w_bot w') = bollingerPeriod (w_bot w)
                 ∧ riskPercent (w_bot w') = riskPercent (w_bot w))
              ∧ (∀ t, t ≠ ticker →
                   stocks (w_bot w') !! t = stocks (w_bot w) !! t)
              ∧ (∀ sd, stocks (w_bot w) !! ticker = Some sd →
                   ∃ indicators,
                     stocks (w_bot w') !! ticker
                     = Some {| Ticker := Ticker sd;
                               PriceHistory := PriceHistory sd;
                               Indicators := indicators;
                               CurrentPrice := CurrentPrice sd;
                               LastUpdate := LastUpdate sd |}
                     ∧ if maxHistory (w_bot w) <=? len (PriceHistory sd)
                       then calculateIndicators (w_bot w) (PriceHistory sd)
                            = Some indicators
                       else indicators = Indicators sd)
              ∧ (stocks (w_bot w) !! ticker = None →
                 stocks (w_bot w') !! ticker = None)).
    { destruct (stocks (w_bot w) !! ticker) as [sd0|] eqn:Hlook.
      - destruct (calculateAllIndicators_one ticker sd0 w Hlook Ha Hb)
          as (ind0 & Hrun & Hind); [apply (Hbound ticker); [by left|done]|].
        eexists. split; [exact Hrun|]. cbn [w_env w_trace w_bot].
        destruct (maxHistory (w_bot w) <=? len (PriceHistory sd0)) eqn:Hwarm.
        + repeat split; try done.
          * intros t Ht. cbn [withStock stocks]. by rewrite lookup_insert_ne.
          * intros sd [= <-]. exists ind0. rewrite Hwarm. split; [|exact Hind].
            cbn [withStock stocks]. by rewrite lookup_insert_eq.
        + repeat split; try done.
          intros sd [= <-]. exists ind0. rewrite Hwarm. split; [|exact Hind].
          rewrite Hlook, Hind. by destruct sd0.
      - exists w. unfold calculateAllIndicators. cbn [rangeStocks].
        unfold bind, getBot, ret. rewrite Hlook. repeat split; done. }
    destruct Hstep as (w' & Hrun1 & He1 & Ht1 & (Ha1 & Hb1 & Hr1) & Hother
                       & Hself & Hnone).
    destruct (IH w') as (wf & Hrun2 & He2 & Ht2 & (Ha2 & Hb2 & Hr2) & Hframe
                         & Hin & Hnone2).
    { rewrite Ha1. exact Ha. }
    { rewrite Hb1. exact Hb. }
    { intros t sd Ht Hsd. rewrite Hother in Hsd by (intros ->; done).
      apply (Hbound t sd); [by right | exact Hsd]. }
    exists wf. split.
    { unfold calculateAllIndicators in *.
      change (ticker :: keys) with ([ticker] ++ keys).
      rewrite rangeStocks_app, Hrun1. exact Hrun2. }
    split; [congruence|]. split; [congruence|].
    split; [repeat split; congruence|]. split; [|split].
    + intros t Ht. rewrite Hframe by (intros Hk; apply Ht; by right).
      apply Hother. intros ->. apply Ht. by left.
    + intros t sd Ht Hsd. apply elem_of_cons in Ht as [->|Ht].
      * rewrite (Hframe ticker Hfresh). by apply Hself.
      * assert (t ≠ ticker) by (intros ->; done).
        destruct (Hin t sd Ht) as (ind & Hlook & Hind);
          [by rewrite Hother|].
        exists ind. split; [exact Hlook|].
        rewrite <- (maxHistory_config _ _ Ha1 Hb1),
          <- (calculateIndicators_config _ _ _ Ha1 Hb1). exact Hind.
    + intros t Ht. apply Hnone2.
      destruct (decide (t = ticker)) as [->|Hne]; [by apply Hnone|].
      by rewrite Hother.
Qed.
(** X4. [calculateAllIndicators], for any order of the keys, never panics,
    calls nothing outside the bot and logs nothing; it changes no ticker,
    price history, current price or update time. A visited record with a
    warmed-up history gets the indicators of that history; a record with a
    shorter history keeps the indicators it had (they are not reset). *)
Theorem calculateAllIndicators_only_refreshes_indicators keys (w : World E) :
  NoDup keys →
  0 <= atrPeriod (w_bot w) < 2 ^ 53 →
  0 <= bollingerPeriod (w_bot w) →
  (∀ t sd, t ∈ keys → stocks (w_bot w) !! t = Some sd →
           len (PriceHistory sd) <= Int.max_int) →
  ∃ wf,
    calculateAllIndicators keys w = Some (tt, wf)
    ∧ w_env wf = w_env w
    ∧ w_trace wf = w_trace w
    ∧ ∀ t sd, stocks (w_bot w) !! t = Some sd →
        ∃ sd', stocks (w_bot wf) !! t = Some sd'
          ∧ Ticker sd' = Ticker sd
          ∧ PriceHistory sd' = PriceHistory sd
          ∧ CurrentPrice sd' = CurrentPrice sd
          ∧ LastUpdate sd' = LastUpdate sd
          ∧ (len (PriceHistory sd) < maxHistory (w_bot w) →
             Indicators sd' = Indicators sd)
          ∧ (t ∈ keys → maxHistory (w_bot w) <= len (PriceHistory sd) →
             calculateIndicators (w_bot w) (PriceHistory sd)
             = Some (Indicators sd')).
Proof.
  intros Hnodup Ha Hb Hbound.
  destruct (calculateAllIndicators_run keys w Hnodup Ha Hb Hbound)
    as (wf & Hrun & He & Ht & _ & Hframe & Hin & _).
  exists wf. split; [exact Hrun|]. split; [exact He|]. split; [exact Ht|].
  intros t sd Hsd. destruct (decide (t ∈ keys)) as [Hkey|Hkey].
  - destruct (Hin t sd Hkey Hsd) as (ind & Hlook & Hind).
    eexists. split; [exact Hlook|]. cbn [Ticker PriceHistory CurrentPrice
                                       LastUpdate Indicators].
    do 4 (split; [reflexivity|]).
    destruct (Z.leb_spec (maxHistory (w_bot w)) (len (PriceHistory sd)));
      split; (lia || done).
  - exists sd. rewrite (Hframe t Hkey). split; [exact Hsd|].
    do 4 (split; [reflexivity|]). split; done.
Qed.
End Indicators.

(** NVDA has 20 samples and TSLA none: NVDA gets indicators, TSLA keeps the
    zero indicators it had, and both keep everything else. *)
Lemma calculateAllIndicators_only_refreshes_indicators_witness :
  (NoDup ["TSLA"%string; "NVDA"%string]
   ∧ 0 <= atrPeriod (w_bot warmColdWorld) < 2 ^ 53
   ∧ 0 <= bollingerPeriod (w_bot warmColdWorld))
  ∧ ∃ wf sd',
      calculateAllIndicators ["TSLA"%string; "NVDA"%string] warmColdWorld
      = Some (tt, wf)
      ∧ w_trace wf = []
      ∧ stocks (w_bot wf) !! "NVDA"%string = Some sd'
      ∧ PriceHistory sd' = replicate 20 (samplePrice (of_int 100))
      ∧ calculateIndicators warmColdBot
          (replicate 20 (samplePrice (of_int 100)))
        = Some (Indicators sd').
Proof.
  assert (H1 : NoDup ["TSLA"%string; "NVDA"%string]).
  { apply NoDup_cons. split; [|apply NoDup_singleton].
    intros Hin. apply list_elem_of_singleton in Hin. discriminate. }
  assert (H2 : 0 <= atrPeriod (w_bot warmColdWorld) < 2 ^ 53)
    by (vm_compute; split; [discriminate | reflexivity]).
  assert (H3 : 0 <= bollingerPeriod (w_bot warmColdWorld))
    by (vm_compute; discriminate).
  split; [repeat split; assumption|].
  destruct (calculateAllIndicators_only_refreshes_indicators
              ["TSLA"%string; "NVDA"%string] warmColdWorld H1 H2 H3)
    as (wf & Hrun & _ & Htrace & Heach).
  - intros t sd Hin Hsd. apply elem_of_cons in Hin as [->|Hin].
    + vm_compute in Hsd. injection Hsd as <-. vm_compute. discriminate.
    + apply list_elem_of_singleton in Hin as ->.
      vm_compute in Hsd. injection Hsd as <-. vm_compute. discriminate.
  - destruct (Heach "NVDA"%string (scenarioStock (of_int 100) zeroIndicators))
      as (sd' & Hlook & _ & Hhist & _ & _ & _ & Hind);
      [vm_compute; reflexivity|].
    exists wf, sd'. split; [exact Hrun|]. split; [exact Htrace|].
    split; [exact Hlook|]. split; [exact Hhist|].
    apply Hind.
    + apply elem_of_cons. right. by apply list_elem_of_singleton.
    + vm_compute. discriminate.
Defined.

(** ** Prices come from held positions *)

Lemma priceIn_findPosition positions ticker :
  priceIn positions ticker
  = match findPosition positions ticker with
    | Some pos => entryPriceOf pos
    | None => zero
    end.
Proof.
  induction positions as [|pos rest IH]; [reflexivity|].
  cbn [priceIn findPosition].
  destruct (String.eqb (trading212.Ticker pos) ticker); [reflexivity | exact IH].
Qed.

Section Prices.
Context {E : Type} `{Runtime E}.

Lemma getCurrentPrice_value ticker (w : World E) :
  ∃ price w2,
    getCurrentPrice ticker w = Some (price, w2)
    ∧ price
      = match fst (client_Portfolio (w_env w)) with
        | None => zero
        | Some positions =>
            match findPosition positions ticker with
            | Some pos => entryPriceOf pos
            | None => zero
            end
        end.
Proof.
  unfold getCurrentPrice, bind, Portfolio, Printf, ret.
  destruct (client_Portfolio (w_env w)) as [[positions|] e];
    eexists _, _; (split; [reflexivity|]); cbn [fst].
  - apply priceIn_findPosition.
  - reflexivity.
Qed.

(** X5. [getCurrentPrice] never panics and never touches the bot. The price
    of a ticker is the value per share of its first position in the
    portfolio that the client returns, the position that [executeTrading]
    would find; it is [0] when the query fails and when the ticker is not
    held. *)
Theorem getCurrentPrice_is_value_per_share ticker (w : World E) :
  ∃ price w2,
    getCurrentPrice ticker w = Some (price, w2)
    ∧ w_bot w2 = w_bot w
    ∧ w_env w2 = snd (client_Portfolio (w_env w))
    ∧ orders (w_trace w2) = orders (w_trace w)
    ∧ price
      = match fst (client_Portfolio (w_env w)) with
        | None => zero
        | Some positions =>
            match findPosition positions ticker with
            | Some pos =>
                div (trading212.Value pos) (trading212.Quantity pos)
            | None => zero
            end
        end.
Proof.
  unfold getCurrentPrice, bind, Portfolio, Printf, ret.
  destruct (client_Portfolio (w_env w)) as [[positions|] e];
    eexists _, _; (split; [reflexivity|]); cbn [w_bot w_env w_trace fst snd].
  - repeat split. apply priceIn_findPosition.
  - repeat split. rewrite orders_app. cbn. by rewrite app_nil_r.
Qed.

(** X6. A ticker that no portfolio answer lists gets the price [0] at
    every fetch: a cycle of [updateAllPrices], in any order, leaves its
    record as it was, so that it never gets a price, a sample or an update
    time. *)
Theorem updateAllPrices_never_prices_unheld keys ticker (w : World E) :
  (∀ e, match fst (client_Portfolio e) with
        | Some positions => findPosition positions ticker = None
        | None => True
        end) →
  NoDup keys →
  0 <= maxHistory (w_bot w) →
  (∀ t sd, t ∈ keys → stocks (w_bot w) !! t = Some sd →
           len (PriceHistory sd) < Int.max_int) →
  ∃ wf, updateAllPrices keys w = Some (tt, wf)
        ∧ maxHistory (w_bot wf) = maxHistory (w_bot w)
        ∧ stocks (w_bot wf) !! ticker = stocks (w_bot w) !! ticker.
Proof.
  intros Hunheld Hnodup. revert w.
  induction Hnodup as [|t keys Hfresh Hnodup IH]; intros w HW Hbound.
  - exists w. by repeat split.
  - unfold updateAllPrices in *. cbn [rangeStocks]. unfold bind, getBot.
    destruct (stocks (w_bot w) !! t) as [sd|] eqn:Hlook.
    + destruct (getCurrentPrice_value t w)
        as (price & w2 & Hprice & Hvalue).
      destruct (updatePrice_run t sd w price w2 HW
                  (Hbound _ _ ltac:(left) Hlook) Hprice) as (w' & -> & Hbot).
      assert (HW' : maxHistory (w_bot w') = maxHistory (w_bot w)).
      { rewrite Hbot. by destruct (eqb price zero). }
      assert (Hkeep : stocks (w_bot w') !! ticker = stocks (w_bot w) !! ticker).
      { rewrite Hbot. destruct (decide (t = ticker)) as [->|Hne].
        - specialize (Hunheld (w_env w)). rewrite Hvalue.
          destruct (fst (client_Portfolio (w_env w))) as [positions|];
            [rewrite Hunheld|]; reflexivity.
        - destruct (eqb price zero); [reflexivity|].
          cbn [withStock stocks]. by rewrite lookup_insert_ne. }
      destruct (IH w') as (wf & Hrun & HWf & Hsame).
      * rewrite HW'. exact HW.
      * intros t' sd' Hin Hsd'. apply (Hbound t' sd'); [by right|].
        revert Hsd'. rewrite Hbot. destruct (eqb price zero); [done|].
        cbn [withStock stocks]. rewrite lookup_insert_ne; [done|].
        intros ->. done.
      * exists wf. split; [exact Hrun|]. split; congruence.
    + unfold ret. apply IH; [exact HW|].
      intros t' sd' Hin. apply Hbound. by right.
Qed.
End Prices.

(** On an account without positions, a cycle over NVDA and TSLA changes
    neither record. *)
Lemma updateAllPrices_never_prices_unheld_witness :
  ((∀ e : unit,
      match fst (client_Portfolio e) with
      | Some positions => findPosition positions "NVDA" = None
      | None => True
      end)
   ∧ NoDup ["NVDA"%string; "TSLA"%string]
   ∧ 0 <= maxHistory (w_bot emptyAccountWorld))
  ∧ ∃ wf,
      updateAllPrices ["NVDA"%string; "TSLA"%string] emptyAccountWorld
      = Some (tt, wf)
      ∧ stocks (w_bot wf) !! "NVDA"%string
        = Some (scenarioStock (of_int 100) zeroIndicators).
Proof.
  assert (H1 : ∀ e : unit,
             match fst (client_Portfolio e) with
             | Some positions => findPosition positions "NVDA" = None
             | None => True
             end) by (intros []; reflexivity).
  assert (H2 : NoDup ["NVDA"%string; "TSLA"%string]).
  { apply NoDup_cons. split; [|apply NoDup_singleton].
    intros Hin. apply list_elem_of_singleton in Hin. discriminate. }
  assert (H3 : 0 <= maxHistory (w_bot emptyAccountWorld))
    by (vm_compute; discriminate).
  split; [repeat split; assumption|].
  destruct (@updateAllPrices_never_prices_unheld unit Empty_Runtime
              ["NVDA"%string; "TSLA"%string] "NVDA" emptyAccountWorld
              H1 H2 H3) as (wf & Hrun & _ & Hsame).
  - intros t sd Hin Hsd. apply elem_of_cons in Hin as [->|Hin].
    + vm_compute in Hsd. injection Hsd as <-. vm_compute. reflexivity.
    + apply list_elem_of_singleton in Hin as ->.
      vm_compute in Hsd. injection Hsd as <-. vm_compute. reflexivity.
  - exists wf. split; [exact Hrun|]. rewrite Hsame. vm_compute. reflexivity.
Defined.

(** ** What one call of [executeTrading] can do *)

Lemma positionSizeOf_ge_1 portfolioValue risk currentPrice :
  1 <= positionSizeOf portfolioValue risk currentPrice.
Proof.
  unfold positionSizeOf. cbv zeta.
  destruct (Z.ltb_spec
              (to_int (div (div (mul portfolioValue risk) (of_int 100))
                         currentPrice)) 1); lia.
Qed.

Section Orders.
Context {E : Type} `{Runtime E}.

(** [executeTrading] in every case: it returns, leaves the bot alone, and
    places either nothing, without calling the client, or one order. *)
Lemma executeTrading_run ticker stockData positions portfolioValue
    (w : World E) :
  ∃ w',
    executeTrading ticker stockData positions portfolioValue w = Some (tt, w')
    ∧ w_bot w' = w_bot w
    ∧ ((orders (w_trace w') = orders (w_trace w) ∧ w_env w' = w_env w)
       ∨ (maxHistory (w_bot w) <= len (PriceHistory stockData)
          ∧ eqb (CurrentPrice stockData) zero = false
          ∧ orders (w_trace w')
            = orders (w_trace w)
              ++ [(ticker,
                   match findPosition positions ticker with
                   | None =>
                       positionSizeOf portfolioValue (riskPercent (w_bot w))
                         (CurrentPrice stockData)
                   | Some position =>
                       Int.neg (to_int (trading212.Quantity position))
                   end)])).
Proof.
  unfold executeTrading, bind, getBot. cbv zeta.
  destruct (Z.leb_spec (maxHistory (w_bot w)) (len (PriceHistory stockData)))
    as [Hdata|Hdata]; cbn [negb orb].
  2: { exists w. split; [reflexivity|]. split; [reflexivity|]. left. done. }
  destruct (eqb (CurrentPrice stockData) zero) eqn:Hprice.
  { exists w. split; [reflexivity|]. split; [reflexivity|]. left. done. }
  destruct (findPosition positions ticker) as [position|].
  - destruct (evaluateExit_run ticker (CurrentPrice stockData)
                (Indicators stockData) position w)
      as (w' & Hrun & Hbot & Hsell & Hhold).
    exists w'. split; [exact Hrun|]. split; [exact Hbot|].
    destruct (anyExit (CurrentPrice stockData) (Indicators stockData) position).
    + right. split; [exact Hdata|]. split; [reflexivity|].
      destruct (Hsell eq_refl) as (entry & -> & _).
      rewrite orders_app. reflexivity.
    + left. apply Hhold. reflexivity.
  - destruct (evaluateEntry_run ticker (CurrentPrice stockData)
                (Indicators stockData)
                (positionSizeOf portfolioValue (riskPercent (w_bot w))
                   (CurrentPrice stockData)) w)
      as (w' & Hrun & Hbot & Hbuy & Hidle).
    exists w'. split; [exact Hrun|]. split; [exact Hbot|].
    destruct (allEntry (CurrentPrice stockData) (Indicators stockData)).
    + right. split; [exact Hdata|]. split; [reflexivity|].
      apply Hbuy. reflexivity.
    + left. apply Hidle. reflexivity.
Qed.

(** X7. Whatever the record, the positions and the portfolio value,
    [executeTrading] returns without a panic, leaves the bot as it is and
    submits at most one order. An order is only submitted for the ticker of
    the call, for a record whose history is warmed up and whose price is not
    [0]; a buy (no position held) is for at least one share; a sell is for
    the negated truncated quantity of the first position of the ticker. *)
Theorem executeTrading_at_most_one_order ticker stockData positions
    portfolioValue (w : World E) :
  ∃ w' placed,
    executeTrading ticker stockData positions portfolioValue w = Some (tt, w')
    ∧ w_bot w' = w_bot w
    ∧ orders (w_trace w') = orders (w_trace w) ++ placed
    ∧ (length placed <= 1)%nat
    ∧ (placed = [] → w_env w' = w_env w)
    ∧ ∀ t q, (t, q) ∈ placed →
        t = ticker
        ∧ maxHistory (w_bot w) <= len (PriceHistory stockData)
        ∧ eqb (CurrentPrice stockData) zero = false
        ∧ (findPosition positions ticker = None → 1 <= q)
        ∧ (∀ position, findPosition positions ticker = Some position →
             q = Int.neg (to_int (trading212.Quantity position))).
Proof.
  destruct (executeTrading_run ticker stockData positions portfolioValue w)
    as (w' & Hrun & Hbot & [[Hsame Henv]|(Hdata & Hprice & Hone)]).
  - exists w', []. split; [exact Hrun|]. split; [exact Hbot|].
    split; [by rewrite app_nil_r|]. split; [cbn; lia|].
    split; [done|]. intros t q Hin. by apply elem_of_nil in Hin.
  - eexists w', [_]. split; [exact Hrun|]. split; [exact Hbot|].
    split; [exact Hone|]. split; [cbn; lia|]. split; [discriminate|].
    intros t q Hin. apply list_elem_of_singleton in Hin.
    injection Hin as -> ->. split; [reflexivity|]. split; [exact Hdata|].
    split; [exact Hprice|]. split.
    + intros ->. apply positionSizeOf_ge_1.
    + intros position ->. reflexivity.
Qed.
End Orders.

(** ** Decisions on degenerate numbers *)

(** The profit of a price against itself is a zero or a NaN, so none of the
    comparisons of [evaluateExit] on the profit holds. *)
Lemma profitPercentOf_self x :
  geb (profitPercentOf x x) (of_int 5) = false
  ∧ gtb (profitPercentOf x x) zero = false
  ∧ ltb (profitPercentOf x x) zero = false.
Proof.
  destruct x as [s|s| |s m e].
  - destruct s; vm_compute; auto.
  - destruct s; vm_compute; auto.
  - vm_compute; auto.
  - unfold profitPercentOf. rewrite sub_self_finite.
    destruct s; vm_compute; auto.
Qed.

(** A NaN price satisfies no exit condition and no entry condition. *)
Lemma anyExit_nan indicators position :
  anyExit S754_nan indicators position = false.
Proof.
  unfold anyExit, takeProfit, stopLossHit, profitProtection,
    highVolatilityExit, lowVolatilityCut, profitPercentOf.
  replace (sub S754_nan (entryPriceOf position)) with S754_nan
    by (by destruct (entryPriceOf position)).
  replace (div S754_nan (entryPriceOf position)) with S754_nan
    by (by destruct (entryPriceOf position)).
  replace (geb S754_nan (UpperBand indicators)) with false
    by (by destruct (UpperBand indicators) as [[]|[]| |[] ? ?]).
  cbn.
  destruct (gtb (ATR indicators) (mul (entryPriceOf position) (lit 4 100)));
    reflexivity.
Qed.

Lemma allEntry_nan indicators : allEntry S754_nan indicators = false.
Proof. reflexivity. Qed.

(** Bands that coincide have a width ratio of zero or NaN. *)
Lemma flat_bands_width u l m :
  eqb u l = true → ltb (lit 2 100) (div (sub u l) m) = false.
Proof.
  unfold eqb. intros Heq. destruct l as [sl|sl| |sl ml el].
  - apply SFeqb_zero_inv in Heq as [su ->].
    destruct su, sl, m as [[]|[]| |[] mm em]; vm_compute; reflexivity.
  - destruct u as [[]|[]| |[] mu eu], sl; vm_compute in Heq;
      try discriminate Heq;
      destruct m as [[]|[]| |[] mm em]; vm_compute; reflexivity.
  - destruct u as [[]|[]| |[] mu eu]; vm_compute in Heq; discriminate Heq.
  - apply SFeqb_finite_inv in Heq as ->. rewrite sub_self_finite.
    destruct m as [[]|[]| |[] mm em]; vm_compute; reflexivity.
Qed.

Section Degenerate.
Context {E : Type} `{Runtime E}.

(** X8. When the current price of a held ticker is the value per share of
    the position itself, which is what [getCurrentPrice] returns for the
    portfolio that holds it, the profit computed by [evaluateExit] is a zero
    or a NaN: profit protection, the high volatility exit and the low
    volatility cut cannot fire, and the decision is that of take profit and
    stop loss alone. *)
Theorem exit_on_own_snapshot_only_band_or_stop positions ticker indicators
    position :
  findPosition positions ticker = Some position →
  exitDecision (priceIn positions ticker) indicators position
  = (geb (priceIn positions ticker) (UpperBand indicators)
     || leb (priceIn positions ticker)
            (sub (priceIn positions ticker)
                 (mul (ATR indicators) (lit 15 10))),
     if leb (priceIn positions ticker)
            (sub (priceIn positions ticker)
                 (mul (ATR indicators) (lit 15 10)))
     then "Stop Loss (ATR)"%string
     else if geb (priceIn positions ticker) (UpperBand indicators)
     then "Take Profit (Upper Band)"%string
     else EmptyString).
Proof.
  intros Hheld. rewrite priceIn_findPosition, Hheld.
  rewrite exitDecision_last_match.
  unfold anyExit, lastReason, takeProfit, stopLossHit, profitProtection,
    highVolatilityExit, lowVolatilityCut.
  destruct (profitPercentOf_self (entryPriceOf position)) as (-> & -> & ->).
  rewrite andb_false_r. cbn [andb]. rewrite !orb_false_r. reflexivity.
Qed.

(** X9. A record whose current price is a NaN (the value per share of a
    position of quantity and value 0) passes the [currentPrice == 0] guard
    of [executeTrading], yet every comparison of the entry and exit
    conditions is false on it: no order is submitted and the client is not
    called. *)
Theorem executeTrading_nan_price_places_no_order ticker stockData positions
    portfolioValue (w : World E) :
  is_nan (CurrentPrice stockData) = true →
  ∃ w',
    executeTrading ticker stockData positions portfolioValue w = Some (tt, w')
    ∧ w_bot w' = w_bot w
    ∧ w_env w' = w_env w
    ∧ orders (w_trace w') = orders (w_trace w).
Proof.
  intros Hnan. destruct (CurrentPrice stockData) eqn:Hprice; try discriminate.
  unfold executeTrading, bind, getBot. cbv zeta. rewrite Hprice.
  destruct (maxHistory (w_bot w) <=? len (PriceHistory stockData));
    cbn [negb orb eqb SFeqb SFcompare].
  2: { exists w. done. }
  destruct (findPosition positions ticker) as [position|].
  - destruct (evaluateExit_run ticker S754_nan (Indicators stockData)
                position w) as (w' & Hrun & Hbot & _ & Hhold).
    exists w'. split; [exact Hrun|]. split; [exact Hbot|].
    destruct (Hhold (anyExit_nan _ _)) as [Ho He]. done.
  - destruct (evaluateEntry_run ticker S754_nan (Indicators stockData)
                (positionSizeOf portfolioValue (riskPercent (w_bot w))
                   S754_nan) w) as (w' & Hrun & Hbot & _ & Hidle).
    exists w'. split; [exact Hrun|]. split; [exact Hbot|].
    destruct (Hidle (allEntry_nan _)) as [Ho He]. done.
Qed.

(** X10. Bands that coincide (a window of identical closes, or the zero
    indicators of a record that was never refreshed) have a width ratio of
    zero or NaN, which is not above 0.02: [executeTrading] never buys on
    them, whatever the price and the ATR. *)
Theorem executeTrading_flat_bands_never_buys ticker stockData positions
    portfolioValue (w : World E) :
  findPosition positions ticker = None →
  eqb (UpperBand (Indicators stockData)) (LowerBand (Indicators stockData))
  = true →
  ∃ w',
    executeTrading ticker stockData positions portfolioValue w = Some (tt, w')
    ∧ w_bot w' = w_bot w
    ∧ w_env w' = w_env w
    ∧ orders (w_trace w') = orders (w_trace w).
Proof.
  intros Hflat Hbands.
  unfold executeTrading, bind, getBot. cbv zeta.
  destruct (negb (maxHistory (w_bot w) <=? len (PriceHistory stockData))
            || eqb (CurrentPrice stockData) zero).
  { exists w. done. }
  rewrite Hflat.
  destruct (evaluateEntry_run ticker (CurrentPrice stockData)
              (Indicators stockData)
              (positionSizeOf portfolioValue (riskPercent (w_bot w))
                 (CurrentPrice stockData)) w)
    as (w' & Hrun & Hbot & _ & Hidle).
  exists w'. split; [exact Hrun|]. split; [exact Hbot|].
  destruct Hidle as [Ho He]; [|done].
  unfold allEntry, normalBandWidth, bandWidthRatio.
  rewrite (flat_bands_width _ _ _ Hbands). cbn [andb].
  apply andb_false_r.
Qed.
End Degenerate.

(** A position of 2 shares worth 190, read at its own value per share of 95
    under the bands 95 / 100 / 105 with an ATR of 2: nothing fires. *)
Lemma exit_on_own_snapshot_only_band_or_stop_witness :
  findPosition [held (of_int 2) (of_int 190)] "NVDA"
  = Some (held (of_int 2) (of_int 190))
  ∧ exitDecision (of_int 95) (bands 2) (held (of_int 2) (of_int 190))
    = (false, EmptyString).
Proof.
  split; [reflexivity|].
  pose proof (exit_on_own_snapshot_only_band_or_stop
                [held (of_int 2) (of_int 190)] "NVDA" (bands 2)
                (held (of_int 2) (of_int 190)) eq_refl) as Hx.
  vm_compute in Hx. vm_compute. exact Hx.
Defined.

(** A warmed-up record with a NaN price, held or not. *)
Lemma executeTrading_nan_price_places_no_order_witness :
  is_nan (CurrentPrice (scenarioStock S754_nan (bands 2))) = true
  ∧ ∃ w',
      executeTrading "NVDA" (scenarioStock S754_nan (bands 2))
        [held (of_int 2) (of_int 190)] (of_int 10000) scenarioWorld
      = Some (tt, w')
      ∧ orders (w_trace w') = [].
Proof.
  split; [reflexivity|].
  destruct (executeTrading_nan_price_places_no_order "NVDA"
              (scenarioStock S754_nan (bands 2))
              [held (of_int 2) (of_int 190)] (of_int 10000) scenarioWorld
              eq_refl) as (w' & Hrun & _ & _ & Horders).
  exists w'. split; [exact Hrun | exact Horders].
Defined.

(** The stable prices of [TestBollingerBandsEdgeCases]: all three bands at
    100, a price of 100 and no ATR. *)
Lemma executeTrading_flat_bands_never_buys_witness :
  (findPosition [] "NVDA" = None
   ∧ eqb (of_int 100) (of_int 100) = true)
  ∧ ∃ w',
      executeTrading "NVDA"
        (scenarioStock (of_int 100)
           {| ATR := zero; UpperBand := of_int 100; MiddleBand := of_int 100;
              LowerBand := of_int 100; StdDev := zero |})
        [] (of_int 10000) scenarioWorld
      = Some (tt, w')
      ∧ orders (w_trace w') = [].
Proof.
  split; [split; reflexivity|].
  destruct (executeTrading_flat_bands_never_buys "NVDA"
              (scenarioStock (of_int 100)
                 {| ATR := zero; UpperBand := of_int 100;
                    MiddleBand := of_int 100; LowerBand := of_int 100;
                    StdDev := zero |})
              [] (of_int 10000) scenarioWorld eq_refl eq_refl)
    as (w' & Hrun & _ & _ & Horders).
  exists w'. split; [exact Hrun | exact Horders].
Defined.

(** ** The portfolio fetch *)

(** The delay before retry [i + 1]: [2^i] seconds, without overflow for the
    indices that matter. *)
Lemma retry_delay i :
  0 <= i <= 33 → int_mul (to_int (Pow_2 i)) Second = 2 ^ i * Second.
Proof.
  intros Hi. unfold Pow_2, int_mul.
  assert (2 ^ i <= 2 ^ 33) by (apply Z.pow_le_mono_r; lia).
  assert (0 < 2 ^ i) by (apply Z.pow_pos_nonneg; lia).
  rewrite to_int_of_int by lia.
  int_bounds. unfold Second. apply wrap_id. lia.
Qed.

Lemma totalValue_fold positions :
  fold_left (λ v pos, add v (trading212.Value pos)) positions zero
  = totalValue positions.
Proof. unfold totalValue. symmetry. apply fold_left_fmap. Qed.

Section FetchProperties.
Context {E : Type} `{Broker E}.

(** The retry loop, by induction on the iterations left: the client answers
    some [n] calls in a row with a rate-limit error, each followed by its
    sleep; then either the iterations are used up and the variables keep the
    last error, or the next answer, which is no rate-limit error, ends the
    loop and is what the variables hold. *)
Lemma retryLoop_run fuel : ∀ i maxRetries answer0 (env : E) trace,
  0 <= i → i + Z.of_nat fuel <= 33 →
  ∃ (n : nat) errs envn,
    (n <= fuel)%nat
    ∧ rateLimited n i env = Some (errs, envn)
    ∧ length errs = n
    ∧ ((n = fuel
        ∧ retryLoop fuel i maxRetries Second answer0 env trace
          = (match last errs with Some err => inl err | None => answer0 end,
             envn, trace ++ rateLimitEvents n i maxRetries))
       ∨ ((n < fuel)%nat
          ∧ ∃ answer env1,
              broker_Portfolio envn = (answer, env1)
              ∧ match answer with
                | inl err => Contains err "TooManyRequests" = false
                | inr _ => True
                end
              ∧ retryLoop fuel i maxRetries Second answer0 env trace
                = (answer, env1,
                   trace ++ rateLimitEvents n i maxRetries
                   ++ FePortfolio
                      :: match answer with
                         | inl err => [FeLogApiError err]
                         | inr _ => []
                         end))).
Proof.
  induction fuel as [|fuel IH]; intros i maxRetries answer0 env trace Hi Hfuel.
  - exists O, [], env. split; [lia|]. split; [reflexivity|].
    split; [reflexivity|]. left. split; [reflexivity|].
    cbn [retryLoop last rateLimitEvents]. by rewrite app_nil_r.
  - cbn [retryLoop].
    destruct (broker_Portfolio env) as [[err|positions] env1] eqn:Hanswer.
    + destruct (Contains err "TooManyRequests") eqn:Hlimit.
      * rewrite retry_delay by lia. int_bounds.
        unfold Int.add. rewrite wrap_id by lia.
        destruct (IH (i + 1) maxRetries (inl err)
                    (broker_Sleep (2 ^ i * Second) env1)
                    (((trace ++ [FePortfolio])
                      ++ [FeLogRateLimited (i + 1) maxRetries (2 ^ i * Second)])
                     ++ [FeSleep (2 ^ i * Second)]))
          as (n & errs & envn & Hn & Hlim & Hlen & Hcase); [lia | lia |].
        exists (S n), (err :: errs), envn. split; [lia|].
        split; [cbn [rateLimited]; by rewrite Hanswer, Hlimit, Hlim|].
        split; [cbn [length]; by rewrite Hlen|].
        destruct Hcase as [[-> Hrun]|(Hless & answer & env2 & Hnext & Hother
                                       & Hrun)].
        -- left. split; [reflexivity|]. rewrite Hrun.
           cbn [rateLimitEvents]. rewrite <- !app_assoc. cbn [app].
           rewrite last_cons. by destruct (last errs).
        -- right. split; [lia|]. exists answer, env2.
           split; [exact Hnext|]. split; [exact Hother|]. rewrite Hrun.
           cbn [rateLimitEvents]. rewrite <- !app_assoc. reflexivity.
      * exists O, [], env. split; [lia|]. split; [reflexivity|].
        split; [reflexivity|]. right. split; [lia|].
        exists (inl err), env1. split; [exact Hanswer|].
        split; [exact Hlimit|]. cbn [rateLimitEvents app].
        by rewrite <- app_assoc.
    + exists O, [], env. split; [lia|]. split; [reflexivity|].
      split; [reflexivity|]. right. split; [lia|].
      exists (inr positions), env1. split; [exact Hanswer|]. done.
Qed.

(** X11. [getPortfolioData] is told by the answers of the client. Some
    [n <= 5] calls in a row fail with a message that contains
    "TooManyRequests", and each is followed by a sleep, of 1, 2, 4, 8 and 16
    seconds in turn. If all five calls fail so, the error of the fifth is
    returned, after the fifth sleep. Otherwise the next answer ends the
    loop: an error, which does not contain the text, is logged and returned
    as it is, without a retry, and positions are returned as they are with
    the sum of their values, added from [0.0] in the order of the list. The
    trace holds these calls, log lines and sleeps and nothing else. *)
Theorem getPortfolioData_retry_schedule (env : E) trace :
  ∃ (n : nat) errs envn,
    (n <= 5)%nat
    ∧ rateLimited n 0 env = Some (errs, envn)
    ∧ length errs = n
    ∧ sleepsOf (rateLimitEvents n 0 5)
      = take n [Second; 2 * Second; 4 * Second; 8 * Second; 16 * Second]
    ∧ callsOf (rateLimitEvents n 0 5) = n
    ∧ (n = 5%nat →
       ∃ err,
         last errs = Some err
         ∧ getPortfolioData env trace
           = (inl err, envn, trace ++ rateLimitEvents 5 0 5))
    ∧ ((n < 5)%nat →
       ∃ answer env1,
         broker_Portfolio envn = (answer, env1)
         ∧ match answer with
           | inl err => Contains err "TooManyRequests" = false
           | inr _ => True
           end
         ∧ getPortfolioData env trace
           = (match answer with
              | inl err => inl err
              | inr positions => inr (positions, totalValue positions)
              end,
              env1,
              trace ++ rateLimitEvents n 0 5
              ++ FePortfolio
                 :: match answer with
                    | inl err => [FeLogApiError err]
                    | inr _ => []
                    end)).
Proof.
  destruct (retryLoop_run (Z.to_nat (5 - 0)) 0 5 (inr []) env trace)
    as (n & errs & envn & Hn & Hlim & Hlen & Hcase); [lia | cbn; lia |].
  change (Z.to_nat (5 - 0)) with 5%nat in *.
  exists n, errs, envn. split; [exact Hn|]. split; [exact Hlim|].
  split; [exact Hlen|].
  split; [destruct n as [|[|[|[|[|[|n]]]]]]; try reflexivity; lia|].
  split; [destruct n as [|[|[|[|[|[|n]]]]]]; try reflexivity; lia|].
  unfold getPortfolioData. cbv zeta.
  change (Z.to_nat (5 - 0)) with 5%nat.
  destruct Hcase as [[-> Hrun]|(Hless & answer & env1 & Hnext & Hother & Hrun)];
    rewrite Hrun.
  - split; [|lia]. intros _.
    destruct errs as [|err0 errs] using rev_ind; [discriminate|].
    exists err0. rewrite last_snoc. split; reflexivity.
  - split; [lia|]. intros _. exists answer, env1.
    split; [exact Hnext|]. split; [exact Hother|].
    destruct answer as [err|positions]; [reflexivity|].
    by rewrite totalValue_fold.
Qed.
End FetchProperties.

(** ** The error of an HTTP response *)

Lemma Contains_skip c s :
  String c EmptyString ≠ "T"%string →
  Contains (String c s) "TooManyRequests" = Contains s "TooManyRequests".
Proof.
  intros Hc. cbn [Contains String.prefix].
  destruct (Ascii.ascii_dec _ c) as [<-|_]; [congruence | reflexivity].
Qed.

Lemma append_String c s t : String c s +:+ t = String c (s +:+ t).
Proof. reflexivity. Qed.

Lemma append_Empty t : EmptyString +:+ t = t.
Proof. reflexivity. Qed.

(** The decimal digits of a number hold no letter. *)
Lemma Contains_digits_empty u : ∀ s,
  Contains (DecimalString.NilEmpty.string_of_uint u +:+ s) "TooManyRequests"
  = Contains s "TooManyRequests".
Proof.
  induction u as [|u IH|u IH|u IH|u IH|u IH|u IH|u IH|u IH|u IH|u IH];
    intros s; cbn [DecimalString.NilEmpty.string_of_uint];
    rewrite ?append_String, ?append_Empty, ?Contains_skip by discriminate;
    [reflexivity | apply IH ..].
Qed.

Lemma Contains_digits u s :
  Contains (DecimalString.NilZero.string_of_uint u +:+ s) "TooManyRequests"
  = Contains s "TooManyRequests".
Proof.
  destruct u; try apply Contains_digits_empty.
  change (DecimalString.NilZero.string_of_uint Decimal.Nil) with "0"%string.
  rewrite append_String, append_Empty, Contains_skip by discriminate.
  reflexivity.
Qed.

(** X12. The error that [processRequest] makes of a response with a status
    of 400 or more contains "TooManyRequests", the text by which
    [getPortfolioData] recognises a rate limit, exactly when the body of the
    response contains it: the status code plays no part, and a 429 whose
    body lacks the text is not retried. *)
Theorem processResponse_rate_limit_by_body statusCode body :
  400 <= statusCode →
  ∃ err,
    processResponse statusCode body = inl err
    ∧ Contains err "TooManyRequests" = Contains body "TooManyRequests".
Proof.
  intros Hstatus. unfold processResponse.
  destruct (Z.leb_spec 400 statusCode); [|lia].
  eexists. split; [reflexivity|].
  rewrite !append_String, !append_Empty, !Contains_skip by discriminate.
  unfold formatInt. destruct statusCode as [|p|p]; try lia.
  cbn [Z.to_int DecimalString.NilZero.string_of_int].
  rewrite Contains_digits, !Contains_skip by discriminate.
  reflexivity.
Qed.

(** ** The portfolio summary *)

Lemma summary_fold bot positions : ∀ lines totalValue totalPnL,
  ∃ lines' totalPnL',
    fold_left (summaryStep bot) positions (lines, totalValue, totalPnL)
    = (lines ++ lines',
       fold_left (λ v pos, add v (trading212.Value pos))
         (List.filter (counted bot) positions) totalValue,
       totalPnL')
    ∧ length lines' = length (List.filter (counted bot) positions)
    ∧ Forall (λ line, match line with SlPosition _ _ _ _ _ _ => True
                                 | _ => False end) lines'.
Proof.
  induction positions as [|pos rest IH]; intros lines totalValue totalPnL.
  - exists [], totalPnL. cbn. rewrite app_nil_r. done.
  - cbn [fold_left List.filter]. unfold summaryStep at 2.
    destruct (stocks bot !! trading212.Ticker pos) as [stockData|] eqn:Hlook;
      [destruct (gtb (CurrentPrice stockData) zero) eqn:Hprice|].
    + replace (counted bot pos) with true
        by (unfold counted; by rewrite Hlook, Hprice).
      edestruct IH as (lines' & totalPnL' & -> & Hlen & Hall).
      eexists (_ :: lines'), totalPnL'. rewrite <- app_assoc. cbn [app].
      split; [reflexivity|]. cbn [length fold_left].
      split; [by rewrite Hlen|]. by constructor.
    + replace (counted bot pos) with false
        by (unfold counted; by rewrite Hlook, Hprice).
      apply IH.
    + replace (counted bot pos) with false
        by (unfold counted; by rewrite Hlook).
      apply IH.
Qed.

(** X13. The summary logs one line for each position whose ticker is
    tracked by the bot and whose recorded price is above 0, between its
    header and its two closing lines, and skips every other position, in the
    lines and in the totals: its total value is the sum, from [0.0] in the
    order of the list, of the values of the counted positions only. *)
Theorem displayPortfolioSummary_counts_priced_tracked bot positions :
  ∃ lines totalPnL,
    displayPortfolioSummary bot positions
    = SlHeader :: lines
      ++ [SlTotal
            (fold_left (λ v pos, add v (trading212.Value pos))
               (List.filter (counted bot) positions) zero)
            totalPnL;
          SlFooter]
    ∧ length lines = length (List.filter (counted bot) positions)
    ∧ Forall (λ line, match line with SlPosition _ _ _ _ _ _ => True
                                 | _ => False end) lines.
Proof.
  unfold displayPortfolioSummary.
  destruct (summary_fold bot positions [SlHeader] zero zero)
    as (lines & totalPnL & -> & Hlen & Hall).
  exists lines, totalPnL. split; [reflexivity|]. split; assumption.
Qed.

(** ** A negative history bound *)

Lemma to_int_in_range x : Int.min_int <= to_int x <= Int.max_int.
Proof.
  unfold to_int. int_bounds.
  destruct (trunc x) as [z|]; [|lia].
  destruct (Int.in_range z) eqn:Hz; [|lia].
  unfold Int.in_range in Hz. lia.
Qed.

(** X14. The append and trim of [updateAllPrices] panic (slice bounds out of
    range) exactly when the history bound
    [int(math.Max(float64(atrPeriod), float64(bollingerPeriod)))] is
    negative; with a bound of 0 or more they never do. *)
Theorem pushHistory_panics_iff_negative_bound bot history priceData :
  len history < Int.max_int →
  pushHistory bot history priceData = None ↔ maxHistory bot < 0.
Proof.
  intros Hlen. split.
  - intros Hpanic. destruct (Z.lt_ge_cases (maxHistory bot) 0) as [|Hok];
      [assumption|].
    rewrite pushHistory_lastn in Hpanic by lia. discriminate.
  - intros Hneg. unfold pushHistory, maxHistory in *. cbv zeta.
    pose proof (to_int_in_range
                  (Max (of_int (atrPeriod bot)) (of_int (bollingerPeriod bot))))
      as Hrange.
    set (W := to_int (Max (of_int (atrPeriod bot))
                        (of_int (bollingerPeriod bot)))) in *.
    assert (Hl : len (history ++ [priceData]) = len history + 1).
    { unfold len. rewrite length_app. cbn. lia. }
    rewrite Hl. int_bounds.
    assert (0 <= len history) by (unfold len; lia).
    destruct (Z.ltb_spec W (len history + 1)); [|lia].
    unfold slice_from. rewrite Hl.
    unfold Int.sub, Int.wrap.
    destruct (Z.le_gt_cases (len history + 1 - W) Int.max_int) as [Hfit|Hwrap].
    + rewrite Z.mod_small by lia.
      destruct (Z.ltb_spec (len history + 1 - W + 2 ^ 63 - 2 ^ 63) 0);
        [reflexivity|].
      destruct (Z.ltb_spec (len history + 1)
                  (len history + 1 - W + 2 ^ 63 - 2 ^ 63)); [reflexivity|lia].
    + replace ((len history + 1 - W + 2 ^ 63) mod 2 ^ 64)
        with (len history + 1 - W + 2 ^ 63 - 2 ^ 64).
      2: { apply Z.mod_unique with (q := 1); lia. }
      destruct (Z.ltb_spec (len history + 1 - W + 2 ^ 63 - 2 ^ 64 - 2 ^ 63) 0);
        [reflexivity | lia].
Qed.

(** Two rate-limit errors and then the portfolio: three calls, sleeps of
    one and two seconds, and a value of 190 + 50. *)
Lemma getPortfolioData_retry_schedule_witness :
  ∃ env',
    getPortfolioData (rateLimitedTwice, 0) []
    = (inr ([held (of_int 2) (of_int 190);
             {| trading212.Ticker := "AAPL"; trading212.Quantity := of_int 1;
                trading212.Value := of_int 50 |}], of_int 240),
       env',
       [FePortfolio; FeLogRateLimited 1 5 Second; FeSleep Second;
        FePortfolio; FeLogRateLimited 2 5 (2 * Second); FeSleep (2 * Second);
        FePortfolio])
    ∧ snd env' = 3 * Second.
Proof.
  destruct (getPortfolioData_retry_schedule (rateLimitedTwice, 0) [])
    as (n & errs & envn & Hn & Hlim & _ & _ & _ & Hfull & Hstop).
  destruct n as [|[|[|n]]].
  - destruct Hstop as (answer & env1 & Hnext & Hother & _); [lia|].
    vm_compute in Hlim. injection Hlim as <- <-.
    vm_compute in Hnext. injection Hnext as <- <-.
    vm_compute in Hother. discriminate Hother.
  - destruct Hstop as (answer & env1 & Hnext & Hother & _); [lia|].
    vm_compute in Hlim. injection Hlim as <- <-.
    vm_compute in Hnext. injection Hnext as <- <-.
    vm_compute in Hother. discriminate Hother.
  - destruct Hstop as (answer & env1 & Hnext & _ & Hrun); [lia|].
    vm_compute in Hlim. injection Hlim as <- <-.
    vm_compute in Hnext. injection Hnext as <- <-.
    rewrite Hrun. exists ([], 3 * Second).
    split; [vm_compute; reflexivity | reflexivity].
  - exfalso. clear Hfull Hstop Hn.
    cbn [rateLimited] in Hlim.
    change (broker_Portfolio (rateLimitedTwice, 0))
      with (@inl string (list trading212.Position)
              "API error 429: TooManyRequests"%string,
            (tl rateLimitedTwice, 0)) in Hlim.
    vm_compute in Hlim. discriminate Hlim.
Defined.

(** A 429 whose body is the text, and one with an empty body. *)
Lemma processResponse_rate_limit_by_body_witness :
  400 <= 429
  ∧ (∃ err, processResponse 429 "TooManyRequests" = inl err
            ∧ Contains err "TooManyRequests" = true)
  ∧ (∃ err, processResponse 429 EmptyString = inl err
            ∧ Contains err "TooManyRequests" = false).
Proof.
  split; [lia|]. split.
  - exact (processResponse_rate_limit_by_body 429 "TooManyRequests"
             ltac:(lia)).
  - exact (processResponse_rate_limit_by_body 429 EmptyString ltac:(lia)).
Defined.

(** Periods of -1 and -2: the bound is -1 and the first push panics. *)
Lemma pushHistory_panics_iff_negative_bound_witness :
  len (@nil PriceData) < Int.max_int
  ∧ maxHistory negativePeriodsBot = -1
  ∧ pushHistory negativePeriodsBot [] (samplePrice (of_int 100)) = None.
Proof.
  assert (Hlen : len (@nil PriceData) < Int.max_int) by reflexivity.
  split; [exact Hlen|]. split; [reflexivity|].
  apply (pushHistory_panics_iff_negative_bound negativePeriodsBot []
           (samplePrice (of_int 100)) Hlen).
  reflexivity.
Defined.

(** ** One cycle of trading *)

Lemma len_lastn_le {A} n (l : list A) : len (lastn n l) <= len l.
Proof. unfold len, lastn. rewrite length_drop. lia. Qed.

Section CycleProperties.
Context {E : Type} `{Runtime E}.

(** The price fetch places no order and leaves the bot alone. *)
Lemma getCurrentPrice_quiet ticker (w : World E) :
  ∃ price w2,
    getCurrentPrice ticker w = Some (price, w2)
    ∧ w_bot w2 = w_bot w
    ∧ orders (w_trace w2) = orders (w_trace w).
Proof.
  unfold getCurrentPrice, bind, Portfolio, Printf, ret.
  destruct (client_Portfolio (w_env w)) as [[positions|] e];
    eexists _, _; (split; [reflexivity|]); cbn [w_bot w_trace];
    (split; [reflexivity|]); [reflexivity|].
  rewrite orders_app. cbn. by rewrite app_nil_r.
Qed.

(** One iteration of the loop of [updateAllPrices]: no order, and at most
    one more sample in the history of the ticker. *)
Lemma updatePrice_step ticker stockData (w : World E) :
  0 <= maxHistory (w_bot w) →
  len (PriceHistory stockData) < Int.max_int →
  ∃ w',
    updatePrice ticker stockData w = Some (tt, w')
    ∧ orders (w_trace w') = orders (w_trace w)
    ∧ (w_bot w' = w_bot w
       ∨ ∃ stockData',
           w_bot w' = withStock (w_bot w) ticker stockData'
           ∧ len (PriceHistory stockData') <= len (PriceHistory stockData) + 1).
Proof.
  intros HW Hlen.
  destruct (getCurrentPrice_quiet ticker w)
    as (price & w2 & Hprice & Hbot & Horders).
  unfold updatePrice, bind. rewrite Hprice.
  destruct (eqb price zero).
  - unfold Printf. eexists. split; [reflexivity|]. cbn [w_bot w_trace].
    split; [|by left]. rewrite orders_app, Horders. cbn. by rewrite app_nil_r.
  - unfold Now, getBot, lift, setStock.
    destruct (time_Now (w_env w2)) as [now e].
    cbn [w_bot w_env w_trace].
    rewrite Hbot, pushHistory_lastn by assumption.
    eexists. split; [reflexivity|]. cbn [w_bot w_env w_trace].
    split; [exact Horders|]. right. eexists. split; [reflexivity|].
    cbn [PriceHistory]. etransitivity; [apply len_lastn_le|].
    unfold len. rewrite length_app. cbn. lia.
Qed.

(** The loop of [updateAllPrices] places no order, keeps the configuration
    and the set of tickers, and lengthens no history by more than one
    sample. *)
Lemma updateAllPrices_growth keys (w : World E) :
  NoDup keys →
  0 <= maxHistory (w_bot w) →
  (∀ t sd, t ∈ keys → stocks (w_bot w) !! t = Some sd →
           len (PriceHistory sd) < Int.max_int) →
  ∃ wf,
    updateAllPrices keys w = Some (tt, wf)
    ∧ orders (w_trace wf) = orders (w_trace w)
    ∧ (atrPeriod (w_bot wf) = atrPeriod (w_bot w)
       ∧ bollingerPeriod (w_bot wf) = bollingerPeriod (w_bot w)
       ∧ riskPercent (w_bot wf) = riskPercent (w_bot w))
    ∧ (∀ t, stocks (w_bot w) !! t = None → stocks (w_bot wf) !! t = None)
    ∧ (∀ t sd, stocks (w_bot w) !! t = Some sd →
         ∃ sd', stocks (w_bot wf) !! t = Some sd'
                ∧ (sd' = sd
                   ∨ (t ∈ keys
                      ∧ len (PriceHistory sd') <= len (PriceHistory sd) + 1))).
Proof.
  intros Hnodup. revert w.
  induction Hnodup as [|ticker keys Hfresh Hnodup IH]; intros w HW Hbound.
  - exists w. split; [reflexivity|]. split; [reflexivity|].
    split; [done|]. split; [done|]. intros t sd Hsd. exists sd. by split; [|left].
  - unfold updateAllPrices in *. cbn [rangeStocks]. unfold bind, getBot.
    destruct (stocks (w_bot w) !! ticker) as [sd0|] eqn:Hlook.
    + destruct (updatePrice_step ticker sd0 w HW
                  (Hbound _ _ ltac:(left) Hlook))
        as (w' & -> & Horders & Hbot).
      assert (Hcfg : atrPeriod (w_bot w') = atrPeriod (w_bot w)
                     ∧ bollingerPeriod (w_bot w') = bollingerPeriod (w_bot w)
                     ∧ riskPercent (w_bot w') = riskPercent (w_bot w)).
      { destruct Hbot as [->|(sd1 & -> & _)]; done. }
      assert (Hother : ∀ t, t ≠ ticker →
                stocks (w_bot w') !! t = stocks (w_bot w) !! t).
      { intros t Ht. destruct Hbot as [->|(sd1 & -> & _)]; [done|].
        cbn [withStock stocks]. by rewrite lookup_insert_ne. }
      assert (Hself : ∃ sd1, stocks (w_bot w') !! ticker = Some sd1
                ∧ len (PriceHistory sd1) <= len (PriceHistory sd0) + 1).
      { destruct Hbot as [->|(sd1 & -> & Hlen1)].
        - exists sd0. split; [exact Hlook | lia].
        - exists sd1. split; [|exact Hlen1].
          cbn [withStock stocks]. by rewrite lookup_insert_eq. }
      destruct Hself as (sd1 & Hlook1 & Hlen1).
      destruct Hcfg as (Ha & Hb & Hr).
      destruct (IH w') as (wf & Hrun & Horders' & (Ha' & Hb' & Hr') & Hnone
                           & Hsome).
      * rewrite (maxHistory_config _ (w_bot w)) by assumption. exact HW.
      * intros t sd Hin Hsd.
        rewrite Hother in Hsd by (intros ->; done).
        apply (Hbound t sd); [by right | exact Hsd].
      * exists wf. split; [exact Hrun|]. split; [congruence|].
        split; [repeat split; congruence|]. split.
        -- intros t Ht. apply Hnone.
           destruct (decide (t = ticker)) as [->|Hne]; [congruence|].
           by rewrite Hother.
        -- intros t sd Hsd. destruct (decide (t = ticker)) as [->|Hne].
           ++ rewrite Hlook in Hsd. injection Hsd as <-.
              destruct (Hsome ticker sd1 Hlook1) as (sd' & Hf & [->|[Hin _]]);
                [|done].
              exists sd1. split; [exact Hf|]. right. split; [by left|lia].
           ++ destruct (Hsome t sd) as (sd' & Hf & Hcase);
                [by rewrite Hother|].
              exists sd'. split; [exact Hf|].
              destruct Hcase as [->|[Hin Hlen']]; [by left|].
              right. split; [by right | exact Hlen'].
    + unfold ret.
      destruct (IH w HW) as (wf & Hrun & Horders' & Hcfg & Hnone & Hsome).
      { intros t sd Hin. apply Hbound. by right. }
      exists wf. split; [exact Hrun|]. split; [exact Horders'|].
      split; [exact Hcfg|]. split; [exact Hnone|].
      intros t sd Hsd. destruct (Hsome t sd Hsd) as (sd' & Hf & Hcase).
      exists sd'. split; [exact Hf|].
      destruct Hcase as [->|[Hin Hlen']]; [by left|].
      right. split; [by right | exact Hlen'].
Qed.

(** The loop of [executeTrading] over the map: the orders it places are for
    visited tickers whose record is warmed up and priced, one at most for
    each visit. *)
Lemma executeAll_run positions portfolioValue keys : ∀ (w : World E),
  ∃ w' placed,
    rangeStocks keys (λ ticker stockData,
      executeTrading ticker stockData positions portfolioValue) w
    = Some (tt, w')
    ∧ w_bot w' = w_bot w
    ∧ orders (w_trace w') = orders (w_trace w) ++ placed
    ∧ (∀ t q, (t, q) ∈ placed →
         t ∈ keys
         ∧ ∃ sd, stocks (w_bot w) !! t = Some sd
                 ∧ maxHistory (w_bot w) <= len (PriceHistory sd)
                 ∧ eqb (CurrentPrice sd) zero = false)
    ∧ (NoDup keys → NoDup placed.*1).
Proof.
  induction keys as [|ticker keys IH]; intros w.
  - exists w, []. cbn [rangeStocks]. unfold ret. split; [reflexivity|].
    split; [reflexivity|]. split; [by rewrite app_nil_r|].
    split; [|intros _; constructor].
    intros t q Hin. by apply elem_of_nil in Hin.
  - cbn [rangeStocks]. unfold bind, getBot.
    destruct (stocks (w_bot w) !! ticker) as [sd|] eqn:Hlook.
    + destruct (executeTrading_run ticker sd positions portfolioValue w)
        as (w1 & -> & Hbot1 & Hcase).
      destruct (IH w1) as (w' & placed & Hrun & Hbot & Horders & Hwhich & Hnd).
      rewrite Hbot1 in *.
      destruct Hcase as [[Hsame _]|(Hdata & Hprice & Hone)].
      * exists w', placed. split; [exact Hrun|]. split; [exact Hbot|].
        split; [congruence|]. split.
        -- intros t q Hin. destruct (Hwhich t q Hin) as [Hk Hsd].
           split; [by right | exact Hsd].
        -- intros Hnodup. apply Hnd. by apply NoDup_cons in Hnodup as [_ ?].
      * eexists w', (_ :: placed). split; [exact Hrun|]. split; [exact Hbot|].
        split; [rewrite Horders, Hone, <- app_assoc; reflexivity|]. split.
        -- intros t q Hin. apply elem_of_cons in Hin as [Heq|Hin].
           ++ injection Heq as -> ->. split; [by left|]. by exists sd.
           ++ destruct (Hwhich t q Hin) as [Hk Hsd].
              split; [by right | exact Hsd].
        -- intros Hnodup. apply NoDup_cons in Hnodup as [Hfresh Hnodup].
           cbn [fmap list_fmap fst]. apply NoDup_cons. split; [|by apply Hnd].
           intros Hin. apply list_elem_of_fmap in Hin as ([t q] & -> & Hin).
           apply Hfresh. by apply (Hwhich t q).
    + unfold ret. destruct (IH w)
        as (w' & placed & Hrun & Hbot & Horders & Hwhich & Hnd).
      exists w', placed. split; [exact Hrun|]. split; [exact Hbot|].
      split; [exact Horders|]. split.
      * intros t q Hin. destruct (Hwhich t q Hin) as [Hk Hsd].
        split; [by right | exact Hsd].
      * intros Hnodup. apply Hnd. by apply NoDup_cons in Hnodup as [_ ?].
Qed.

(** X15. The trading steps of a cycle ([updateAllPrices],
    [calculateAllIndicators], then [executeTrading] for every record), in
    any three orders of the map, never panic, and every order they submit
    is for a tracked ticker whose history held at least [maxHistory - 1]
    samples before the cycle, and whose record after the cycle is warmed up
    with a price that is not [0]: a ticker with a shorter history, or one
    that is not tracked, gets no order. Each ticker gets at most one order
    per cycle. *)
Theorem tradingSteps_orders_only_after_warm_up keys1 keys2 keys3 positions
    portfolioValue (w : World E) :
  NoDup keys1 → NoDup keys2 → NoDup keys3 →
  0 <= atrPeriod (w_bot w) < 2 ^ 53 →
  0 <= bollingerPeriod (w_bot w) < 2 ^ 53 →
  (∀ t sd, stocks (w_bot w) !! t = Some sd →
           len (PriceHistory sd) < Int.max_int) →
  ∃ w' placed,
    tradingSteps keys1 keys2 keys3 positions portfolioValue w = Some (tt, w')
    ∧ orders (w_trace w') = orders (w_trace w) ++ placed
    ∧ NoDup placed.*1
    ∧ ∀ t q, (t, q) ∈ placed →
        t ∈ keys3
        ∧ (∃ sd, stocks (w_bot w) !! t = Some sd
                 ∧ maxHistory (w_bot w) - 1 <= len (PriceHistory sd))
        ∧ ∃ sd', stocks (w_bot w') !! t = Some sd'
                 ∧ maxHistory (w_bot w) <= len (PriceHistory sd')
                 ∧ eqb (CurrentPrice sd') zero = false.
Proof.
  intros Hnd1 Hnd2 Hnd3 Ha Hb Hbound.
  pose proof (maxHistory_max (w_bot w) Ha Hb) as HW.
  destruct (updateAllPrices_growth keys1 w Hnd1 ltac:(lia)
              (λ t sd _, Hbound t sd))
    as (w1 & Hrun1 & Horders1 & (Ha1 & Hb1 & Hr1) & Hnone1 & Hsome1).
  assert (Hbound1 : ∀ t sd, stocks (w_bot w1) !! t = Some sd →
            ∃ sd0, stocks (w_bot w) !! t = Some sd0
                   ∧ len (PriceHistory sd) <= len (PriceHistory sd0) + 1).
  { intros t sd Hsd. destruct (stocks (w_bot w) !! t) as [sd0|] eqn:Hlook.
    - exists sd0. split; [reflexivity|].
      destruct (Hsome1 t sd0 Hlook) as (sd' & Hf & Hcase).
      rewrite Hsd in Hf. injection Hf as <-.
      destruct Hcase as [->|[_ Hlen]]; lia.
    - rewrite (Hnone1 t Hlook) in Hsd. discriminate. }
  destruct (calculateAllIndicators_run keys2 w1 Hnd2)
    as (w2 & Hrun2 & He2 & Ht2 & (Ha2 & Hb2 & Hr2) & Hframe2 & Hin2 & Hnone2).
  { rewrite Ha1. exact Ha. }
  { rewrite Hb1. lia. }
  { intros t sd _ Hsd. destruct (Hbound1 t sd Hsd) as (sd0 & Hlook & Hlen).
    pose proof (Hbound t sd0 Hlook). lia. }
  assert (Hhist2 : ∀ t sd, stocks (w_bot w2) !! t = Some sd →
            ∃ sd1, stocks (w_bot w1) !! t = Some sd1
                   ∧ PriceHistory sd = PriceHistory sd1).
  { intros t sd Hsd. destruct (stocks (w_bot w1) !! t) as [sd1|] eqn:Hlook.
    - exists sd1. split; [reflexivity|].
      destruct (decide (t ∈ keys2)) as [Hk|Hk].
      + destruct (Hin2 t sd1 Hk Hlook) as (ind & Hf & _).
        rewrite Hsd in Hf. by injection Hf as ->.
      + rewrite (Hframe2 t Hk), Hlook in Hsd. by injection Hsd as ->.
    - rewrite (Hnone2 t Hlook) in Hsd. discriminate. }
  destruct (executeAll_run positions portfolioValue keys3 w2)
    as (w3 & placed & Hrun3 & Hbot3 & Horders3 & Hwhich & Hnodup).
  exists w3, placed. split.
  { unfold tradingSteps, bind. rewrite Hrun1, Hrun2. exact Hrun3. }
  split; [rewrite Horders3, Ht2, Horders1; reflexivity|].
  split; [by apply Hnodup|].
  intros t q Hin.
  destruct (Hwhich t q Hin) as (Hk & sd2 & Hlook2 & Hdata & Hprice).
  split; [exact Hk|].
  destruct (Hhist2 t sd2 Hlook2) as (sd1 & Hlook1 & Hh).
  destruct (Hbound1 t sd1 Hlook1) as (sd0 & Hlook0 & Hlen).
  rewrite (maxHistory_config (w_bot w2) (w_bot w)) in Hdata by congruence.
  split.
  - exists sd0. split; [exact Hlook0|]. rewrite Hh in Hdata. lia.
  - exists sd2. rewrite Hbot3. split; [exact Hlook2|].
    split; [exact Hdata | exact Hprice].
Qed.
End CycleProperties.

(** NVDA has 20 samples and TSLA none: whatever the cycle does for NVDA, it
    places no order for TSLA. *)
Lemma tradingSteps_orders_only_after_warm_up_witness :
  (NoDup ["NVDA"%string; "TSLA"%string]
   ∧ 0 <= atrPeriod (w_bot emptyAccountWorld) < 2 ^ 53
   ∧ 0 <= bollingerPeriod (w_bot emptyAccountWorld) < 2 ^ 53)
  ∧ ∃ w' placed,
      tradingSteps ["NVDA"%string; "TSLA"%string]
        ["NVDA"%string; "TSLA"%string] ["NVDA"%string; "TSLA"%string]
        [] (of_int 10000) emptyAccountWorld
      = Some (tt, w')
      ∧ orders (w_trace w') = placed
      ∧ ∀ q, ("TSLA"%string, q) ∉ placed.
Proof.
  assert (H1 : NoDup ["NVDA"%string; "TSLA"%string]).
  { apply NoDup_cons. split; [|apply NoDup_singleton].
    intros Hin. apply list_elem_of_singleton in Hin. discriminate. }
  assert (H2 : 0 <= atrPeriod (w_bot emptyAccountWorld) < 2 ^ 53)
    by (vm_compute; split; [discriminate | reflexivity]).
  assert (H3 : 0 <= bollingerPeriod (w_bot emptyAccountWorld) < 2 ^ 53)
    by (vm_compute; split; [discriminate | reflexivity]).
  split; [split; [exact H1 | split; [exact H2 | exact H3]]|].
  destruct (@tradingSteps_orders_only_after_warm_up unit Empty_Runtime
              ["NVDA"%string; "TSLA"%string] ["NVDA"%string; "TSLA"%string]
              ["NVDA"%string; "TSLA"%string] [] (of_int 10000)
              emptyAccountWorld H1 H1 H1 H2 H3)
    as (w' & placed & Hrun & Horders & _ & Hwhich).
  - intros t sd Hsd.
    destruct (decide (t = "NVDA"%string)) as [->|Hn].
    + vm_compute in Hsd. injection Hsd as <-. vm_compute. reflexivity.
    + destruct (decide (t = "TSLA"%string)) as [->|Ht].
      * vm_compute in Hsd. injection Hsd as <-. vm_compute. reflexivity.
      * unfold emptyAccountWorld, warmColdBot in Hsd. cbn [w_bot stocks] in Hsd.
        rewrite !lookup_insert_ne, lookup_empty in Hsd by done.
        discriminate.
  - exists w', placed. split; [exact Hrun|]. split; [exact Horders|].
    intros q Hin. destruct (Hwhich _ _ Hin) as (_ & (sd & Hsd & Hlen) & _).
    vm_compute in Hsd. injection Hsd as <-. vm_compute in Hlen.
    apply Hlen. reflexivity.
Defined.
